(** * IFRC PER data processing: a shallow embedding of [process_data.py]

    The Python program reads five JSON documents and derives four
    dashboard collections from them.  This development embeds the
    transformation (everything between [json.load] and [json.dump]) and
    proves properties of its stages.

    Conventions of the embedding:
    - a value produced by [json.load] is a [value]; a Python [str] is a
      Rocq [string] whose characters are the code points U+0000..U+00FF;
      a finite float is the rational it denotes;
    - Python exceptions are the [Raise] outcomes of the [result] monad;
    - dictionaries that the program itself builds with a fixed set of keys
      are Rocq records whose fields are named after the keys;
    - dictionaries used as lookup tables are association lists in
      insertion order, searched with Python's [==]. *)

From Stdlib Require Import ZArith QArith NArith Bool Lia.
From Stdlib Require Import Ascii String Sorted.
From Stdlib Require OrdersEx.
From stdpp Require Import base list.

Set Default Proof Using "Type".
Local Set Warnings "-register-all".
Local Open Scope string_scope.
Local Open Scope list_scope.

(** ** JSON values and the Python operations on them *)

Inductive value : Type :=
| VNone
| VBool (b : bool)
| VInt (z : Z)
| VFloat (q : Q)
| VStr (s : string)
| VList (l : list value)
| VDict (d : list (string * value)).

Inductive exn : Type := KeyError | TypeError | AttributeError | IndexError.

Inductive result (A : Type) : Type :=
| Ok (a : A)
| Raise (e : exn).
Arguments Ok {A} a.
Arguments Raise {A} e.

Definition bind {A B : Type} (m : result A) (k : A -> result B) : result B :=
  match m with
  | Ok a => k a
  | Raise e => Raise e
  end.

Declare Scope py_scope.
Delimit Scope py_scope with py.
Notation "'do' x <- m ; k" := (bind m (fun x => k))
  (at level 10, x name, m at level 100, k at level 200) : py_scope.
Local Open Scope py_scope.

(** [for x in xs: acc = f acc x], where the body may raise. *)
Fixpoint foldM {A B : Type} (f : B -> A -> result B) (acc : B) (xs : list A)
  : result B :=
  match xs with
  | [] => Ok acc
  | x :: xs' => do acc' <- f acc x; foldM f acc' xs'
  end.

(** A loop that appends one element per iteration to a fresh list. *)
Fixpoint mapM {A B : Type} (f : A -> result B) (xs : list A) : result (list B) :=
  match xs with
  | [] => Ok []
  | x :: xs' => do y <- f x; do ys <- mapM f xs'; Ok (y :: ys)
  end.

(** Truth value testing ([if v], [not v], [v or w]). *)
Definition truthy (v : value) : bool :=
  match v with
  | VNone => false
  | VBool b => b
  | VInt z => negb (z =? 0)%Z
  | VFloat q => negb (Qeq_bool q 0)
  | VStr s => negb (s =? "")%string
  | VList l => match l with [] => false | _ => true end
  | VDict d => match d with [] => false | _ => true end
  end.

(** [a or b] *)
Definition py_or (a b : value) : value := if truthy a then a else b.

(** Numbers compare by value across [bool], [int] and [float]. *)
Definition num_val (v : value) : option Q :=
  match v with
  | VBool b => Some (inject_Z (if b then 1 else 0))
  | VInt z => Some (inject_Z z)
  | VFloat q => Some q
  | _ => None
  end.

Fixpoint dict_get (k : string) (d : list (string * value)) : option value :=
  match d with
  | [] => None
  | (k', v) :: d' => if (k' =? k)%string then Some v else dict_get k d'
  end.

(** Python's [==] on JSON values. *)
Fixpoint py_eq (a b : value) {struct a} : bool :=
  match a, b with
  | VNone, VNone => true
  | VStr s, VStr t => (s =? t)%string
  | VList l, VList m =>
      (fix list_eq (l : list value) (m : list value) {struct l} : bool :=
         match l, m with
         | [], [] => true
         | x :: l', y :: m' => py_eq x y && list_eq l' m'
         | _, _ => false
         end) l m
  | VDict d, VDict e =>
      (length d =? length e)%nat &&
      (fix sub (d : list (string * value)) {struct d} : bool :=
         match d with
         | [] => true
         | (k, v) :: d' =>
             match dict_get k e with
             | Some w => py_eq v w && sub d'
             | None => false
             end
         end) d
  | _, _ =>
      match num_val a, num_val b with
      | Some p, Some q => Qeq_bool p q
      | _, _ => false
      end
  end.

(** Only [None], numbers and strings can be dictionary keys. *)
Definition hashable (v : value) : bool :=
  match v with
  | VList _ | VDict _ => false
  | _ => true
  end.

(** [v[k]] for a string [k]. *)
Definition py_getitem (v : value) (k : string) : result value :=
  match v with
  | VDict d => match dict_get k d with Some x => Ok x | None => Raise KeyError end
  | _ => Raise TypeError
  end.

(** [v.get(k, dflt)]; only dictionaries have a [get] method. *)
Definition py_get_default (v : value) (k : string) (dflt : value) : result value :=
  match v with
  | VDict d => Ok (default dflt (dict_get k d))
  | _ => Raise AttributeError
  end.

(** [v.get(k)] *)
Definition py_get (v : value) (k : string) : result value :=
  py_get_default v k VNone.

(** The elements a [for] loop over [v] visits. *)
Definition py_iter (v : value) : result (list value) :=
  match v with
  | VList l => Ok l
  | VStr s => Ok (map (fun c => VStr (String c EmptyString)) (list_ascii_of_string s))
  | VDict d => Ok (map (fun kv => VStr (fst kv)) d)
  | _ => Raise TypeError
  end.

(** [len(v)] *)
Definition py_len (v : value) : result nat :=
  match v with
  | VList l => Ok (length l)
  | VStr s => Ok (String.length s)
  | VDict d => Ok (length d)
  | _ => Raise TypeError
  end.

(** ** Text classifier ([contains_affirmative_word], lines 18-43) *)

Definition codepoints (s : string) : list N :=
  map N_of_ascii (list_ascii_of_string s).

(** [str.lower] on one character of U+0000..U+00FF: the letters A-Z and
    the Latin-1 capitals U+00C0..U+00DE (the multiplication sign U+00D7
    is not a letter) move down by 32; nothing else changes. *)
Definition lower_char (c : N) : N :=
  if ((65 <=? c) && (c <=? 90) || (192 <=? c) && (c <=? 222) && negb (c =? 215))%N
  then (c + 32)%N else c.

(** Canonical decomposition of the lower-case letters of U+00E0..U+00FF:
    base letter and combining mark. *)
Definition decomp_lower (c : N) : option (N * N) :=
  match c with
  | 224 => Some (97, 768) | 225 => Some (97, 769) | 226 => Some (97, 770)
  | 227 => Some (97, 771) | 228 => Some (97, 776) | 229 => Some (97, 778)
  | 231 => Some (99, 807)
  | 232 => Some (101, 768) | 233 => Some (101, 769) | 234 => Some (101, 770)
  | 235 => Some (101, 776)
  | 236 => Some (105, 768) | 237 => Some (105, 769) | 238 => Some (105, 770)
  | 239 => Some (105, 776)
  | 241 => Some (110, 771)
  | 242 => Some (111, 768) | 243 => Some (111, 769) | 244 => Some (111, 770)
  | 245 => Some (111, 771) | 246 => Some (111, 776)
  | 249 => Some (117, 768) | 250 => Some (117, 769) | 251 => Some (117, 770)
  | 252 => Some (117, 776)
  | 253 => Some (121, 769) | 255 => Some (121, 776)
  | _ => None
  end%N.

(** [unicodedata.normalize('NFD', _)] on one character of U+0000..U+00FF.
    A capital of U+00C0..U+00DE decomposes like its lower-case letter,
    with the capital base letter. *)
Definition nfd_char (c : N) : list N :=
  match decomp_lower c with
  | Some (b, m) => [b; m]
  | None =>
      if ((192 <=? c) && (c <=? 222))%N then
        match decomp_lower (c + 32) with
        | Some (b, m) => [(b - 32)%N; m]
        | None => [c]
        end
      else [c]
  end.

(** [unicodedata.category(char) == 'Mn'] on the code points that can
    occur after [nfd_char]: below U+0100 there is no nonspacing mark, and
    the combining diacritical marks U+0300..U+036F all are. *)
Definition is_Mn (c : N) : bool := ((768 <=? c) && (c <=? 879))%N.

Fixpoint starts_with (w t : list N) : bool :=
  match w, t with
  | [], _ => true
  | _ :: _, [] => false
  | a :: w', b :: t' => (a =? b)%N && starts_with w' t'
  end.

(** [w in t] on strings: [w] occurs as a contiguous run of [t]. *)
Fixpoint substring_in (w t : list N) : bool :=
  starts_with w t ||
  match t with
  | [] => false
  | _ :: t' => substring_in w t'
  end.

Definition affirmative_words : list (list N) :=
  [codepoints "yes"; [115; 237]%N; codepoints "si"].

Definition normalize_text (s : string) : list N :=
  let lowered := map lower_char (codepoints s) in
  let decomposed := flat_map nfd_char lowered in
  List.filter (fun c => negb (is_Mn c)) decomposed.

Definition is_str (v : value) : bool :=
  match v with VStr _ => true | _ => false end.

Definition contains_affirmative_word (text : value) : bool :=
  if negb (truthy text) || negb (is_str text) then false
  else
    match text with
    | VStr s => existsb (fun word => substring_in word (normalize_text s)) affirmative_words
    | _ => false
    end.

(** ** Dictionaries built by the program

    A Python [dict] keeps insertion order and identifies keys with [==]
    (so [1], [1.0] and [True] are one key); storing under an existing key
    keeps the position of the key and replaces its value. *)

Section PyDict.
Context {V : Type}.

Fixpoint map_find (k : value) (m : list (value * V)) : option V :=
  match m with
  | [] => None
  | (k', v) :: m' => if py_eq k' k then Some v else map_find k m'
  end.

Fixpoint map_insert (k : value) (v : V) (m : list (value * V)) : list (value * V) :=
  match m with
  | [] => [(k, v)]
  | (k', v') :: m' =>
      if py_eq k' k then (k', v) :: m' else (k', v') :: map_insert k v m'
  end.

(** [m.get(k, dflt)]: hashing a list or a dict raises [TypeError]. *)
Definition dict_lookup (m : list (value * V)) (k : value) (dflt : V) : result V :=
  if hashable k then Ok (default dflt (map_find k m)) else Raise TypeError.

(** [m[k] = v] *)
Definition dict_store (m : list (value * V)) (k : value) (v : V)
  : result (list (value * V)) :=
  if hashable k then Ok (map_insert k v m) else Raise TypeError.
End PyDict.

(** ** Lookup builders (lines 104-170) *)

Record overview_fields : Type := {
  ov_assess_preparedness_of_country : value;
  ov_assess_urban_aspect_of_country : value;
  ov_assess_climate_environment_of_country : value;
  ov_assess_migration_aspect_of_country : value
}.

(** Lines 106-114: the key is evaluated, then the value, then stored. *)
Definition overview_entry (m : list (value * overview_fields)) (overview : value)
  : result (list (value * overview_fields)) :=
  do k <- py_getitem overview "id";
  do a <- py_get overview "assess_preparedness_of_country";
  do b <- py_get overview "assess_urban_aspect_of_country";
  do c <- py_get overview "assess_climate_environment_of_country";
  do d <- py_get overview "assess_migration_aspect_of_country";
  dict_store m k
    {| ov_assess_preparedness_of_country := a;
       ov_assess_urban_aspect_of_country := b;
       ov_assess_climate_environment_of_country := c;
       ov_assess_migration_aspect_of_country := d |}.

Definition build_overview_map (results : list value)
  : result (list (value * overview_fields)) :=
  foldM overview_entry [] results.

Record country_entry : Type := {
  ce_centroid : value;
  ce_iso3 : value;
  ce_region : value;
  ce_name : value
}.

(** Lines 117-125. *)
Definition country_map_entry (m : list (value * country_entry)) (country : value)
  : result (list (value * country_entry)) :=
  do k <- py_getitem country "iso3";
  do centroid <- py_get country "centroid";
  do iso3 <- py_getitem country "iso3";
  do region <- py_get country "region";
  do name <- py_get country "name";
  dict_store m k
    {| ce_centroid := centroid; ce_iso3 := iso3; ce_region := region; ce_name := name |}.

Definition build_country_map (results : list value)
  : result (list (value * country_entry)) :=
  foldM country_map_entry [] results.

Record component_description : Type := {
  cd_componentTitle : value;
  cd_areaTitle : value;
  cd_description : value
}.

(** Lines 130-138, the body of the inner loop. *)
Definition describe_response (m : list (value * component_description)) (response : value)
  : result (list (value * component_description)) :=
  do component <- py_get_default response "component_details" (VDict []);
  do component_id <- py_get component "id";
  if truthy component_id then
    do title <- py_get component "title";
    do area <- py_get_default component "area" (VDict []);
    do area_title <- py_get area "title";
    do description <- py_get component "description";
    dict_store m component_id
      {| cd_componentTitle := title; cd_areaTitle := area_title;
         cd_description := description |}
  else Ok m.

(** Lines 128-138. *)
Definition build_component_descriptions (results : list value)
  : result (list (value * component_description)) :=
  foldM (fun m item =>
           do responses <- py_get_default item "prioritized_action_responses" (VList []);
           do rs <- py_iter responses;
           foldM describe_response m rs)
        [] results.

Record prioritized_component : Type := {
  componentId : value;
  componentTitle : value;
  areaTitle : value
}.

(** Lines 146-151. *)
Definition prioritized_of_response (response : value) : result prioritized_component :=
  do component_details <- py_get_default response "component_details" (VDict []);
  do cid <- py_get response "component";
  do title <- py_get component_details "title";
  do area <- py_get_default component_details "area" (VDict []);
  do area_title <- py_get area "title";
  Ok {| componentId := cid; componentTitle := title; areaTitle := area_title |}.

(** Lines 141-152: the value stored is [{'components': components}]. *)
Definition build_prioritization_map (results : list value)
  : result (list (value * list prioritized_component)) :=
  foldM (fun m item =>
           do overview_id <- py_get item "overview";
           do responses <- py_get_default item "prioritized_action_responses" (VList []);
           do rs <- py_iter responses;
           do components <- mapM prioritized_of_response rs;
           dict_store m overview_id components)
        [] results.

Definition region_id_to_name_map : list (value * value) :=
  [ (VInt 0, VStr "Africa"); (VInt 1, VStr "Americas");
    (VInt 2, VStr "Asia Pacific"); (VInt 3, VStr "Europe"); (VInt 4, VStr "MENA") ].

Definition area_names : list (value * value) :=
  [ (VInt 1, VStr "Policy Strategy and Standards");
    (VInt 2, VStr "Analysis and planning");
    (VInt 3, VStr "Operational capacity");
    (VInt 4, VStr "Coordination");
    (VInt 5, VStr "Operations support") ].

(** ** Assessment normalizer (lines 172-237) *)

(** [for area_response in assessment.get('area_responses', [])] *)
Definition area_responses_of (assessment : value) : result (list value) :=
  do ars <- py_get_default assessment "area_responses" (VList []);
  py_iter ars.

(** [for component_response in area_response.get('component_responses', [])] *)
Definition component_responses_of (area_response : value) : result (list value) :=
  do crs <- py_get_default area_response "component_responses" (VList []);
  py_iter crs.

Record simplified_rating_details : Type := {
  srd_id : value;
  srd_value : value;
  srd_title : value
}.

Record simplified_component_details : Type := {
  scd_id : value;
  scd_component_num : value;
  scd_area : value;
  scd_title : value;
  scd_description : value
}.

Record processed_component : Type := {
  pc_id : value;
  pc_component : value;
  pc_rating : value;
  pc_rating_details : simplified_rating_details;
  pc_component_details : simplified_component_details;
  pc_urban_considerations : value;
  pc_epi_considerations : value;
  pc_climate_environmental_considerations : value;
  pc_migration_considerations : value;
  pc_urban_considerations_simplified : bool;
  pc_epi_considerations_simplified : bool;
  pc_climate_environmental_considerations_simplified : bool;
  pc_migration_considerations_simplified : bool;
  pc_notes : value
}.

Record processed_area : Type := {
  pa_id : value;
  pa_component_responses : list processed_component
}.

Record processed_result : Type := {
  pr_id : value;
  pr_area_responses : list processed_area
}.

(** Lines 187-233, the body of the innermost loop. *)
Definition process_component (component_response : value) : result processed_component :=
  do cd0 <- py_get component_response "component_details";
  let component_details := py_or cd0 (VDict []) in
  do rd0 <- py_get component_response "rating_details";
  let rating_details := py_or rd0 (VDict []) in
  do cd_id <- py_get component_details "id";
  do cd_num <- py_get component_details "component_num";
  do cd_area <- py_get component_details "area";
  do cd_title <- py_get component_details "title";
  do cd_descr <- py_get component_details "description";
  do rd_id <- py_get rating_details "id";
  do rd_value <- py_get rating_details "value";
  do rd_title <- py_get rating_details "title";
  do urban_considerations <- py_get component_response "urban_considerations";
  do epi_considerations <- py_get component_response "epi_considerations";
  do climate_environmental_considerations <-
    py_get component_response "climate_environmental_considerations";
  do migration_considerations <- py_get component_response "migration_considerations";
  do id <- py_getitem component_response "id";
  do component <- py_get component_response "component";
  do rating <- py_get component_response "rating";
  do notes <- py_get component_response "notes";
  Ok {| pc_id := id;
        pc_component := component;
        pc_rating := rating;
        pc_rating_details :=
          {| srd_id := rd_id; srd_value := rd_value; srd_title := rd_title |};
        pc_component_details :=
          {| scd_id := cd_id; scd_component_num := cd_num; scd_area := cd_area;
             scd_title := cd_title; scd_description := cd_descr |};
        pc_urban_considerations := urban_considerations;
        pc_epi_considerations := epi_considerations;
        pc_climate_environmental_considerations := climate_environmental_considerations;
        pc_migration_considerations := migration_considerations;
        pc_urban_considerations_simplified :=
          contains_affirmative_word urban_considerations;
        pc_epi_considerations_simplified :=
          contains_affirmative_word epi_considerations;
        pc_climate_environmental_considerations_simplified :=
          contains_affirmative_word climate_environmental_considerations;
        pc_migration_considerations_simplified :=
          contains_affirmative_word migration_considerations;
        pc_notes := notes |}.

(** Lines 180-235: [area_response['id']] is read before the inner loop. *)
Definition process_area (area_response : value) : result processed_area :=
  do id <- py_getitem area_response "id";
  do component_responses <- component_responses_of area_response;
  do processed <- mapM process_component component_responses;
  Ok {| pa_id := id; pa_component_responses := processed |}.

(** Lines 174-237. *)
Definition process_result (result_ : value) : result processed_result :=
  do id <- py_getitem result_ "id";
  do area_responses <- area_responses_of result_;
  do processed <- mapM process_area area_responses;
  Ok {| pr_id := id; pr_area_responses := processed |}.

Definition process_assessments (results : list value) : result (list processed_result) :=
  mapM process_result results.

(** ** Dashboard flattener (lines 239-262) *)

Record dashboard_component : Type := {
  dc_component_id : value;
  dc_component_name : value;
  dc_component_num : value;
  dc_area_id : value;
  dc_area_name : value;
  dc_rating_value : value;
  dc_rating_title : value
}.

Record dashboard_assessment : Type := {
  da_assessment_id : value;
  da_components : list dashboard_component
}.

(** Lines 246-257. *)
Definition flatten_component (component_response : value) : result dashboard_component :=
  do cd0 <- py_get component_response "component_details";
  let component_details := py_or cd0 (VDict []) in
  do rd0 <- py_get component_response "rating_details";
  let rating_details := py_or rd0 (VDict []) in
  do component_id <- py_get component_response "component";
  do component_name <- py_get_default component_details "title" (VStr "");
  do component_num <- py_get component_details "component_num";
  do area_id <- py_get component_details "area";
  do area_key <- py_get component_details "area";
  do area_name <- dict_lookup area_names area_key (VStr "");
  do rating_value <- py_get_default rating_details "value" (VInt 0);
  do rating_title <- py_get_default rating_details "title" (VStr "");
  Ok {| dc_component_id := component_id;
        dc_component_name := component_name;
        dc_component_num := component_num;
        dc_area_id := area_id;
        dc_area_name := area_name;
        dc_rating_value := rating_value;
        dc_rating_title := rating_title |}.

(** Lines 244-257: the components of all areas, in order, in one list. *)
Definition flatten_area (area_response : value) : result (list dashboard_component) :=
  do component_responses <- component_responses_of area_response;
  mapM flatten_component component_responses.

(** Lines 241-262: [assessment['id']] is read after the loops. *)
Definition flatten_assessment (assessment : value) : result dashboard_assessment :=
  do area_responses <- area_responses_of assessment;
  do per_area <- mapM flatten_area area_responses;
  do id <- py_getitem assessment "id";
  Ok {| da_assessment_id := id; da_components := concat per_area |}.

Definition build_dashboard_assessments (results : list value)
  : result (list dashboard_assessment) :=
  mapM flatten_assessment results.

(** ** Per-assessment consideration flags (lines 264-289) *)

Record considerations : Type := {
  cs_epi_considerations : bool;
  cs_climate_environmental_considerations : bool;
  cs_urban_considerations : bool;
  cs_migration_considerations : bool
}.

Definition all_components (assessment : processed_result) : list processed_component :=
  concat (map pa_component_responses (pr_area_responses assessment)).

(** Lines 268-289: each flag starts [False] and is set by any component. *)
Definition assessment_considerations (assessment : processed_result) : considerations :=
  let cs := all_components assessment in
  {| cs_epi_considerations := existsb pc_epi_considerations_simplified cs;
     cs_climate_environmental_considerations :=
       existsb pc_climate_environmental_considerations_simplified cs;
     cs_urban_considerations := existsb pc_urban_considerations_simplified cs;
     cs_migration_considerations := existsb pc_migration_considerations_simplified cs |}.

Definition build_considerations_map (processed : list processed_result)
  : result (list (value * considerations)) :=
  foldM (fun m assessment =>
           dict_store m (pr_id assessment) (assessment_considerations assessment))
        [] processed.

(** ** Status joiner (lines 291-367) *)

Record lookups : Type := {
  country_map : list (value * country_entry);
  prioritization_map : list (value * list prioritized_component);
  dashboard_assessments : list dashboard_assessment;
  assessment_considerations_map : list (value * considerations);
  overview_map : list (value * overview_fields)
}.

Record joined_record : Type := {
  jr_id : value;
  jr_assessment_number : value;
  jr_date_of_assessment : value;
  jr_country_id : value;
  jr_country_name : value;
  jr_phase : value;
  jr_phase_display : value;
  jr_type_of_assessment : value;
  jr_type_of_assessment_name : value;
  jr_country_iso3 : value;
  jr_region_id : value;
  jr_region_name : value;
  jr_latitude : value;
  jr_longitude : value;
  jr_updated_at : value;
  jr_prioritized_components : list prioritized_component;
  jr_epi_considerations : bool;
  jr_climate_environmental_considerations : bool;
  jr_urban_considerations : bool;
  jr_migration_considerations : bool;
  jr_assess_preparedness_of_country : value;
  jr_assess_urban_aspect_of_country : value;
  jr_assess_climate_environment_of_country : value;
  jr_assess_migration_aspect_of_country : value;
  jr_components : list dashboard_component
}.

(** [country_map.get(country_iso3, {})]: [None] stands for the empty
    dictionary, whose [get] returns [None] for every key. *)
Definition find_country (m : list (value * country_entry)) (iso3 : value)
  : result (option country_entry) :=
  if hashable iso3 then Ok (map_find iso3 m) else Raise TypeError.

Definition country_data_get (f : country_entry -> value)
  (country_data : option country_entry) : value :=
  match country_data with
  | Some e => f e
  | None => VNone
  end.

(** [country_details.get(k) if country_details else None] *)
Definition inline_get (country_details : value) (k : string) : result value :=
  if truthy country_details then py_get country_details k else Ok VNone.

(** Line 298: the right operand of [or] is evaluated only when the
    left one is falsy. *)
Definition resolve_region_id (country_data : option country_entry)
  (country_details : value) : result value :=
  let r := country_data_get ce_region country_data in
  if truthy r then Ok r else inline_get country_details "region".

(** Lines 302-306. *)
Fixpoint find_dashboard_assessment (das : list dashboard_assessment)
  (assessment : value) : list dashboard_component :=
  match das with
  | [] => []
  | da :: rest =>
      if py_eq (da_assessment_id da) assessment then da_components da
      else find_dashboard_assessment rest assessment
  end.

Definition default_considerations : considerations :=
  {| cs_epi_considerations := false;
     cs_climate_environmental_considerations := false;
     cs_urban_considerations := false;
     cs_migration_considerations := false |}.

Definition default_overview : overview_fields :=
  {| ov_assess_preparedness_of_country := VNone;
     ov_assess_urban_aspect_of_country := VNone;
     ov_assess_climate_environment_of_country := VNone;
     ov_assess_migration_aspect_of_country := VNone |}.

(** Lines 328-332. *)
Definition remap_phase_display (phase_display : value) : value :=
  if py_eq phase_display (VStr "Action And Accountability")
  then VStr "Action & accountability"
  else if py_eq phase_display (VStr "WorkPlan") then VStr "Workplan"
  else phase_display.

(** Lines 335-336. *)
Definition centroid_coordinates (country_data : option country_entry) : result value :=
  let centroid := py_or (country_data_get ce_centroid country_data) (VDict []) in
  if truthy centroid
  then py_get_default centroid "coordinates" (VList [VNone; VNone])
  else Ok (VList [VNone; VNone]).

(** [v[i]] for an integer [i]: a JSON object has only string keys. *)
Definition py_index (v : value) (i : nat) : result value :=
  match v with
  | VList l => match l !! i with Some x => Ok x | None => Raise IndexError end
  | VStr s =>
      match String.get i s with
      | Some c => Ok (VStr (String c EmptyString))
      | None => Raise IndexError
      end
  | VDict _ => Raise KeyError
  | _ => Raise TypeError
  end.

(** Lines 351-352: [coordinates[i] if len(coordinates) > i else None]. *)
Definition coordinate (coordinates : value) (i : nat) : result value :=
  do n <- py_len coordinates;
  if (i <? n)%nat then py_index coordinates i else Ok VNone.

(** Line 347. *)
Definition type_of_assessment_name (status : value) : result value :=
  do details <- py_get status "type_of_assessment_details";
  if truthy details then
    do d <- py_get_default status "type_of_assessment_details" (VDict []);
    py_get d "name"
  else Ok VNone.

(** The body of the loop of lines 293-367, in evaluation order. *)
Definition join_status (env : lookups) (status : value) : result joined_record :=
  do country_details <- py_get_default status "country_details" (VDict []);
  do country_iso3 <- inline_get country_details "iso3";
  do country_data <- find_country (country_map env) country_iso3;
  do region_id <- resolve_region_id country_data country_details;
  do id <- py_getitem status "id";
  do prioritization <- dict_lookup (prioritization_map env) id [];
  do assessment <- py_get status "assessment";
  let components := find_dashboard_assessment (dashboard_assessments env) assessment in
  do considerations <-
    dict_lookup (assessment_considerations_map env) assessment default_considerations;
  do overview <- dict_lookup (overview_map env) id default_overview;
  do phase_display0 <- py_get_default status "phase_display" (VStr "");
  let phase_display := remap_phase_display phase_display0 in
  do coordinates <- centroid_coordinates country_data;
  do assessment_number <- py_get status "assessment_number";
  do date_of_assessment <- py_get status "date_of_assessment";
  do country_id <- py_get status "country";
  do inline_name <- inline_get country_details "name";
  do phase <- py_get status "phase";
  do type_of_assessment <- py_get status "type_of_assessment";
  do type_name <- type_of_assessment_name status;
  do inline_iso3 <- inline_get country_details "iso3";
  do region_name <- dict_lookup region_id_to_name_map region_id VNone;
  do latitude <- coordinate coordinates 1;
  do longitude <- coordinate coordinates 0;
  do updated_at <- py_get status "updated_at";
  Ok {| jr_id := id;
        jr_assessment_number := assessment_number;
        jr_date_of_assessment := date_of_assessment;
        jr_country_id := country_id;
        jr_country_name := py_or inline_name (country_data_get ce_name country_data);
        jr_phase := phase;
        jr_phase_display := phase_display;
        jr_type_of_assessment := type_of_assessment;
        jr_type_of_assessment_name := type_name;
        jr_country_iso3 := py_or inline_iso3 (country_data_get ce_iso3 country_data);
        jr_region_id := region_id;
        jr_region_name := region_name;
        jr_latitude := latitude;
        jr_longitude := longitude;
        jr_updated_at := updated_at;
        jr_prioritized_components := prioritization;
        jr_epi_considerations := cs_epi_considerations considerations;
        jr_climate_environmental_considerations :=
          cs_climate_environmental_considerations considerations;
        jr_urban_considerations := cs_urban_considerations considerations;
        jr_migration_considerations := cs_migration_considerations considerations;
        jr_assess_preparedness_of_country :=
          ov_assess_preparedness_of_country overview;
        jr_assess_urban_aspect_of_country :=
          ov_assess_urban_aspect_of_country overview;
        jr_assess_climate_environment_of_country :=
          ov_assess_climate_environment_of_country overview;
        jr_assess_migration_aspect_of_country :=
          ov_assess_migration_aspect_of_country overview;
        jr_components := components |}.

Definition join_statuses (env : lookups) (statuses : list value)
  : result (list joined_record) :=
  mapM (join_status env) statuses.

(** ** Component grouping (lines 369-432) *)

Record assessment_summary : Type := {
  as_assessment_id : value;
  as_assessment_number : value;
  as_country_id : value;
  as_country_name : value;
  as_region_id : value;
  as_region_name : value;
  as_date_of_assessment : value;
  as_rating_value : value;
  as_rating_title : value
}.

Record component_group : Type := {
  cg_component_id : value;
  cg_component_num : value;
  cg_component_name : value;
  cg_area_id : value;
  cg_area_name : value;
  cg_assessments : list assessment_summary
}.

Definition summary_of (assessment : joined_record) (rating_value rating_title : value)
  : assessment_summary :=
  {| as_assessment_id := jr_id assessment;
     as_assessment_number := jr_assessment_number assessment;
     as_country_id := jr_country_id assessment;
     as_country_name := jr_country_name assessment;
     as_region_id := jr_region_id assessment;
     as_region_name := jr_region_name assessment;
     as_date_of_assessment := jr_date_of_assessment assessment;
     as_rating_value := rating_value;
     as_rating_title := rating_title |}.

(** Lines 377-387. *)
Definition empty_assessment (assessment : joined_record) : assessment_summary :=
  summary_of assessment VNone (VStr "").

(** [item['assessments'].append(s)] on one group. *)
Definition append_assessment (s : assessment_summary) (item : component_group)
  : component_group :=
  {| cg_component_id := cg_component_id item;
     cg_component_num := cg_component_num item;
     cg_component_name := cg_component_name item;
     cg_area_id := cg_area_id item;
     cg_area_name := cg_area_name item;
     cg_assessments := cg_assessments item ++ [s] |}.

(** Lines 390-400: the group list is empty, or its first group is
    mutated in place. *)
Definition add_empty_assessment (assessment : joined_record)
  (grouped : list component_group) : list component_group :=
  match grouped with
  | [] =>
      [ {| cg_component_id := VNone;
           cg_component_num := VNone;
           cg_component_name := VStr "";
           cg_area_id := VNone;
           cg_area_name := VStr "";
           cg_assessments := [empty_assessment assessment] |} ]
  | _ :: _ => alter (append_assessment (empty_assessment assessment)) 0%nat grouped
  end.

(** Lines 405-409: position of the first group whose [component_id]
    equals the one looked for. *)
Fixpoint find_group (component_id : value) (grouped : list component_group)
  : option nat :=
  match grouped with
  | [] => None
  | item :: rest =>
      if py_eq (cg_component_id item) component_id then Some 0%nat
      else option_map S (find_group component_id rest)
  end.

(** Lines 404-432.  [existing_component] is an alias of the group inside
    [grouped], so appending to it updates the list in place; a group that
    was found is a non-empty dictionary, hence truthy. *)
Definition add_component (assessment : joined_record)
  (grouped : list component_group) (component : dashboard_component)
  : list component_group :=
  let component_id := dc_component_id component in
  let s := summary_of assessment (dc_rating_value component) (dc_rating_title component) in
  match find_group component_id grouped with
  | Some i => alter (append_assessment s) i grouped
  | None =>
      grouped ++
      [ {| cg_component_id := component_id;
           cg_component_num := dc_component_num component;
           cg_component_name := dc_component_name component;
           cg_area_id := dc_area_id component;
           cg_area_name := dc_area_name component;
           cg_assessments := [s] |} ]
  end.

(** One iteration of the loop of line 371. *)
Definition group_assessment (grouped : list component_group)
  (assessment : joined_record) : list component_group :=
  let components := jr_components assessment in
  let grouped' :=
    match components with
    | [] => add_empty_assessment assessment grouped
    | _ :: _ => grouped
    end in
  fold_left (add_component assessment) components grouped'.

Definition group_by_component (joined_data : list joined_record)
  : list component_group :=
  fold_left group_assessment joined_data [].

(** ** Country history (lines 434-452) *)

Record country_assessment : Type := {
  ca_assessment_number : value;
  ca_date : value;
  ca_area_ratings : value;
  ca_components : list dashboard_component;
  ca_phase : value;
  ca_phase_display : value
}.

(** Lines 440-447; a joined record has no key ['area_ratings']. *)
Definition country_assessment_of (data : joined_record) : country_assessment :=
  {| ca_assessment_number := jr_assessment_number data;
     ca_date := jr_date_of_assessment data;
     ca_area_ratings := VNone;
     ca_components := jr_components data;
     ca_phase := jr_phase data;
     ca_phase_display := jr_phase_display data |}.

(** Lines 437-447: one iteration of the first loop. *)
Definition track_country (m : list (value * list country_assessment))
  (data : joined_record) : result (list (value * list country_assessment)) :=
  let country_name := jr_country_name data in
  if hashable country_name then
    let existing := default [] (map_find country_name m) in
    Ok (map_insert country_name (existing ++ [country_assessment_of data]) m)
  else Raise TypeError.

(** Python's [<]: numbers with numbers, strings with strings by code
    point, lists lexicographically; anything else raises. *)
Fixpoint py_lt (a b : value) {struct a} : result bool :=
  match a, b with
  | VStr s, VStr t => Ok (String.ltb s t)
  | VList l, VList m =>
      (fix list_lt (l : list value) (m : list value) {struct l} : result bool :=
         match l, m with
         | [], [] => Ok false
         | [], _ :: _ => Ok true
         | _ :: _, [] => Ok false
         | x :: l', y :: m' => if py_eq x y then list_lt l' m' else py_lt x y
         end) l m
  | _, _ =>
      match num_val a, num_val b with
      | Some p, Some q => Ok (negb (Qle_bool q p))
      | _, _ => Raise TypeError
      end
  end.

(** [list.sort(key=...)] is a stable comparison sort that only asks
    whether one key is less than another.  It is modelled by a stable
    insertion: every element is placed in front of the first element of
    the sorted rest that is not less than it.  An exception of [<] ends
    the sort.  Which pairs Python compares is not modelled; when the keys
    are all strings no comparison raises and the stable order is unique. *)
Section Sort.
Context {A : Type} (key : A -> value).

Fixpoint insert_sorted (x : A) (l : list A) : result (list A) :=
  match l with
  | [] => Ok [x]
  | y :: l' =>
      do lt <- py_lt (key y) (key x);
      if lt then do r <- insert_sorted x l'; Ok (y :: r)
      else Ok (x :: y :: l')
  end.

Fixpoint list_sort (l : list A) : result (list A) :=
  match l with
  | [] => Ok []
  | x :: l' => do s <- list_sort l'; insert_sorted x s
  end.
End Sort.

(** Line 451: [a['date'] if a['date'] else ''] *)
Definition date_key (a : country_assessment) : value :=
  if truthy (ca_date a) then ca_date a else VStr "".

(** Lines 435-452. *)
Definition build_country_assessments (joined_data : list joined_record)
  : result (list (value * list country_assessment)) :=
  do tracked <- foldM track_country [] joined_data;
  mapM (fun entry : value * list country_assessment =>
          do sorted <- list_sort date_key (snd entry);
          Ok (fst entry, sorted))
       tracked.

(** ** The whole transformation (lines 88-452) *)

Record inputs : Type := {
  per_status_data : value;
  countries_data : value;
  prioritization_data : value;
  assessments : value;
  (** [None]: the file per-overview.json does not exist *)
  per_overview_data : option value
}.

Record outputs : Type := {
  joined_data : list joined_record;
  component_descriptions : list (value * component_description);
  processed_assessments : list processed_result;
  grouped : list component_group;
  country_assessments : list (value * list country_assessment)
}.

(** Lines 89-95. *)
Definition overview_document (inp : inputs) : value :=
  default (VDict [("results", VList [])]) (per_overview_data inp).

(** [len(doc["results"])] of lines 98-102. *)
Definition results_len (doc : value) : result nat :=
  do r <- py_getitem doc "results"; py_len r.

(** [for x in doc['results']] *)
Definition results_of (doc : value) : result (list value) :=
  do r <- py_getitem doc "results"; py_iter r.

Definition process_data (inp : inputs) : result outputs :=
  do _n1 <- results_len (assessments inp);
  do _n2 <- results_len (per_status_data inp);
  do _n3 <- results_len (countries_data inp);
  do _n4 <- results_len (prioritization_data inp);
  do _n5 <- results_len (overview_document inp);
  do overviews <- results_of (overview_document inp);
  do om <- build_overview_map overviews;
  do countries <- results_of (countries_data inp);
  do cm <- build_country_map countries;
  do prioritizations <- results_of (prioritization_data inp);
  do descriptions <- build_component_descriptions prioritizations;
  do prioritizations' <- results_of (prioritization_data inp);
  do pm <- build_prioritization_map prioritizations';
  do raw <- results_of (assessments inp);
  do processed <- process_assessments raw;
  do raw' <- results_of (assessments inp);
  do das <- build_dashboard_assessments raw';
  do acm <- build_considerations_map processed;
  do statuses <- results_of (per_status_data inp);
  do joined <-
    join_statuses
      {| country_map := cm; prioritization_map := pm; dashboard_assessments := das;
         assessment_considerations_map := acm; overview_map := om |}
      statuses;
  do history <- build_country_assessments joined;
  Ok {| joined_data := joined;
        component_descriptions := descriptions;
        processed_assessments := processed;
        grouped := group_by_component joined;
        country_assessments := history |}.

(** * Vocabulary of the statements *)

(** ** Component groups *)

(** The number of assessment summaries held by all groups together. *)
Definition summary_count (grouped : list component_group) : nat :=
  sum_list_with (fun item => length (cg_assessments item)) grouped.

(** Every earlier element differs (Python's [!=]) from every later one. *)
Fixpoint pairwise_distinct (ids : list value) : Prop :=
  match ids with
  | [] => True
  | x :: rest => Forall (fun y => py_eq x y = false) rest /\ pairwise_distinct rest
  end.

(** ** Well-formed assessment records *)

Definition is_dict (v : value) : bool :=
  match v with VDict _ => true | _ => false end.

(** What [v or {}] needs in order to have a [get] method. *)
Definition falsy_or_dict (v : value) : bool := negb (truthy v) || is_dict v.





(** The normalized record mirrors the raw one: same ids, position by
    position, at the three levels. *)
Definition mirrors_component (cr : value) (pc : processed_component) : Prop :=
  py_getitem cr "id" = Ok (pc_id pc).

Definition mirrors_area (ar : value) (pa : processed_area) : Prop :=
  py_getitem ar "id" = Ok (pa_id pa) /\
  exists crs, component_responses_of ar = Ok crs /\
    length (pa_component_responses pa) = length crs /\
    Forall2 mirrors_component crs (pa_component_responses pa).

Definition mirrors_assessment (a : value) (pr : processed_result) : Prop :=
  py_getitem a "id" = Ok (pr_id pr) /\
  exists ars, area_responses_of a = Ok ars /\
    length (pr_area_responses pr) = length ars /\
    Forall2 mirrors_area ars (pr_area_responses pr).

(** ** Well-formed statuses and countries *)

(** The part of a status that selects its country: the inline
    [country_details] and the entry of the country lookup (lines 294-296). *)
Definition status_country (env : lookups) (status : value)
  : result (value * option country_entry) :=
  do country_details <- py_get_default status "country_details" (VDict []);
  do country_iso3 <- inline_get country_details "iso3";
  do country_data <- find_country (country_map env) country_iso3;
  Ok (country_details, country_data).

(** A centroid the joiner can split: nothing, or an object whose
    [coordinates], when given, is a list. *)
Definition centroid_ok (centroid : value) : bool :=
  negb (truthy centroid) ||
  match centroid with
  | VDict d =>
      match dict_get "coordinates" d with
      | None => true
      | Some (VList _) => true
      | Some _ => false
      end
  | _ => false
  end.

Definition country_entry_ok (e : country_entry) : bool :=
  hashable (ce_region e) && centroid_ok (ce_centroid e).

Definition countries_ok (m : list (value * country_entry)) : bool :=
  forallb (fun kv => country_entry_ok (snd kv)) m.

Definition country_details_ok (country_details : value) : bool :=
  negb (truthy country_details) ||
  match country_details with
  | VDict d =>
      hashable (default VNone (dict_get "iso3" d)) &&
      hashable (default VNone (dict_get "region" d))
  | _ => false
  end.

(** A status the joiner accepts: an object with a scalar [id] and a
    scalar (or no) [assessment], whose [country_details] and
    [type_of_assessment_details], when given and not empty, are objects.
    Nothing is asked about what the status refers to. *)
Definition status_ok (status : value) : bool :=
  match status with
  | VDict d =>
      match dict_get "id" d with Some id => hashable id | None => false end &&
      hashable (default VNone (dict_get "assessment" d)) &&
      country_details_ok (default (VDict []) (dict_get "country_details" d)) &&
      falsy_or_dict (default VNone (dict_get "type_of_assessment_details" d))
  | _ => false
  end.

(** The value of [country_details.get(k) if country_details else None]
    when it does not raise. *)
Definition inline_value (country_details : value) (k : string) : value :=
  if truthy country_details then
    match country_details with
    | VDict d => default VNone (dict_get k d)
    | _ => VNone
    end
  else VNone.

(** ** Country history *)

(** The summaries of the records of [joined] whose country name is [c],
    in the order of [joined]. *)
Definition encountered (c : value) (joined : list joined_record)
  : list country_assessment :=
  map country_assessment_of
      (List.filter (fun data => py_eq c (jr_country_name data)) joined).

(** What the first loop maintains: the keys are hashable and pairwise
    different, every key holds the summaries of its records in encounter
    order, and every record seen so far has its key. *)
Record tracked_inv (m : list (value * list country_assessment))
  (seen : list joined_record) : Prop := {
  ti_hashable : Forall (fun kv => hashable (fst kv) = true) m;
  ti_distinct : pairwise_distinct (map fst m);
  ti_content : Forall (fun kv => snd kv = encountered (fst kv) seen) m;
  ti_covered :
    Forall (fun data => exists kv, In kv m /\ py_eq (fst kv) (jr_country_name data) = true)
           seen
}.

(** A date as the API gives it: a string, or nothing. *)
Definition date_is_string (d : value) : bool := negb (truthy d) || is_str d.

Definition date_string (a : country_assessment) : string :=
  match date_key a with
  | VStr s => s
  | _ => ""
  end.

(** ** Sorting when the keys are strings

    [insert_str] and [sort_str] are [insert_sorted] and [list_sort] for
    elements whose key is a string, where no comparison can raise. *)

Section SortStringsDefs.
Context {A : Type} (key : A -> value) (skey : A -> string).

(** The key of [a] is the string [skey a]. *)
Definition str_keyed (a : A) : Prop := key a = VStr (skey a).

(** [insert_sorted] and [list_sort] when no comparison can raise. *)
Fixpoint insert_str (x : A) (l : list A) : list A :=
  match l with
  | [] => [x]
  | y :: l' =>
      if String.ltb (skey y) (skey x) then y :: insert_str x l' else x :: y :: l'
  end.

Fixpoint sort_str (l : list A) : list A :=
  match l with
  | [] => []
  | x :: l' => insert_str x (sort_str l')
  end.

(** [a] may stand before [b]: the key of [b] is not less than that of [a]. *)
Definition key_le (a b : A) : Prop := String.ltb (skey b) (skey a) = false.
End SortStringsDefs.

(** * Worked inputs *)

Definition results_doc (records : list value) : value :=
  VDict [("results", VList records)].

Definition point (coordinates : list value) : value :=
  VDict [("type", VStr "Point"); ("coordinates", VList coordinates)].

(** A status and a country that disagree on the region; the status also
    carries a centroid of its own. *)
Definition inline_inputs : inputs :=
  {| per_status_data :=
       results_doc
         [VDict [("id", VInt 1);
                 ("country_details",
                  VDict [("iso3", VStr "NPL"); ("name", VStr "Nepal");
                         ("region", VInt 1);
                         ("centroid", point [VInt 10; VInt 20])])]];
     countries_data :=
       results_doc
         [VDict [("iso3", VStr "NPL"); ("name", VStr "Nepal"); ("region", VInt 2);
                 ("centroid", point [VInt 84; VInt 28])]];
     prioritization_data := results_doc [];
     assessments := results_doc [];
     per_overview_data := None |}.

(** A country of region 0 (Africa) and a status without inline region. *)
Definition region_zero_inputs : inputs :=
  {| per_status_data :=
       results_doc
         [VDict [("id", VInt 1);
                 ("country_details",
                  VDict [("iso3", VStr "KEN"); ("name", VStr "Kenya")])]];
     countries_data :=
       results_doc
         [VDict [("iso3", VStr "KEN"); ("name", VStr "Kenya"); ("region", VInt 0)]];
     prioritization_data := results_doc [];
     assessments := results_doc [];
     per_overview_data := None |}.

Definition centroid_inputs (centroid : value) : inputs :=
  {| per_status_data :=
       results_doc
         [VDict [("id", VInt 1);
                 ("country_details", VDict [("iso3", VStr "KEN"); ("region", VInt 0)])]];
     countries_data :=
       results_doc
         [VDict [("iso3", VStr "KEN"); ("name", VStr "Kenya"); ("region", VInt 0);
                 ("centroid", centroid)]];
     prioritization_data := results_doc [];
     assessments := results_doc [];
     per_overview_data := None |}.

Definition example_component (id : Z) (title : string) : dashboard_component :=
  {| dc_component_id := VInt id;
     dc_component_name := VStr title;
     dc_component_num := VInt id;
     dc_area_id := VInt 1;
     dc_area_name := VStr "Policy Strategy and Standards";
     dc_rating_value := VInt 3;
     dc_rating_title := VStr "High" |}.

Definition example_env : lookups :=
  {| country_map :=
       [ (VStr "KEN",
          {| ce_centroid := point [VFloat (75 # 2); VFloat (1 # 2)];
             ce_iso3 := VStr "KEN"; ce_region := VInt 0; ce_name := VStr "Kenya" |});
         (VStr "NPL",
          {| ce_centroid := point [VInt 84; VInt 28];
             ce_iso3 := VStr "NPL"; ce_region := VInt 2; ce_name := VStr "Nepal" |}) ];
     prioritization_map := [];
     dashboard_assessments :=
       [ {| da_assessment_id := VInt 10;
            da_components := [example_component 5 "Law"; example_component 7 "Policy"] |};
         {| da_assessment_id := VInt 11;
            da_components := [example_component 5 "Law"] |} ];
     assessment_considerations_map := [];
     overview_map :=
       [ (VInt 5,
          {| ov_assess_preparedness_of_country := VBool true;
             ov_assess_urban_aspect_of_country := VBool false;
             ov_assess_climate_environment_of_country := VNone;
             ov_assess_migration_aspect_of_country := VNone |}) ] |}.

Definition example_overviews : list value :=
  [VDict [("id", VInt 5); ("assess_preparedness_of_country", VBool true);
          ("assess_urban_aspect_of_country", VBool false)]].

Definition kenya_status (id assessment : Z) (date : value) : value :=
  VDict [("id", VInt id);
         ("country_details",
          VDict [("iso3", VStr "KEN"); ("name", VStr "Kenya"); ("region", VInt 0)]);
         ("assessment", VInt assessment);
         ("date_of_assessment", date)].

(** A Nepali status whose inline name and region differ from those of
    the country lookup. *)
Definition nepal_status : value :=
  VDict [("id", VInt 1);
         ("country_details",
          VDict [("iso3", VStr "NPL"); ("name", VStr "Nepal (inline)");
                 ("region", VInt 1)])].

(** A status of a country that the country lookup does not know. *)
Definition unknown_country_status : value :=
  VDict [("id", VInt 2);
         ("country_details", VDict [("iso3", VStr "XXX"); ("region", VInt 3)])].

(** Two Kenyan statuses of the same date around one without date, a
    status whose country and assessment are unknown, and a bare status. *)
Definition example_statuses : list value :=
  [ kenya_status 1 10 (VStr "2023-05-01");
    kenya_status 2 11 VNone;
    kenya_status 3 12 (VStr "2023-05-01");
    VDict [("id", VInt 4); ("country_details", VDict [("iso3", VStr "XXX")]);
           ("assessment", VInt 99); ("date_of_assessment", VStr "2021-01-01")];
    VDict [("id", VInt 6)] ].

Definition example_joined : list joined_record :=
  match join_statuses example_env example_statuses with
  | Ok joined => joined
  | Raise _ => []
  end.

Definition example_assessments : list value :=
  [ VDict [("id", VInt 10);
           ("area_responses",
            VList [VDict [("id", VInt 1);
                          ("component_responses",
                           VList [VDict [("id", VInt 100); ("component", VInt 5);
                                         ("rating_details",
                                          VDict [("value", VInt 3); ("title", VStr "High")]);
                                         ("urban_considerations", VStr "Yes")];
                                  VDict [("id", VInt 101); ("component", VInt 7);
                                         ("component_details", VNone)]])];
                   VDict [("id", VInt 2)]])];
    VDict [("id", VInt 11)] ].

(** ** Lookups: the entry a record contributes *)

(** The last element of a list that satisfies [p]. *)
Fixpoint find_last {A : Type} (p : A -> bool) (l : list A) : option A :=
  match l with
  | [] => None
  | x :: l' =>
      match find_last p l' with
      | Some y => Some y
      | None => if p x then Some x else None
      end
  end.

(** The first element of a list that satisfies [p]. *)
Fixpoint find_first {A : Type} (p : A -> bool) (l : list A) : option A :=
  match l with
  | [] => None
  | x :: l' => if p x then Some x else find_first p l'
  end.

(** Key and value of the comprehension of lines 106-114 for one record. *)
Definition overview_pair (overview : value) : result (value * overview_fields) :=
  do k <- py_getitem overview "id";
  do a <- py_get overview "assess_preparedness_of_country";
  do b <- py_get overview "assess_urban_aspect_of_country";
  do c <- py_get overview "assess_climate_environment_of_country";
  do d <- py_get overview "assess_migration_aspect_of_country";
  Ok (k, {| ov_assess_preparedness_of_country := a;
            ov_assess_urban_aspect_of_country := b;
            ov_assess_climate_environment_of_country := c;
            ov_assess_migration_aspect_of_country := d |}).

(** Key and value of the comprehension of lines 117-125 for one record. *)
Definition country_pair (country : value) : result (value * country_entry) :=
  do k <- py_getitem country "iso3";
  do centroid <- py_get country "centroid";
  do iso3 <- py_getitem country "iso3";
  do region <- py_get country "region";
  do name <- py_get country "name";
  Ok (k, {| ce_centroid := centroid; ce_iso3 := iso3; ce_region := region;
            ce_name := name |}).

(** Key and value stored by one iteration of lines 142-152. *)
Definition prioritization_pair (item : value)
  : result (value * list prioritized_component) :=
  do overview_id <- py_get item "overview";
  do responses <- py_get_default item "prioritized_action_responses" (VList []);
  do rs <- py_iter responses;
  do components <- mapM prioritized_of_response rs;
  Ok (overview_id, components).

(** The record's key equals [k]. *)
Definition keyed_by {A V : Type} (pair : A -> result (value * V)) (k : value)
  (record : A) : bool :=
  match pair record with
  | Ok kv => py_eq (fst kv) k
  | Raise _ => false
  end.

(** A record that can be stored: its pair is computed and its key is
    hashable. *)
Definition storable {A V : Type} (pair : A -> result (value * V))
  (record : A) : bool :=
  match pair record with
  | Ok kv => hashable (fst kv)
  | Raise _ => false
  end.

(** The value that the last record keyed by [k] contributes. *)
Definition last_value {A V : Type} (pair : A -> result (value * V)) (k : value)
  (records : list A) : option V :=
  match find_last (keyed_by pair k) records with
  | Some record =>
      match pair record with
      | Ok kv => Some (snd kv)
      | Raise _ => None
      end
  | None => None
  end.


(** Key and value stored by one iteration of lines 267-289. *)
Definition considerations_pair (assessment : processed_result)
  : result (value * considerations) :=
  Ok (pr_id assessment, assessment_considerations assessment).

(** The component responses of an assessment record, area after area, as
    the nested loops of lines 244-245 visit them. *)
Definition raw_component_responses (assessment : value) : result (list value) :=
  do area_responses <- area_responses_of assessment;
  do per_area <- mapM component_responses_of area_responses;
  Ok (concat per_area).

(** The components of the first dashboard assessment whose id equals
    [assessment], or none. *)
Definition first_components (das : list dashboard_assessment) (assessment : value)
  : list dashboard_component :=
  match find_first (fun da => py_eq (da_assessment_id da) assessment) das with
  | Some da => da_components da
  | None => []
  end.


(** [record.get(k)] of a record known to be an object; [None] otherwise. *)
Definition field_of (record : value) (k : string) : value :=
  match py_get record k with
  | Ok v => v
  | Raise _ => VNone
  end.

(** Some component response has an affirmative text in field [k]. *)
Definition any_affirmative (k : string) (component_responses : list value) : bool :=
  existsb (fun cr => contains_affirmative_word (field_of cr k)) component_responses.


(** ** Component groups over time *)

(** [h'] is the group [h] with further summaries appended. *)
Definition group_extends (h h' : component_group) : Prop :=
  cg_component_id h' = cg_component_id h /\
  cg_component_num h' = cg_component_num h /\
  cg_component_name h' = cg_component_name h /\
  cg_area_id h' = cg_area_id h /\
  cg_area_name h' = cg_area_name h /\
  exists more, cg_assessments h' = cg_assessments h ++ more.

(** [g'] is the list [g] with groups extended in place and new groups
    appended at its end. *)
Definition groups_grow (g g' : list component_group) : Prop :=
  exists g1 new, g' = g1 ++ new /\ Forall2 group_extends g g1.

(** Some group with the id of [c] holds the summary of [a] for [c]. *)
Definition summary_recorded (a : joined_record) (c : dashboard_component)
  (g : list component_group) : Prop :=
  exists item,
    In item g /\
    (cg_component_id item = dc_component_id c \/
     py_eq (cg_component_id item) (dc_component_id c) = true) /\
    In (summary_of a (dc_rating_value c) (dc_rating_title c)) (cg_assessments item).

(** The descriptive fields of the first group, fixed by the first joined
    record: those of its first component, or the synthetic ones. *)
Definition first_group_fields (a : joined_record) (head : component_group) : Prop :=
  match jr_components a with
  | [] =>
      cg_component_id head = VNone /\ cg_component_num head = VNone /\
      cg_component_name head = VStr "" /\ cg_area_id head = VNone /\
      cg_area_name head = VStr ""
  | c :: _ =>
      cg_component_id head = dc_component_id c /\
      cg_component_num head = dc_component_num c /\
      cg_component_name head = dc_component_name c /\
      cg_area_id head = dc_area_id c /\
      cg_area_name head = dc_area_name c
  end.


(** ** Overview fields of a joined record *)

(** The joined record [r] with the four overview fields taken from [ov]. *)
Definition with_overview (ov : overview_fields) (r : joined_record) : joined_record :=
  {| jr_id := jr_id r;
     jr_assessment_number := jr_assessment_number r;
     jr_date_of_assessment := jr_date_of_assessment r;
     jr_country_id := jr_country_id r;
     jr_country_name := jr_country_name r;
     jr_phase := jr_phase r;
     jr_phase_display := jr_phase_display r;
     jr_type_of_assessment := jr_type_of_assessment r;
     jr_type_of_assessment_name := jr_type_of_assessment_name r;
     jr_country_iso3 := jr_country_iso3 r;
     jr_region_id := jr_region_id r;
     jr_region_name := jr_region_name r;
     jr_latitude := jr_latitude r;
     jr_longitude := jr_longitude r;
     jr_updated_at := jr_updated_at r;
     jr_prioritized_components := jr_prioritized_components r;
     jr_epi_considerations := jr_epi_considerations r;
     jr_climate_environmental_considerations :=
       jr_climate_environmental_considerations r;
     jr_urban_considerations := jr_urban_considerations r;
     jr_migration_considerations := jr_migration_considerations r;
     jr_assess_preparedness_of_country := ov_assess_preparedness_of_country ov;
     jr_assess_urban_aspect_of_country := ov_assess_urban_aspect_of_country ov;
     jr_assess_climate_environment_of_country :=
       ov_assess_climate_environment_of_country ov;
     jr_assess_migration_aspect_of_country := ov_assess_migration_aspect_of_country ov;
     jr_components := jr_components r |}.

(** The lookups [env] with another overview lookup. *)
Definition with_overview_map (om : list (value * overview_fields)) (env : lookups)
  : lookups :=
  {| country_map := country_map env;
     prioritization_map := prioritization_map env;
     dashboard_assessments := dashboard_assessments env;
     assessment_considerations_map := assessment_considerations_map env;
     overview_map := om |}.

(** The number of summaries held by all countries together. *)
Definition history_count (m : list (value * list country_assessment)) : nat :=
  sum_list_with (fun kv => length (snd kv)) m.


(** * Fetching ([utils/fetch_paginated_data.py], [utils/fetch_per_overview.py],
      [fetch_data.py])

    The HTTP exchange is a parameter: a [server] answers a request for a
    URL with the decoded JSON body, or the request fails (connection
    error, error status, or a body that is not JSON).  The URL of the
    next request is whatever the previous body holds under ["next"].
    The loops have no bound of their own: the model takes the number of
    requests allowed as fuel and answers [None] when it runs out. *)

Inductive response : Type :=
| Body (data : value)
| RequestFailed.

Definition server : Type := value -> response.

Inductive fetch_error : Type :=
| RequestException
| PyError (e : exn).

Inductive outcome (A : Type) : Type :=
| Done (a : A)
| Failed (e : fetch_error).
Arguments Done {A} a.
Arguments Failed {A} e.

(** [fetch_paginated_data], lines 18-63: the loop [while next_url]. *)
Fixpoint fetch_pages (srv : server) (fuel : nat) (next_url : value)
  (all_results : list value) : option (outcome (list value)) :=
  if truthy next_url then
    match fuel with
    | O => None
    | S fuel' =>
        match srv next_url with
        | RequestFailed => Some (Failed RequestException)
        | Body data =>
            if negb (truthy data) then Some (Done all_results)
            else
              match py_get data "results" with
              | Raise e => Some (Failed (PyError e))
              | Ok results =>
                  match py_get data "next" with
                  | Raise e => Some (Failed (PyError e))
                  | Ok next =>
                      match results with
                      | VNone => Some (Done all_results)
                      | _ =>
                          match py_iter results with
                          | Raise e => Some (Failed (PyError e))
                          | Ok rs => fetch_pages srv fuel' next (all_results ++ rs)
                          end
                      end
                  end
              end
        end
    end
  else Some (Done all_results).

Definition fetch_paginated_data (srv : server) (fuel : nat) (base_url : string)
  : option (outcome (list value)) :=
  fetch_pages srv fuel (VStr base_url) [].

(** [fetch_authenticated_paginated_data], lines 34-69; the token is part
    of the server the requests go to. *)
Fixpoint fetch_authenticated_pages (srv : server) (fuel : nat) (next_url : value)
  (all_results : list value) : option (outcome (list value)) :=
  if truthy next_url then
    match fuel with
    | O => None
    | S fuel' =>
        match srv next_url with
        | RequestFailed => Some (Failed RequestException)
        | Body data =>
            match py_get_default data "results" (VList []) with
            | Raise e => Some (Failed (PyError e))
            | Ok results =>
                match py_iter results with
                | Raise e => Some (Failed (PyError e))
                | Ok rs =>
                    match py_get data "next" with
                    | Raise e => Some (Failed (PyError e))
                    | Ok next =>
                        fetch_authenticated_pages srv fuel' next (all_results ++ rs)
                    end
                end
            end
        end
    end
  else Some (Done all_results).

Definition fetch_authenticated_paginated_data (srv : server) (fuel : nat)
  (base_url : string) : option (outcome (list value)) :=
  fetch_authenticated_pages srv fuel (VStr base_url) [].

(** ** Vocabulary for the fetchers *)

(** A regular page: an object with a list (or other iterable) of results. *)
Definition page_results (data : value) : option (list value) :=
  if truthy data then
    match py_get data "results" with
    | Ok VNone => None
    | Ok results =>
        match py_iter results with
        | Ok rs => Some rs
        | Raise _ => None
        end
    | Raise _ => None
    end
  else None.

(** Following the [next] links from [url] through regular pages whose
    results are [pages] leads to [url']. *)
Inductive page_path (srv : server) : value -> list (list value) -> value -> Prop :=
| path_here (url : value) : page_path srv url [] url
| path_next (url : value) (data : value) (rs : list value)
    (rest : list (list value)) (url' : value) :
    truthy url = true ->
    srv url = Body data ->
    page_results data = Some rs ->
    page_path srv (field_of data "next") rest url' ->
    page_path srv url (rs :: rest) url'.


(** ** The data directory and [fetch_data] ([fetch_data.py], lines 30-85) *)

(** The input files of the data directory, each with the JSON value it
    holds; [None]: the file does not exist. *)
Record files : Type := {
  per_status_json : option value;
  countries_json : option value;
  prioritization_json : option value;
  per_assessments_json : option value;
  per_overview_json : option value
}.

Definition PER_STATUS_URL : string :=
  "https://goadmin.ifrc.org/api/v2/public-per-process-status/".
Definition COUNTRIES_URL : string := "https://goadmin.ifrc.org/api/v2/country/".
Definition PER_PRIORITIZATION_URL : string :=
  "https://goadmin.ifrc.org/api/v2/public-per-prioritization/".
Definition PER_ASSESSMENTS_URL : string :=
  "https://goadmin.ifrc.org/api/v2/public-per-assessment/".
Definition PER_OVERVIEW_URL : string := "https://goadmin.ifrc.org/api/v2/per-overview/".

(** [json.dump({'results': data}, f)] *)
Definition results_document (data : list value) : value :=
  VDict [("results", VList data)].

(** Lines 45-85.  [public] answers the four public endpoints and
    [authenticated] the overview endpoint for the token in use.  A file is
    written as soon as its data is fetched; the first failure of a public
    fetch ends the run, whereas any failure of the overview fetch is
    caught.  The result is the data directory afterwards and how the run
    ended. *)
Definition fetch_data (public authenticated : server) (fuel : nat) (fs : files)
  : option (files * outcome unit) :=
  match fetch_paginated_data public fuel PER_STATUS_URL with
  | None => None
  | Some (Failed e) => Some (fs, Failed e)
  | Some (Done per_status_data) =>
      let fs1 :=
        {| per_status_json := Some (results_document per_status_data);
           countries_json := countries_json fs;
           prioritization_json := prioritization_json fs;
           per_assessments_json := per_assessments_json fs;
           per_overview_json := per_overview_json fs |} in
      match fetch_paginated_data public fuel COUNTRIES_URL with
      | None => None
      | Some (Failed e) => Some (fs1, Failed e)
      | Some (Done countries_data) =>
          let fs2 :=
            {| per_status_json := per_status_json fs1;
               countries_json := Some (results_document countries_data);
               prioritization_json := prioritization_json fs1;
               per_assessments_json := per_assessments_json fs1;
               per_overview_json := per_overview_json fs1 |} in
          match fetch_paginated_data public fuel PER_PRIORITIZATION_URL with
          | None => None
          | Some (Failed e) => Some (fs2, Failed e)
          | Some (Done prioritization_data) =>
              let fs3 :=
                {| per_status_json := per_status_json fs2;
                   countries_json := countries_json fs2;
                   prioritization_json := Some (results_document prioritization_data);
                   per_assessments_json := per_assessments_json fs2;
                   per_overview_json := per_overview_json fs2 |} in
              match fetch_paginated_data public fuel PER_ASSESSMENTS_URL with
              | None => None
              | Some (Failed e) => Some (fs3, Failed e)
              | Some (Done assessment_data) =>
                  let fs4 :=
                    {| per_status_json := per_status_json fs3;
                       countries_json := countries_json fs3;
                       prioritization_json := prioritization_json fs3;
                       per_assessments_json := Some (results_document assessment_data);
                       per_overview_json := per_overview_json fs3 |} in
                  match fetch_authenticated_paginated_data authenticated fuel
                          PER_OVERVIEW_URL with
                  | None => None
                  | Some (Failed _) => Some (fs4, Done tt)
                  | Some (Done overview_data) =>
                      Some ({| per_status_json := per_status_json fs4;
                               countries_json := countries_json fs4;
                               prioritization_json := prioritization_json fs4;
                               per_assessments_json := per_assessments_json fs4;
                               per_overview_json :=
                                 Some (results_document overview_data) |},
                            Done tt)
                  end
              end
          end
      end
  end.

(** [process_data.py], lines 70-95: the four required files are read, a
    missing one raises [FileNotFoundError] ([None] here); the overview
    file is read when it exists. *)
Definition load_inputs (fs : files) : option inputs :=
  match per_status_json fs, countries_json fs, prioritization_json fs,
        per_assessments_json fs with
  | Some status, Some countries, Some prioritization, Some assessments_ =>
      Some {| per_status_data := status;
              countries_data := countries;
              prioritization_data := prioritization;
              assessments := assessments_;
              per_overview_data := per_overview_json fs |}
  | _, _, _, _ => None
  end.


(** ** Further worked inputs *)

(** Two records for Kenya, of which the second counts, and one for Nepal. *)
Definition example_countries : list value :=
  [ VDict [("iso3", VStr "KEN"); ("name", VStr "Kenia"); ("region", VInt 0)];
    VDict [("iso3", VStr "NPL"); ("name", VStr "Nepal"); ("region", VInt 2);
           ("centroid", point [VInt 84; VInt 28])];
    VDict [("iso3", VStr "KEN"); ("name", VStr "Kenya"); ("region", VInt 0);
           ("centroid", point [VFloat (75 # 2); VFloat (1 # 2)])] ].

(** One prioritization record for status 1; its second component has the
    falsy id 0. *)
Definition example_prioritizations : list value :=
  [ VDict [("overview", VInt 1);
           ("prioritized_action_responses",
            VList [VDict [("component", VInt 5);
                          ("component_details",
                           VDict [("id", VInt 5); ("title", VStr "Law");
                                  ("area", VDict [("title", VStr "Policy")]);
                                  ("description", VStr "Legal basis")])];
                   VDict [("component", VInt 7);
                          ("component_details",
                           VDict [("id", VInt 0); ("title", VStr "Policy")])]])] ].

Definition example_inputs : inputs :=
  {| per_status_data := results_doc example_statuses;
     countries_data := results_doc example_countries;
     prioritization_data := results_doc example_prioritizations;
     assessments := results_doc example_assessments;
     per_overview_data := Some (results_doc example_overviews) |}.

(** A server with two pages, the second of which ends the chain. *)
Definition two_page_server : server :=
  fun url =>
    if py_eq url (VStr "page1") then
      Body (VDict [("count", VInt 3); ("next", VStr "page2");
                   ("results", VList [VInt 1; VInt 2])])
    else if py_eq url (VStr "page2") then
      Body (VDict [("count", VInt 3); ("next", VNone); ("results", VList [VInt 3])])
    else RequestFailed.

(** A server whose second request fails. *)
Definition failing_server : server :=
  fun url =>
    if py_eq url (VStr "page1") then
      Body (VDict [("next", VStr "page2"); ("results", VList [VInt 1; VInt 2])])
    else RequestFailed.

(** A server whose second page has no results but a further link. *)
Definition gap_server (second : list (string * value)) : server :=
  fun url =>
    if py_eq url (VStr "page1") then
      Body (VDict [("next", VStr "page2"); ("results", VList [VInt 1; VInt 2])])
    else if py_eq url (VStr "page2") then Body (VDict second)
    else if py_eq url (VStr "page3") then
      Body (VDict [("next", VNone); ("results", VList [VInt 3])])
    else RequestFailed.


(** A server that answers every endpoint with one page of one record. *)
Definition one_page_server : server :=
  fun url => Body (VDict [("next", VNone); ("results", VList [VDict [("id", VInt 1)]])]).

(** A server that answers the status endpoint only. *)
Definition status_only_server : server :=
  fun url =>
    if py_eq url (VStr PER_STATUS_URL) then
      Body (VDict [("next", VNone); ("results", VList [VDict [("id", VInt 1)]])])
    else RequestFailed.

Definition unreachable_server : server := fun url => RequestFailed.

Definition no_files : files :=
  {| per_status_json := None; countries_json := None; prioritization_json := None;
     per_assessments_json := None; per_overview_json := None |}.

(** Three Kenyan records: a dated one, one without date and one whose
    date is the empty string. *)
Definition undated_joined : list joined_record :=
  match
    join_statuses example_env
      [ kenya_status 1 10 (VStr "2023-05-01");
        kenya_status 2 11 VNone;
        kenya_status 3 12 (VStr "") ]
  with
  | Ok joined => joined
  | Raise _ => []
  end.

(** Two assessment records with the same id: the first has one component,
    which answers "Yes" on urban considerations, the second has none. *)
Definition duplicate_assessments : list value :=
  [ VDict [("id", VInt 10);
           ("area_responses",
            VList [VDict [("id", VInt 1);
                          ("component_responses",
                           VList [VDict [("id", VInt 100); ("component", VInt 5);
                                         ("urban_considerations", VStr "Yes")]])]])];
    VDict [("id", VInt 10)] ].

(** A bare status in the work-plan phase. *)
Definition workplan_status : value :=
  VDict [("id", VInt 1); ("phase_display", VStr "WorkPlan")].

(** * Properties *)

(** ** The error monad and its loops *)

Lemma bind_Ok {A B : Type} (m : result A) (k : A -> result B) (b : B) :
  bind m k = Ok b -> exists a, m = Ok a /\ k a = Ok b.
Proof. destruct m as [a|e]; simpl; [eauto | discriminate]. Qed.

Lemma mapM_Forall2 {A B : Type} (f : A -> result B) (xs : list A) (ys : list B) :
  mapM f xs = Ok ys -> Forall2 (fun x y => f x = Ok y) xs ys.
Proof.
  revert ys; induction xs as [|x xs IH]; simpl; intros ys H.
  - injection H as <-. constructor.
  - apply bind_Ok in H as (y & Hy & H).
    apply bind_Ok in H as (ys' & Hys & H).
    injection H as <-. constructor; auto.
Qed.

Lemma mapM_total {A B : Type} (f : A -> result B) (xs : list A) :
  Forall (fun x => exists y, f x = Ok y) xs -> exists ys, mapM f xs = Ok ys.
Proof.
  induction 1 as [|x xs [y Hy] _ [ys Hys]]; simpl.
  - eauto.
  - rewrite Hy; simpl. rewrite Hys; simpl. eauto.
Qed.

(** ** Component grouping *)

Lemma summary_count_app (g h : list component_group) :
  summary_count (g ++ h) = summary_count g + summary_count h.
Proof. apply sum_list_with_app. Qed.

Lemma summary_count_alter (s : assessment_summary) (i : nat) (g : list component_group) :
  i < length g ->
  summary_count (alter (append_assessment s) i g) = S (summary_count g).
Proof.
  revert i; induction g as [|b g IH]; intros [|i] Hi; simpl in *; try lia.
  - rewrite length_app; simpl. unfold summary_count; lia.
  - change (length (cg_assessments b) +
            summary_count (alter (append_assessment s) i g) =
            S (length (cg_assessments b) + summary_count g)).
    rewrite IH by lia. lia.
Qed.

Lemma find_group_Some (cid : value) (g : list component_group) (i : nat) :
  find_group cid g = Some i ->
  exists item, g !! i = Some item /\ py_eq (cg_component_id item) cid = true /\
    forall j item', j < i -> g !! j = Some item' ->
      py_eq (cg_component_id item') cid = false.
Proof.
  revert i; induction g as [|b g IH]; simpl; intros i H; [discriminate|].
  destruct (py_eq (cg_component_id b) cid) eqn:E.
  - injection H as <-. exists b. repeat split; auto. intros; lia.
  - destruct (find_group cid g) as [k|]; simpl in H; [|discriminate].
    injection H as <-. destruct (IH k eq_refl) as (item & Hk & Heq & Hlt).
    exists item. repeat split; auto.
    intros [|j] item' Hj Hl; simpl in Hl.
    + injection Hl as <-. exact E.
    + apply (Hlt j); [lia | exact Hl].
Qed.

Lemma find_group_None (cid : value) (g : list component_group) :
  find_group cid g = None ->
  Forall (fun item => py_eq (cg_component_id item) cid = false) g.
Proof.
  induction g as [|b g IH]; simpl; intros H; [constructor|].
  destruct (py_eq (cg_component_id b) cid) eqn:E; [discriminate|].
  destruct (find_group cid g); [discriminate|]. constructor; auto.
Qed.

Lemma summary_count_add_component (a : joined_record) (g : list component_group)
  (c : dashboard_component) :
  summary_count (add_component a g c) = S (summary_count g).
Proof.
  unfold add_component. destruct (find_group _ g) as [i|] eqn:E.
  - apply find_group_Some in E as (item & Hi & _).
    apply summary_count_alter. apply lookup_lt_is_Some; eauto.
  - rewrite summary_count_app. unfold summary_count at 2; simpl. lia.
Qed.

Lemma summary_count_components (a : joined_record) (cs : list dashboard_component)
  (g : list component_group) :
  summary_count (fold_left (add_component a) cs g) = summary_count g + length cs.
Proof.
  revert g; induction cs as [|c cs IH]; intros g; simpl; [lia|].
  rewrite IH, summary_count_add_component. lia.
Qed.

Lemma summary_count_add_empty (a : joined_record) (g : list component_group) :
  summary_count (add_empty_assessment a g) = S (summary_count g).
Proof.
  destruct g as [|b g]; [reflexivity|].
  unfold add_empty_assessment. apply summary_count_alter. simpl; lia.
Qed.

Lemma summary_count_group_assessment (g : list component_group) (a : joined_record) :
  summary_count (group_assessment g a) =
  summary_count g + Nat.max 1 (length (jr_components a)).
Proof.
  unfold group_assessment. rewrite summary_count_components.
  destruct (jr_components a) as [|c cs]; simpl.
  - rewrite summary_count_add_empty. lia.
  - lia.
Qed.

Lemma summary_count_fold (joined : list joined_record) (g : list component_group) :
  summary_count (fold_left group_assessment joined g) =
  summary_count g + sum_list_with (fun a => Nat.max 1 (length (jr_components a))) joined.
Proof.
  revert g; induction joined as [|a joined IH]; intros g; simpl; [lia|].
  rewrite IH, summary_count_group_assessment. lia.
Qed.

(** C7 (grouping law).  The assessment summaries held by all groups
    together are as many as the sum, over the joined records, of
    [max 1 (number of dashboard components of the record)]; record by
    record, grouping a joined record adds one summary per component, and
    exactly one when the record has no component. *)
Theorem grouping_law :
  (forall joined : list joined_record,
     sum_list_with (fun item => length (cg_assessments item))
                   (group_by_component joined) =
     sum_list_with (fun a => Nat.max 1 (length (jr_components a))) joined) /\
  (forall (grouped : list component_group) (a : joined_record),
     summary_count (group_assessment grouped a) =
     summary_count grouped + Nat.max 1 (length (jr_components a))).
Proof.
  split.
  - intros joined. unfold group_by_component.
    change (summary_count (fold_left group_assessment joined []) =
            sum_list_with (fun a => Nat.max 1 (length (jr_components a))) joined).
    rewrite summary_count_fold. reflexivity.
  - apply summary_count_group_assessment.
Qed.

Lemma pairwise_distinct_snoc (ids : list value) (c : value) :
  pairwise_distinct ids ->
  Forall (fun x => py_eq x c = false) ids ->
  pairwise_distinct (ids ++ [c]).
Proof.
  induction ids as [|x ids IH]; simpl; intros Hd Hc.
  - split; [constructor | exact I].
  - destruct Hd as [Hx Hd]. inversion Hc as [|? ? Hxc Hc']; subst. split.
    + apply Forall_app; split; [exact Hx | repeat constructor; exact Hxc].
    + apply IH; assumption.
Qed.

Lemma pairwise_distinct_lookup (ids : list value) (i j : nat) (x y : value) :
  pairwise_distinct ids -> i < j -> ids !! i = Some x -> ids !! j = Some y ->
  py_eq x y = false.
Proof.
  revert i j; induction ids as [|z ids IH]; intros i j Hd Hij Hi Hj; [discriminate|].
  destruct Hd as [Hz Hd]. destruct j as [|j]; [lia|]. simpl in Hj.
  destruct i as [|i]; simpl in Hi.
  - injection Hi as <-. rewrite Forall_forall in Hz. apply Hz.
    eapply list_elem_of_lookup_2; eauto.
  - apply (IH i j); auto. lia.
Qed.

Lemma component_ids_alter (s : assessment_summary) (i : nat) (g : list component_group) :
  map cg_component_id (alter (append_assessment s) i g) = map cg_component_id g.
Proof.
  revert i; induction g as [|b g IH]; intros [|i]; simpl; auto.
  f_equal. apply IH.
Qed.

Lemma distinct_add_component (a : joined_record) (g : list component_group)
  (c : dashboard_component) :
  pairwise_distinct (map cg_component_id g) ->
  pairwise_distinct (map cg_component_id (add_component a g c)).
Proof.
  intros Hd. unfold add_component. destruct (find_group _ g) as [i|] eqn:E.
  - rewrite component_ids_alter. exact Hd.
  - rewrite map_app; simpl. apply pairwise_distinct_snoc; [exact Hd|].
    apply find_group_None in E. rewrite Forall_forall in E.
    apply Forall_forall.
    intros x Hx. apply list_elem_of_fmap in Hx as (b & -> & Hb). auto.
Qed.

Lemma distinct_group_assessment (g : list component_group) (a : joined_record) :
  pairwise_distinct (map cg_component_id g) ->
  pairwise_distinct (map cg_component_id (group_assessment g a)).
Proof.
  intros Hd. unfold group_assessment.
  assert (H0 : pairwise_distinct (map cg_component_id
            match jr_components a with
            | [] => add_empty_assessment a g
            | _ :: _ => g
            end)).
  { destruct (jr_components a); [|exact Hd].
    destruct g as [|b g]; simpl; [split; [constructor | exact I]|].
    exact Hd. }
  revert H0. generalize (match jr_components a with
                         | [] => add_empty_assessment a g
                         | _ :: _ => g
                         end).
  induction (jr_components a) as [|c cs IH]; simpl; intros g0 H0; [exact H0|].
  apply IH. apply distinct_add_component. exact H0.
Qed.

Lemma distinct_group_by_component (joined : list joined_record) :
  pairwise_distinct (map cg_component_id (group_by_component joined)).
Proof.
  unfold group_by_component.
  assert (H : pairwise_distinct (map cg_component_id (@nil component_group)))
    by exact I.
  revert H. generalize (@nil component_group).
  induction joined as [|a joined IH]; simpl; intros g H; [exact H|].
  apply IH, distinct_group_assessment, H.
Qed.

Lemma py_eq_None_r (x : value) : py_eq x VNone = true -> x = VNone.
Proof. destruct x; simpl; try discriminate; auto. Qed.

(** C10.  In the grouped output the [component_id] of a group differs
    from that of every later group; a component whose [component_id] is
    null goes to the group whose id is null when there is one, and the
    number of groups stays the same; in particular it joins the synthetic
    group that a preceding record without components created. *)
Theorem group_ids_distinct :
  (forall (joined : list joined_record) (i j : nat) (gi gj : component_group),
     i < j ->
     group_by_component joined !! i = Some gi ->
     group_by_component joined !! j = Some gj ->
     py_eq (cg_component_id gi) (cg_component_id gj) = false) /\
  (forall (a : joined_record) (g : list component_group) (c : dashboard_component),
     dc_component_id c = VNone ->
     (exists item, item ∈ g /\ cg_component_id item = VNone) ->
     length (add_component a g c) = length g /\
     exists (k : nat) (item : component_group),
       g !! k = Some item /\ cg_component_id item = VNone /\
       add_component a g c =
       alter (append_assessment
                (summary_of a (dc_rating_value c) (dc_rating_title c))) k g) /\
  (forall (a1 a2 : joined_record) (c : dashboard_component),
     jr_components a1 = [] -> jr_components a2 = [c] -> dc_component_id c = VNone ->
     exists item,
       group_by_component [a1; a2] = [item] /\ cg_component_id item = VNone /\
       cg_assessments item =
       [empty_assessment a1; summary_of a2 (dc_rating_value c) (dc_rating_title c)]).
Proof.
  split; [|split].
  - intros joined i j gi gj Hij Hi Hj.
    apply (pairwise_distinct_lookup
             (map cg_component_id (group_by_component joined)) i j);
      [apply distinct_group_by_component | exact Hij | |].
    + rewrite list_lookup_fmap, Hi. reflexivity.
    + rewrite list_lookup_fmap, Hj. reflexivity.
  - intros a g c Hc (item & Hin & Hid). unfold add_component. rewrite Hc.
    destruct (find_group VNone g) as [k|] eqn:E.
    + split; [apply length_alter|].
      apply find_group_Some in E as (item' & Hk & Heq & _).
      exists k, item'. repeat split; auto. apply py_eq_None_r, Heq.
    + apply find_group_None in E. rewrite Forall_forall in E.
      apply E in Hin. rewrite Hid in Hin. discriminate.
  - intros a1 a2 c H1 H2 Hc. unfold group_by_component; simpl.
    unfold group_assessment. rewrite H1, H2; simpl.
    unfold add_component. rewrite Hc; simpl.
    eexists. repeat split.
Qed.

(** ** Text classifier *)

Lemma list_ascii_of_string_app (a b : string) :
  list_ascii_of_string (a ++ b) = list_ascii_of_string a ++ list_ascii_of_string b.
Proof. induction a as [|c a IH]; simpl; [reflexivity | now rewrite IH]. Qed.

Lemma normalize_text_app (a b : string) :
  normalize_text (a ++ b) = normalize_text a ++ normalize_text b.
Proof.
  unfold normalize_text, codepoints.
  rewrite list_ascii_of_string_app, !map_app, flat_map_app.
  apply List.filter_app.
Qed.

Lemma starts_with_app (w t : list N) : starts_with w (w ++ t) = true.
Proof. induction w as [|a w IH]; simpl; [reflexivity|]. now rewrite N.eqb_refl. Qed.

Lemma substring_in_app (w a b : list N) : substring_in w (a ++ w ++ b) = true.
Proof.
  induction a as [|x a IH].
  - simpl app. destruct (w ++ b) as [|y t] eqn:E.
    + destruct w; [reflexivity | discriminate].
    + change (starts_with w (y :: t) || substring_in w t = true).
      rewrite <- E, starts_with_app. reflexivity.
  - change (starts_with w (x :: a ++ w ++ b) || substring_in w (a ++ w ++ b) = true).
    rewrite IH. apply orb_true_r.
Qed.

Lemma nonempty_infix (p w q : string) :
  w <> "" -> String.eqb (p ++ w ++ q) "" = false.
Proof.
  intros Hw. apply String.eqb_neq. destruct p; simpl; [|discriminate].
  destruct w; [contradiction | discriminate].
Qed.

(** C2 as the program has it.  The classifier looks for its words as
    substrings of the normalized text: a text that embeds "si" (or "yes")
    anywhere is classified affirmative, and so is "business". *)
Theorem affirmative_is_substring_match :
  contains_affirmative_word (VStr "business") = true /\
  forall p q : string,
    contains_affirmative_word (VStr (p ++ "si" ++ q)) = true /\
    contains_affirmative_word (VStr (p ++ "yes" ++ q)) = true.
Proof.
  split; [reflexivity|]. intros p q.
  unfold contains_affirmative_word, truthy, is_str.
  rewrite !nonempty_infix by discriminate. simpl negb. simpl orb. cbv iota.
  rewrite !normalize_text_app. unfold affirmative_words.
  change (normalize_text "si") with (codepoints "si").
  change (normalize_text "yes") with (codepoints "yes").
  split; cbn [existsb]; rewrite substring_in_app; rewrite ?orb_true_r; reflexivity.
Qed.

(** The classifier does not return [false] on "business". *)
Lemma business_is_affirmative :
  contains_affirmative_word (VStr "business") <> false.
Proof. vm_compute. discriminate. Qed.

(** ** Assessment normalizer *)

Ltac bind_inv H :=
  repeat (cbv beta zeta in H;
          match type of H with
          | bind ?m ?k = Ok _ =>
              let x := fresh "x" in
              let E := fresh "E" in
              apply bind_Ok in H as (x & E & H)
          end);
  cbv beta zeta in H.

Lemma py_get_dict (d : list (string * value)) (k : string) :
  py_get (VDict d) k = Ok (default VNone (dict_get k d)).
Proof. reflexivity. Qed.



Lemma process_component_mirrors (cr : value) (pc : processed_component) :
  process_component cr = Ok pc -> mirrors_component cr pc.
Proof.
  unfold process_component, mirrors_component. intros H. bind_inv H.
  injection H as <-. simpl. assumption.
Qed.


Lemma Forall2_impl' {A B : Type} (P Q : A -> B -> Prop) (xs : list A) (ys : list B) :
  (forall x y, P x y -> Q x y) -> Forall2 P xs ys -> Forall2 Q xs ys.
Proof. intros HPQ H; induction H; constructor; auto. Qed.

Lemma process_area_mirrors (ar : value) (pa : processed_area) :
  process_area ar = Ok pa -> mirrors_area ar pa.
Proof.
  unfold process_area, mirrors_area. intros H. bind_inv H.
  injection H as <-. simpl. split; [assumption|].
  eexists; split; [eassumption|].
  match goal with E : mapM _ _ = Ok _ |- _ => apply mapM_Forall2 in E; rename E into F end.
  split; [symmetry; eapply Forall2_length; eassumption|].
  eapply Forall2_impl'; [|exact F]. apply process_component_mirrors.
Qed.


Lemma process_result_mirrors (a : value) (pr : processed_result) :
  process_result a = Ok pr -> mirrors_assessment a pr.
Proof.
  unfold process_result, mirrors_assessment. intros H. bind_inv H.
  injection H as <-. simpl. split; [assumption|].
  eexists; split; [eassumption|].
  match goal with E : mapM _ _ = Ok _ |- _ => apply mapM_Forall2 in E; rename E into F end.
  split; [symmetry; eapply Forall2_length; eassumption|].
  eapply Forall2_impl'; [|exact F]. apply process_area_mirrors.
Qed.



(** ** Status joiner *)

Lemma inline_get_value (cd : value) (k : string) :
  country_details_ok cd = true -> inline_get cd k = Ok (inline_value cd k).
Proof.
  unfold country_details_ok, inline_get, inline_value.
  destruct (truthy cd); simpl; [|reflexivity].
  destruct cd; try discriminate. reflexivity.
Qed.

Lemma inline_value_hashable (cd : value) :
  country_details_ok cd = true ->
  hashable (inline_value cd "iso3") = true /\ hashable (inline_value cd "region") = true.
Proof.
  unfold country_details_ok, inline_value.
  destruct (truthy cd); simpl; [|auto].
  destruct cd; try discriminate. intros H. apply andb_true_iff in H. exact H.
Qed.

Lemma map_find_In {V : Type} (k : value) (m : list (value * V)) (v : V) :
  map_find k m = Some v -> exists k', In (k', v) m /\ py_eq k' k = true.
Proof.
  induction m as [|[k' v'] m IH]; simpl; [discriminate|].
  destruct (py_eq k' k) eqn:E.
  - intros [= <-]. eauto.
  - intros H. destruct (IH H) as (k'' & Hin & Heq). eauto.
Qed.

Lemma country_data_ok (m : list (value * country_entry)) (k : value)
  (country_data : option country_entry) :
  countries_ok m = true -> map_find k m = country_data ->
  hashable (country_data_get ce_region country_data) = true /\
  centroid_ok (country_data_get ce_centroid country_data) = true.
Proof.
  intros Hm <-. destruct (map_find k m) as [e|] eqn:E; simpl; [|auto].
  apply map_find_In in E as (k' & Hin & _).
  unfold countries_ok in Hm. rewrite forallb_forall in Hm.
  specialize (Hm _ Hin). simpl in Hm. apply andb_true_iff in Hm. exact Hm.
Qed.

Lemma centroid_coordinates_ok (country_data : option country_entry) :
  centroid_ok (country_data_get ce_centroid country_data) = true ->
  exists l, centroid_coordinates country_data = Ok (VList l).
Proof.
  unfold centroid_ok, centroid_coordinates, py_or.
  destruct (truthy (country_data_get ce_centroid country_data)) eqn:T; simpl.
  - rewrite T. destruct (country_data_get ce_centroid country_data); try discriminate.
    simpl. destruct (dict_get "coordinates" d) as [[]|]; try discriminate; simpl; eauto.
  - eauto.
Qed.

Lemma coordinate_list (l : list value) (i : nat) :
  coordinate (VList l) i = Ok (default VNone (l !! i)).
Proof.
  unfold coordinate; simpl. destruct (i <? length l)%nat eqn:E.
  - apply Nat.ltb_lt in E. apply lookup_lt_is_Some in E as [x ->]. reflexivity.
  - apply Nat.ltb_ge in E. rewrite lookup_ge_None_2 by lia. reflexivity.
Qed.

Lemma py_or_hashable (a b : value) :
  hashable a = true -> hashable b = true -> hashable (py_or a b) = true.
Proof. unfold py_or. destruct (truthy a); auto. Qed.

Lemma type_of_assessment_name_ok (d : list (string * value)) :
  falsy_or_dict (default VNone (dict_get "type_of_assessment_details" d)) = true ->
  exists x, type_of_assessment_name (VDict d) = Ok x.
Proof.
  unfold type_of_assessment_name, falsy_or_dict, py_get, py_get_default.
  cbn [bind].
  destruct (dict_get "type_of_assessment_details" d) as [v|]; simpl; [|eauto].
  destruct (truthy v); simpl; [|eauto].
  destruct v; try discriminate. simpl. eauto.
Qed.

Lemma join_status_total (env : lookups) (status : value) :
  countries_ok (country_map env) = true -> status_ok status = true ->
  exists r, join_status env status = Ok r.
Proof.
  intros Hm Hs. destruct status as [| | | | | |d]; simpl in Hs; try discriminate.
  apply andb_true_iff in Hs as [Hs Ht]. apply andb_true_iff in Hs as [Hs Hc].
  apply andb_true_iff in Hs as [Hid Ha].
  destruct (dict_get "id" d) as [id|] eqn:Eid; [|discriminate].
  pose proof (inline_value_hashable _ Hc) as [Hiso Hreg].
  set (cd := default (VDict []) (dict_get "country_details" d)) in *.
  destruct (country_data_ok _ (inline_value cd "iso3") _ Hm eq_refl) as [Hr Hcen].
  destruct (centroid_coordinates_ok _ Hcen) as [l Hl].
  destruct (type_of_assessment_name_ok d Ht) as [tn Htn].
  unfold join_status.
  change (py_get_default (VDict d) "country_details" (VDict [])) with (Ok cd).
  cbn [bind]. rewrite !(inline_get_value cd) by exact Hc. cbn [bind].
  unfold find_country. rewrite Hiso. cbn [bind].
  unfold resolve_region_id.
  assert (Hrid : exists rid,
    (if truthy (country_data_get ce_region (map_find (inline_value cd "iso3") (country_map env)))
     then Ok (country_data_get ce_region (map_find (inline_value cd "iso3") (country_map env)))
     else inline_get cd "region") = Ok rid /\ hashable rid = true).
  { destruct (truthy _); [eauto|]. rewrite inline_get_value by exact Hc. eauto. }
  destruct Hrid as (rid & -> & Hrid). cbn [bind].
  unfold py_getitem. rewrite Eid. cbn [bind].
  unfold dict_lookup. rewrite Hid, py_get_dict. cbn [bind]. rewrite Ha. cbn [bind].
  change (py_get_default (VDict d) "phase_display" (VStr ""))
    with (Ok (default (VStr "") (dict_get "phase_display" d))).
  cbn [bind]. rewrite Hl. cbn [bind]. rewrite !py_get_dict. cbn [bind].
  rewrite Htn. cbn [bind]. rewrite Hrid. cbn [bind].
  rewrite !coordinate_list. cbn [bind]. eauto.
Qed.

(** What a successful join went through, step by step. *)
Lemma join_status_inv (env : lookups) (status : value) (r : joined_record) :
  join_status env status = Ok r ->
  exists country_details inline_iso3 country_data inline_name id overview coordinates,
    py_get_default status "country_details" (VDict []) = Ok country_details /\
    inline_get country_details "iso3" = Ok inline_iso3 /\
    find_country (country_map env) inline_iso3 = Ok country_data /\
    resolve_region_id country_data country_details = Ok (jr_region_id r) /\
    inline_get country_details "name" = Ok inline_name /\
    py_getitem status "id" = Ok id /\
    dict_lookup (overview_map env) id default_overview = Ok overview /\
    centroid_coordinates country_data = Ok coordinates /\
    coordinate coordinates 1 = Ok (jr_latitude r) /\
    coordinate coordinates 0 = Ok (jr_longitude r) /\
    dict_lookup region_id_to_name_map (jr_region_id r) VNone = Ok (jr_region_name r) /\
    jr_id r = id /\
    jr_country_name r = py_or inline_name (country_data_get ce_name country_data) /\
    jr_country_iso3 r = py_or inline_iso3 (country_data_get ce_iso3 country_data) /\
    jr_assess_preparedness_of_country r = ov_assess_preparedness_of_country overview /\
    jr_assess_urban_aspect_of_country r = ov_assess_urban_aspect_of_country overview /\
    jr_assess_climate_environment_of_country r =
      ov_assess_climate_environment_of_country overview /\
    jr_assess_migration_aspect_of_country r =
      ov_assess_migration_aspect_of_country overview.
Proof.
  unfold join_status. intros H. bind_inv H. injection H as <-. simpl.
  match goal with
  | E1 : inline_get ?cd "iso3" = Ok ?a, E2 : inline_get ?cd "iso3" = Ok ?b |- _ =>
      assert (a = b) by congruence; subst
  end.
  do 7 eexists. repeat split; try eassumption; reflexivity.
Qed.

(** C1 (no filtering).  Whenever the joiner returns, it returns exactly
    one joined record per status, in the order of the statuses: the record
    at each position is the join of the status at that position and
    carries its [id].  It does return for well-formed statuses and
    countries, of which nothing is required about the assessment, country,
    prioritization or overview a status refers to: a status without any
    match still has its record. *)
Theorem one_joined_record_per_status (env : lookups) (statuses : list value) :
  (forall joined,
     join_statuses env statuses = Ok joined ->
     length joined = length statuses /\
     Forall2 (fun status r =>
                join_status env status = Ok r /\ py_getitem status "id" = Ok (jr_id r))
             statuses joined) /\
  (countries_ok (country_map env) = true ->
   forallb status_ok statuses = true ->
   exists joined, join_statuses env statuses = Ok joined).
Proof.
  unfold join_statuses. split.
  - intros joined E. apply mapM_Forall2 in E. split.
    + symmetry. eapply Forall2_length. exact E.
    + eapply Forall2_impl'; [|exact E]. intros s r Hr. split; [exact Hr|].
      apply join_status_inv in Hr.
      destruct Hr as (cd & iso & cdata & nm & id & ov & co & H).
      destruct H as (_ & _ & _ & _ & _ & Hid & _ & _ & _ & _ & _ & Hr & _).
      rewrite Hr. exact Hid.
  - intros Hm Hs. apply mapM_total.
    apply Forall_forall. intros s Hin. apply join_status_total; [exact Hm|].
    rewrite forallb_forall in Hs. apply Hs, list_elem_of_In, Hin.
Qed.

Lemma inline_get_any (cd : value) (k k' : string) (x : value) :
  inline_get cd k = Ok x -> exists y, inline_get cd k' = Ok y.
Proof.
  unfold inline_get. destruct (truthy cd); [|eauto].
  destruct cd; simpl; try discriminate. eauto.
Qed.

(** C4 as the program is designed.  In a joined record the country name
    and iso3 are the inline values when these are truthy and the values of
    the country lookup otherwise; the region id is the region of the
    country lookup when the lookup has one (a truthy region), and the
    inline region when the lookup has no entry for the country or no
    region in it; latitude and longitude are split from the centroid of
    the country lookup, and the inline [country_details] is not consulted
    for them.  A lookup region that is present but falsy, the code 0, is
    the subject of C5 and no part of this statement. *)
Theorem country_fields_resolution (env : lookups) (status : value) (r : joined_record) :
  join_status env status = Ok r ->
  exists country_details country_data inline_name inline_iso3 inline_region coordinates,
    status_country env status = Ok (country_details, country_data) /\
    inline_get country_details "name" = Ok inline_name /\
    inline_get country_details "iso3" = Ok inline_iso3 /\
    inline_get country_details "region" = Ok inline_region /\
    jr_country_name r = py_or inline_name (country_data_get ce_name country_data) /\
    jr_country_iso3 r = py_or inline_iso3 (country_data_get ce_iso3 country_data) /\
    (truthy (country_data_get ce_region country_data) = true ->
     jr_region_id r = country_data_get ce_region country_data) /\
    (country_data_get ce_region country_data = VNone ->
     jr_region_id r = inline_region) /\
    centroid_coordinates country_data = Ok coordinates /\
    coordinate coordinates 1 = Ok (jr_latitude r) /\
    coordinate coordinates 0 = Ok (jr_longitude r).
Proof.
  intros H. apply join_status_inv in H.
  destruct H as (cd & iso & cdata & nm & id & ov & co & H).
  destruct H as (Hcd & Hiso & Hfind & Hreg & Hnm & _ & _ & Hco & Hlat & Hlon & _ & _
                 & Hname & Hiso3 & _).
  destruct (inline_get_any cd "iso3" "region" iso Hiso) as [reg Hr].
  unfold resolve_region_id in Hreg.
  assert (Hpresent : truthy (country_data_get ce_region cdata) = true ->
                     jr_region_id r = country_data_get ce_region cdata).
  { intros Ht. rewrite Ht in Hreg. congruence. }
  assert (Habsent : country_data_get ce_region cdata = VNone -> jr_region_id r = reg).
  { intros Hn. rewrite Hn in Hreg. cbn [truthy] in Hreg. congruence. }
  assert (Hsc : status_country env status = Ok (cd, cdata)).
  { unfold status_country. rewrite Hcd; cbn [bind]. rewrite Hiso; cbn [bind].
    rewrite Hfind. reflexivity. }
  exists cd, cdata, nm, iso, reg, co.
  repeat apply conj; assumption.
Qed.

(** C6 as the program has it.  Latitude and longitude come from the
    centroid of the country lookup.  They are both null when that centroid
    is null, empty or has no [coordinates]; when [coordinates] is a list,
    the latitude is its second element if there is one and the longitude
    its first element if there is one, each null otherwise.  In all these
    cases the step raises no error. *)
Theorem centroid_split (env : lookups) (status : value) (r : joined_record)
  (country_details : value) (country_data : option country_entry) :
  join_status env status = Ok r ->
  status_country env status = Ok (country_details, country_data) ->
  (truthy (country_data_get ce_centroid country_data) = false ->
   centroid_coordinates country_data = Ok (VList [VNone; VNone]) /\
   jr_latitude r = VNone /\ jr_longitude r = VNone) /\
  (forall d,
     country_data_get ce_centroid country_data = VDict d ->
     dict_get "coordinates" d = None ->
     centroid_coordinates country_data = Ok (VList [VNone; VNone]) /\
     jr_latitude r = VNone /\ jr_longitude r = VNone) /\
  (forall d l,
     country_data_get ce_centroid country_data = VDict d ->
     dict_get "coordinates" d = Some (VList l) ->
     centroid_coordinates country_data = Ok (VList l) /\
     jr_latitude r = default VNone (l !! 1%nat) /\
     jr_longitude r = default VNone (l !! 0%nat)).
Proof.
  intros H Hsc. apply join_status_inv in H.
  destruct H as (cd & iso & cdata & nm & id & ov & co & H).
  destruct H as (Hcd & Hiso & Hfind & _ & _ & _ & _ & Hco & Hlat & Hlon & _).
  unfold status_country in Hsc. rewrite Hcd in Hsc; cbn [bind] in Hsc.
  rewrite Hiso in Hsc; cbn [bind] in Hsc. rewrite Hfind in Hsc; cbn [bind] in Hsc.
  injection Hsc as <- <-.
  assert (Hnull : co = VList [VNone; VNone] ->
                  jr_latitude r = VNone /\ jr_longitude r = VNone).
  { intros ->. rewrite coordinate_list in Hlat, Hlon. simpl in Hlat, Hlon.
    split; congruence. }
  unfold centroid_coordinates, py_or in Hco |- *.
  split; [|split].
  - intros T. rewrite T in Hco |- *. simpl in Hco |- *.
    split; [reflexivity|]. apply Hnull. congruence.
  - intros d Hd Hk. rewrite Hd in Hco |- *.
    destruct (truthy (VDict d)) eqn:T.
    + rewrite T in Hco |- *. unfold py_get_default in Hco |- *.
      rewrite Hk in Hco |- *. simpl in Hco |- *.
      split; [reflexivity|]. apply Hnull. congruence.
    + simpl in Hco |- *. split; [reflexivity|]. apply Hnull. congruence.
  - intros d l Hd Hk. rewrite Hd in Hco |- *.
    assert (Hne : truthy (VDict d) = true) by (destruct d; [discriminate | reflexivity]).
    rewrite Hne in Hco |- *. rewrite Hne in Hco |- *.
    unfold py_get_default in Hco |- *. rewrite Hk in Hco |- *. simpl in Hco |- *.
    split; [reflexivity|]. injection Hco as <-.
    rewrite coordinate_list in Hlat, Hlon. split; congruence.
Qed.

Lemma map_insert_keys {V : Type} (k k' : value) (v v' : V) (m : list (value * V)) :
  In (k', v') (map_insert k v m) -> (exists v0, In (k', v0) m) \/ k' = k.
Proof.
  induction m as [|[k0 v0] m IH]; simpl.
  - intros [[= <- <-]|[]]. auto.
  - destruct (py_eq k0 k).
    + intros [[= <- <-]|Hin]; left; eauto.
    + intros [[= <- <-]|Hin]; [left; eauto|].
      destruct (IH Hin) as [[v1 H1]| ->]; [left; eauto | auto].
Qed.




(** Lines 89-95: without per-overview.json the overview lookup is empty. *)
Lemma overview_absent (inp : inputs) :
  per_overview_data inp = None ->
  bind (results_of (overview_document inp)) build_overview_map = Ok [].
Proof. unfold overview_document. intros ->. reflexivity. Qed.


(** ** Sorting by string keys *)

Lemma ltb_compare (s t : string) : String.ltb s t = true <-> String.compare s t = Lt.
Proof. unfold String.ltb. destruct (String.compare s t); split; congruence. Qed.

Lemma ltb_irrefl (s : string) : String.ltb s s = false.
Proof.
  destruct (String.ltb s s) eqn:E; [|reflexivity].
  apply ltb_compare in E.
  destruct (StrictOrder_Irreflexive (R := OrdersEx.String_as_OT.lt) s E).
Qed.

Lemma ltb_trans (s t u : string) :
  String.ltb s t = true -> String.ltb t u = true -> String.ltb s u = true.
Proof.
  rewrite !ltb_compare. intros H1 H2.
  exact (StrictOrder_Transitive (R := OrdersEx.String_as_OT.lt) s t u H1 H2).
Qed.

Lemma ltb_asym (s t : string) : String.ltb s t = true -> String.ltb t s = false.
Proof.
  intros H. destruct (String.ltb t s) eqn:E; [|reflexivity].
  pose proof (ltb_trans s t s H E) as Hss. rewrite ltb_irrefl in Hss. discriminate.
Qed.

Lemma ltb_total (s t : string) :
  String.ltb s t = false -> String.ltb t s = false -> s = t.
Proof.
  unfold String.ltb. rewrite (String.compare_antisym t s).
  destruct (String.compare s t) eqn:E; simpl; try discriminate.
  intros _ _. apply String.compare_eq_iff. exact E.
Qed.

(** [t <= u] and [s <= t] give [s <= u], with [<=] read as "not greater". *)
Lemma not_ltb_trans (s t u : string) :
  String.ltb u t = false -> String.ltb t s = false -> String.ltb u s = false.
Proof.
  intros H1 H2. destruct (String.ltb u s) eqn:E; [|reflexivity].
  destruct (String.ltb s t) eqn:Est.
  - rewrite (ltb_trans u s t E Est) in H1. discriminate.
  - rewrite (ltb_total s t Est H2) in E. congruence.
Qed.

Section SortStrings.
Context {A : Type} (key : A -> value) (skey : A -> string).

Lemma insert_str_perm (x : A) (l : list A) : insert_str skey x l ≡ₚ x :: l.
Proof.
  induction l as [|y l IH]; simpl; [reflexivity|].
  destruct (String.ltb (skey y) (skey x)); [|reflexivity].
  rewrite IH. apply Permutation_swap.
Qed.

Lemma sort_str_perm (l : list A) : sort_str skey l ≡ₚ l.
Proof.
  induction l as [|x l IH]; simpl; [reflexivity|].
  rewrite insert_str_perm, IH. reflexivity.
Qed.

Lemma insert_str_sorted (x : A) (l : list A) :
  StronglySorted (key_le skey) l -> StronglySorted (key_le skey) (insert_str skey x l).
Proof.
  induction 1 as [|y l Hs IH Hy]; simpl.
  - repeat constructor.
  - destruct (String.ltb (skey y) (skey x)) eqn:E.
    + constructor; [exact IH|].
      rewrite insert_str_perm. constructor; [|exact Hy].
      unfold key_le. apply ltb_asym. exact E.
    + constructor; [constructor; assumption|].
      constructor; [exact E|].
      eapply Forall_impl; [exact Hy|]. intros z Hz. unfold key_le in *.
      eapply not_ltb_trans; eassumption.
Qed.

Lemma sort_str_sorted (l : list A) : StronglySorted (key_le skey) (sort_str skey l).
Proof.
  induction l as [|x l IH]; simpl; [constructor | apply insert_str_sorted, IH].
Qed.



Lemma insert_sorted_str (x : A) (l : list A) :
  (str_keyed key skey) x -> Forall (str_keyed key skey) l -> insert_sorted key x l = Ok (insert_str skey x l).
Proof.
  intros Hx Hl. induction Hl as [|y l Hy Hl IH]; [reflexivity|].
  cbn [insert_sorted insert_str]. rewrite Hx, Hy. cbn [py_lt bind].
  destruct (String.ltb (skey y) (skey x)); [|reflexivity].
  rewrite IH. reflexivity.
Qed.

Lemma list_sort_str (l : list A) :
  Forall (str_keyed key skey) l -> list_sort key l = Ok (sort_str skey l).
Proof.
  induction 1 as [|x l Hx Hl IH]; [reflexivity|].
  cbn [list_sort sort_str]. rewrite IH. cbn [bind].
  apply insert_sorted_str; [exact Hx|]. rewrite sort_str_perm. exact Hl.
Qed.
End SortStrings.

(** ** Dictionary keys: [==] is an equivalence on hashable values *)

Lemma py_eq_refl (a : value) : hashable a = true -> py_eq a a = true.
Proof.
  destruct a; simpl; try discriminate; intros _; auto using Qeq_bool_refl.
  apply String.eqb_refl.
Qed.

Lemma Qeq_bool_comm (p q : Q) : Qeq_bool p q = Qeq_bool q p.
Proof.
  destruct (Qeq_bool p q) eqn:E1; destruct (Qeq_bool q p) eqn:E2; auto.
  - apply Qeq_bool_iff in E1. symmetry in E1. apply Qeq_bool_iff in E1. congruence.
  - apply Qeq_bool_iff in E2. symmetry in E2. apply Qeq_bool_iff in E2. congruence.
Qed.

Lemma py_eq_sym (a b : value) :
  hashable a = true -> hashable b = true -> py_eq a b = py_eq b a.
Proof.
  destruct a, b; simpl; try discriminate; intros _ _;
    auto using Qeq_bool_comm, String.eqb_sym.
Qed.

Lemma Qeq_bool_trans (p q r : Q) :
  Qeq_bool p q = true -> Qeq_bool q r = true -> Qeq_bool p r = true.
Proof.
  rewrite !Qeq_bool_iff. intros H1 H2. rewrite H1. exact H2.
Qed.

Lemma py_eq_trans (a b c : value) :
  hashable a = true -> hashable b = true -> hashable c = true ->
  py_eq a b = true -> py_eq b c = true -> py_eq a c = true.
Proof.
  destruct a, b, c; simpl; try discriminate; intros _ _ _; auto;
    try (apply Qeq_bool_trans).
  rewrite !String.eqb_eq. congruence.
Qed.

(** Two keys equal to a third one are equal. *)
Lemma py_eq_common (a b n : value) :
  hashable a = true -> hashable b = true -> hashable n = true ->
  py_eq a n = true -> py_eq b n = true -> py_eq a b = true.
Proof.
  intros Ha Hb Hn H1 H2. apply (py_eq_trans a n b); auto.
  rewrite py_eq_sym; auto.
Qed.

Lemma map_insert_spec {V : Type} (n : value) (v : V) (m : list (value * V)) :
  (map_find n m = None /\
   Forall (fun kv => py_eq (fst kv) n = false) m /\
   map_insert n v m = m ++ [(n, v)]) \/
  (exists m1 k0 v0 m2,
     m = m1 ++ (k0, v0) :: m2 /\
     Forall (fun kv => py_eq (fst kv) n = false) m1 /\
     py_eq k0 n = true /\
     map_find n m = Some v0 /\
     map_insert n v m = m1 ++ (k0, v) :: m2).
Proof.
  induction m as [|[k0 v0] m IH]; simpl.
  - left. repeat split. constructor.
  - destruct (py_eq k0 n) eqn:E.
    + right. exists [], k0, v0, m. repeat split; auto.
    + destruct IH as [(Hf & Hall & Hins)|(m1 & k1 & v1 & m2 & -> & Hall & Hk & Hf & Hins)].
      * left. repeat split; [exact Hf | constructor; auto | now rewrite Hins].
      * right. exists ((k0, v0) :: m1), k1, v1, m2.
        repeat split; [constructor; auto | exact Hk | exact Hf | now rewrite Hins].
Qed.

(** ** Country history *)

Lemma encountered_snoc (c : value) (seen : list joined_record) (data : joined_record) :
  encountered c (seen ++ [data]) =
  encountered c seen ++
  (if py_eq c (jr_country_name data) then [country_assessment_of data] else []).
Proof.
  unfold encountered. rewrite List.filter_app, map_app. simpl.
  destruct (py_eq c (jr_country_name data)); reflexivity.
Qed.

Lemma filter_none {A : Type} (f : A -> bool) (l : list A) :
  (forall x, In x l -> f x = false) -> List.filter f l = [].
Proof.
  induction l as [|x l IH]; simpl; intros H; [reflexivity|].
  rewrite (H x) by auto. apply IH. auto.
Qed.

Lemma pairwise_distinct_app (l1 l2 : list value) (x y : value) :
  pairwise_distinct (l1 ++ x :: l2) -> In y l2 -> py_eq x y = false.
Proof.
  induction l1 as [|z l1 IH]; simpl; intros [H1 H2] Hy.
  - rewrite Forall_forall in H1. apply H1, list_elem_of_In, Hy.
  - apply IH; assumption.
Qed.

Lemma track_country_inv (m : list (value * list country_assessment))
  (seen : list joined_record) (data : joined_record) :
  tracked_inv m seen ->
  Forall (fun d => hashable (jr_country_name d) = true) seen ->
  hashable (jr_country_name data) = true ->
  exists m', track_country m data = Ok m' /\ tracked_inv m' (seen ++ [data]).
Proof.
  intros [Hh Hd Hc Hcov] Hseen Hn. unfold track_country. rewrite Hn.
  set (n := jr_country_name data) in *.
  eexists; split; [reflexivity|].
  destruct (map_insert_spec n (default [] (map_find n m) ++ [country_assessment_of data]) m)
    as [(Hf & Hall & ->)|(m1 & k0 & v0 & m2 & Hm & Hall & Hk & Hf & ->)].
  - (* a new key *)
    rewrite Hf. simpl. split.
    + apply Forall_app; split; [exact Hh | repeat constructor; exact Hn].
    + rewrite map_app. apply pairwise_distinct_snoc; [exact Hd|].
      apply Forall_forall. intros k Hin.
      apply list_elem_of_fmap in Hin as (kv & -> & Hin).
      rewrite Forall_forall in Hall. auto.
    + apply Forall_app; split.
      * rewrite Forall_forall in Hc. rewrite Forall_forall in Hall.
        apply Forall_forall. intros kv Hin.
        rewrite encountered_snoc. fold n. rewrite (Hall kv Hin), app_nil_r. auto.
      * repeat constructor. simpl. rewrite encountered_snoc. fold n.
        rewrite (py_eq_refl n Hn).
        replace (encountered n seen) with (@nil country_assessment); [reflexivity|].
        symmetry. unfold encountered.
        replace (List.filter (fun d => py_eq n (jr_country_name d)) seen)
          with (@nil joined_record); [reflexivity|].
        symmetry. apply filter_none. intros d Hdin.
        rewrite Forall_forall in Hcov. rewrite Forall_forall in Hseen.
        rewrite Forall_forall in Hall. rewrite Forall_forall in Hh.
        apply list_elem_of_In in Hdin.
        destruct (Hcov d Hdin) as (kv & Hkv & Heq).
        apply list_elem_of_In in Hkv.
        destruct (py_eq n (jr_country_name d)) eqn:E; [|reflexivity].
        assert (Hkn : py_eq (fst kv) n = true)
          by (apply (py_eq_common _ _ (jr_country_name d)); auto).
        rewrite (Hall kv Hkv) in Hkn. discriminate.
    + apply Forall_app; split.
      * eapply Forall_impl; [exact Hcov|]. intros d (kv & Hkv & Heq).
        exists kv. split; [apply in_or_app; left; exact Hkv | exact Heq].
      * repeat constructor. exists (n, [country_assessment_of data]).
        split; [apply in_or_app; right; left; reflexivity|].
        simpl. apply py_eq_refl, Hn.
  - (* an existing key *)
    rewrite Hf. simpl. subst m.
    rewrite map_app in Hd. simpl in Hd.
    apply Forall_app in Hh as [Hh1 Hh2]. inversion Hh2 as [|? ? Hk0 Hh2']; subst.
    apply Forall_app in Hc as [Hc1 Hc2]. inversion Hc2 as [|? ? Hv0 Hc2']; subst.
    simpl in Hk0, Hv0. split.
    + apply Forall_app; split; [exact Hh1 | constructor; [exact Hk0 | exact Hh2']].
    + rewrite map_app. simpl. exact Hd.
    + apply Forall_app; split; [|constructor].
      * rewrite Forall_forall in Hc1. rewrite Forall_forall in Hall.
        apply Forall_forall. intros kv Hin.
        rewrite encountered_snoc. fold n. rewrite (Hall kv Hin), app_nil_r. auto.
      * simpl. rewrite encountered_snoc. fold n. rewrite Hk, Hv0. reflexivity.
      * rewrite Forall_forall in Hc2'. rewrite Forall_forall in Hh2'.
        apply Forall_forall. intros kv Hin.
        rewrite encountered_snoc. fold n.
        assert (Hne : py_eq (fst kv) n = false).
        { destruct (py_eq (fst kv) n) eqn:E; [|reflexivity].
          assert (H0 : py_eq k0 (fst kv) = true)
            by (apply (py_eq_common _ _ n); auto).
          rewrite (pairwise_distinct_app _ _ k0 (fst kv) Hd) in H0; [discriminate|].
          apply in_map, list_elem_of_In, Hin. }
        rewrite Hne, app_nil_r. auto.
    + apply Forall_app; split.
      * eapply Forall_impl; [exact Hcov|]. intros d (kv & Hkv & Heq).
        apply in_app_or in Hkv as [Hkv|[<-|Hkv]].
        -- exists kv. split; [apply in_or_app; left; exact Hkv | exact Heq].
        -- eexists (k0, _). split; [apply in_or_app; right; left; reflexivity | exact Heq].
        -- exists kv. split; [apply in_or_app; right; right; exact Hkv | exact Heq].
      * repeat constructor. eexists (k0, _).
        split; [apply in_or_app; right; left; reflexivity | exact Hk].
Qed.

Lemma track_countries_inv (joined seen : list joined_record)
  (m : list (value * list country_assessment)) :
  tracked_inv m seen ->
  Forall (fun d => hashable (jr_country_name d) = true) seen ->
  Forall (fun d => hashable (jr_country_name d) = true) joined ->
  exists m', foldM track_country m joined = Ok m' /\ tracked_inv m' (seen ++ joined).
Proof.
  revert seen m; induction joined as [|data joined IH]; intros seen m Hinv Hseen Hj.
  - exists m. rewrite app_nil_r. auto.
  - inversion Hj as [|? ? Hn Hj']; subst.
    destruct (track_country_inv m seen data Hinv Hseen Hn) as (m1 & E1 & Hinv1).
    destruct (IH (seen ++ [data]) m1 Hinv1) as (m' & E & Hinv'); [|exact Hj'|].
    + apply Forall_app; split; [exact Hseen | repeat constructor; exact Hn].
    + exists m'. simpl. rewrite E1. cbn [bind]. rewrite <- app_assoc in Hinv'. auto.
Qed.

Lemma date_key_string (data : joined_record) :
  date_is_string (jr_date_of_assessment data) = true ->
  str_keyed date_key date_string (country_assessment_of data).
Proof.
  unfold str_keyed, date_string, date_key, date_is_string. simpl.
  destruct (truthy (jr_date_of_assessment data)); simpl; [|reflexivity].
  destruct (jr_date_of_assessment data); simpl; try discriminate. reflexivity.
Qed.


Lemma sort_entries (tracked : list (value * list country_assessment)) :
  Forall (fun kv => Forall (str_keyed date_key date_string) (snd kv)) tracked ->
  mapM (fun entry : value * list country_assessment =>
          do sorted <- list_sort date_key (snd entry);
          Ok (fst entry, sorted))
       tracked =
  Ok (map (fun kv => (fst kv, sort_str date_string (snd kv))) tracked).
Proof.
  induction 1 as [|kv tracked Hkv _ IH]; [reflexivity|].
  cbn [mapM map]. rewrite (list_sort_str date_key date_string _ Hkv). cbn [bind].
  rewrite IH. reflexivity.
Qed.

Lemma encountered_str_keyed (c : value) (joined : list joined_record) :
  Forall (fun d => date_is_string (jr_date_of_assessment d) = true) joined ->
  Forall (str_keyed date_key date_string) (encountered c joined).
Proof.
  intros H. unfold encountered. apply Forall_forall. intros a Ha.
  apply list_elem_of_fmap in Ha as (d & -> & Hd).
  apply list_elem_of_In, List.filter_In in Hd as [Hd _].
  rewrite Forall_forall in H. apply date_key_string, H, list_elem_of_In, Hd.
Qed.


(** ** The stages of a successful run *)

Lemma process_data_stages (inp : inputs) (out : outputs) :
  process_data inp = Ok out ->
  exists env statuses raw overviews,
    results_of (per_status_data inp) = Ok statuses /\
    join_statuses env statuses = Ok (joined_data out) /\
    results_of (assessments inp) = Ok raw /\
    process_assessments raw = Ok (processed_assessments out) /\
    results_of (overview_document inp) = Ok overviews /\
    build_overview_map overviews = Ok (overview_map env) /\
    grouped out = group_by_component (joined_data out) /\
    build_country_assessments (joined_data out) = Ok (country_assessments out).
Proof.
  unfold process_data. intros H. bind_inv H. injection H as <-. simpl.
  repeat match goal with
         | E1 : ?m = Ok ?a, E2 : ?m = Ok ?b |- _ =>
             assert_fails (constr_eq a b); assert (b = a) by congruence; subst b
         end.
  eexists {| country_map := _ |}, _, _, _.
  repeat split; try eassumption.
Qed.

(** * Instances and counterexamples *)

(** The five example statuses, three of which match nothing, give five
    joined records. *)
Lemma one_joined_record_per_status_witness :
  exists joined,
    join_statuses example_env example_statuses = Ok joined /\
    length joined = length example_statuses /\
    Forall2 (fun status r =>
               join_status example_env status = Ok r /\
               py_getitem status "id" = Ok (jr_id r))
            example_statuses joined.
Proof.
  destruct (proj2 (one_joined_record_per_status example_env example_statuses)
              eq_refl eq_refl) as [joined E].
  exists joined. split; [exact E|].
  exact (proj1 (one_joined_record_per_status example_env example_statuses) joined E).
Defined.


(** The inline region 1 of the status loses against region 2 of the
    country lookup, and latitude and longitude are those of the lookup
    centroid [84, 28], not of the inline centroid [10, 20]. *)
Lemma inline_values_do_not_win :
  exists status country_details out r,
    results_of (per_status_data inline_inputs) = Ok [status] /\
    py_get status "country_details" = Ok country_details /\
    py_get country_details "region" = Ok (VInt 1) /\
    py_get country_details "centroid" = Ok (point [VInt 10; VInt 20]) /\
    process_data inline_inputs = Ok out /\ joined_data out = [r] /\
    jr_region_id r = VInt 2 /\ jr_region_id r <> VInt 1 /\
    jr_latitude r = VInt 28 /\ jr_latitude r <> VInt 20 /\
    jr_longitude r = VInt 84 /\ jr_longitude r <> VInt 10.
Proof.
  eexists. eexists. eexists. eexists.
  split; [vm_compute; reflexivity|]. split; [vm_compute; reflexivity|].
  split; [reflexivity|]. split; [reflexivity|].
  split; [vm_compute; reflexivity|].
  split; [reflexivity|]. simpl. repeat split; discriminate.
Defined.

(** A Nepali status with inline region 1: the name and iso3 are the
    inline ones, the region is the region 2 of the country lookup and the
    coordinates are those of the lookup centroid.  A status of a country
    that the lookup does not know keeps its inline region 3. *)
Lemma country_fields_resolution_witness :
  (exists r,
     join_status example_env nepal_status = Ok r /\
     jr_country_name r = VStr "Nepal (inline)" /\
     jr_country_iso3 r = VStr "NPL" /\
     jr_region_id r = VInt 2 /\
     jr_latitude r = VInt 28 /\ jr_longitude r = VInt 84) /\
  (exists r,
     join_status example_env unknown_country_status = Ok r /\
     jr_country_iso3 r = VStr "XXX" /\
     jr_region_id r = VInt 3).
Proof.
  split.
  - assert (E : {r | join_status example_env nepal_status = Ok r})
      by (eexists; vm_compute; reflexivity).
    destruct E as [r E].
    destruct (country_fields_resolution example_env nepal_status r E)
      as (cd & cdata & nm & iso & reg & co & Hsc & Hnm & Hiso & Hreg & Hname & Hiso3
          & Hpresent & _ & Hco & Hlat & Hlon).
    vm_compute in Hsc. injection Hsc as <- <-.
    vm_compute in Hnm. injection Hnm as <-.
    vm_compute in Hiso. injection Hiso as <-.
    vm_compute in Hco. injection Hco as <-.
    assert (Hlat' : Ok (VInt 28) = Ok (jr_latitude r)) by exact Hlat.
    assert (Hlon' : Ok (VInt 84) = Ok (jr_longitude r)) by exact Hlon.
    exists r. split; [exact E|]. split; [exact Hname|]. split; [exact Hiso3|].
    split; [exact (Hpresent eq_refl)|]. split; congruence.
  - assert (E : {r | join_status example_env unknown_country_status = Ok r})
      by (eexists; vm_compute; reflexivity).
    destruct E as [r E].
    destruct (country_fields_resolution example_env unknown_country_status r E)
      as (cd & cdata & nm & iso & reg & co & Hsc & Hnm & Hiso & Hreg & Hname & Hiso3
          & _ & Habsent & _).
    vm_compute in Hsc. injection Hsc as <- <-.
    vm_compute in Hiso. injection Hiso as <-.
    vm_compute in Hreg. injection Hreg as <-.
    exists r. split; [exact E|]. split; [exact Hiso3|]. exact (Habsent eq_refl).
Defined.

(** C5 at the failing input: the country lookup gives region 0 (Africa)
    for the status, yet the joined record has neither region id nor
    region name. *)
Theorem region_zero_is_lost :
  exists out r,
    process_data region_zero_inputs = Ok out /\ joined_data out = [r] /\
    jr_country_iso3 r = VStr "KEN" /\
    jr_region_id r = VNone /\ jr_region_name r = VNone.
Proof.
  eexists. eexists. split; [vm_compute; reflexivity|]. repeat split.
Qed.

(** A centroid whose coordinates hold one number: the longitude is that
    number, not null. *)
Lemma short_coordinates_keep_longitude :
  exists out r,
    process_data (centroid_inputs (point [VFloat (75 # 2)])) = Ok out /\
    joined_data out = [r] /\
    jr_latitude r = VNone /\
    jr_longitude r = VFloat (75 # 2) /\ jr_longitude r <> VNone.
Proof.
  eexists. eexists. split; [vm_compute; reflexivity|].
  split; [reflexivity|]. simpl. repeat split; discriminate.
Defined.

(** A centroid whose coordinates are null: [len(None)] raises. *)
Lemma null_coordinates_raise :
  process_data
    (centroid_inputs (VDict [("type", VStr "Point"); ("coordinates", VNone)])) =
  Raise TypeError.
Proof. vm_compute. reflexivity. Qed.

(** The Kenyan centroid [37.5, 0.5]: latitude 0.5, longitude 37.5. *)
Lemma centroid_split_witness :
  exists r,
    join_status example_env (kenya_status 1 10 (VStr "2023-05-01")) = Ok r /\
    jr_latitude r = VFloat (1 # 2) /\ jr_longitude r = VFloat (75 # 2).
Proof.
  eexists. split; [vm_compute; reflexivity|].
  refine (proj2 (proj2 (proj2 (centroid_split example_env
                                 (kenya_status 1 10 (VStr "2023-05-01")) _ _ _
                                 eq_refl eq_refl))
                       _ _ eq_refl eq_refl)).
Defined.



(** The example statuses give the groups of components 5 and 7. *)
Lemma group_ids_distinct_witness :
  exists gi gj,
    group_by_component example_joined !! 0%nat = Some gi /\
    group_by_component example_joined !! 1%nat = Some gj /\
    py_eq (cg_component_id gi) (cg_component_id gj) = false.
Proof.
  eexists. eexists. split; [vm_compute; reflexivity|]. split; [vm_compute; reflexivity|].
  apply (proj1 group_ids_distinct example_joined 0%nat 1%nat);
    [lia | vm_compute; reflexivity | vm_compute; reflexivity].
Defined.

(** * Further properties *)

(** ** Text classifier: what it accepts *)

Lemma lower_nfd_no_i_acute (a : ascii) :
  existsb (N.eqb 237) (nfd_char (lower_char (N_of_ascii a))) = false.
Proof.
  destruct a as [[] [] [] [] [] [] [] []]; reflexivity.
Qed.

Lemma existsb_flat_map {A B : Type} (f : B -> bool) (g : A -> list B) (l : list A) :
  (forall x, existsb f (g x) = false) -> existsb f (flat_map g l) = false.
Proof.
  intros H. induction l as [|x l IH]; simpl; [reflexivity|].
  rewrite existsb_app, H, IH. reflexivity.
Qed.

Lemma existsb_filter_false {A : Type} (f p : A -> bool) (l : list A) :
  existsb f l = false -> existsb f (List.filter p l) = false.
Proof.
  induction l as [|x l IH]; simpl; [reflexivity|].
  intros H. apply orb_false_iff in H as [Hx Hl].
  destruct (p x); simpl; rewrite ?Hx; auto.
Qed.

(** The normalized text never holds U+00ED: it is decomposed and its
    accent dropped. *)
Lemma normalize_text_no_i_acute (s : string) :
  existsb (N.eqb 237) (normalize_text s) = false.
Proof.
  unfold normalize_text, codepoints. apply existsb_filter_false.
  rewrite map_map.
  induction (list_ascii_of_string s) as [|a l IH]; simpl; [reflexivity|].
  rewrite existsb_app, lower_nfd_no_i_acute, IH. reflexivity.
Qed.

Lemma starts_with_existsb (w t : list N) (x : N) :
  starts_with w t = true -> existsb (N.eqb x) w = true -> existsb (N.eqb x) t = true.
Proof.
  revert t; induction w as [|a w IH]; intros [|b t]; simpl; try discriminate.
  intros H. apply andb_true_iff in H as [Hab Hw]. apply N.eqb_eq in Hab. subst b.
  intros Hx. apply orb_true_iff in Hx as [Hx|Hx]; [rewrite Hx; reflexivity|].
  rewrite (IH t Hw Hx). apply orb_true_r.
Qed.

Lemma substring_in_existsb (w t : list N) (x : N) :
  substring_in w t = true -> existsb (N.eqb x) w = true -> existsb (N.eqb x) t = true.
Proof.
  induction t as [|b t IH]; intros H Hx.
  - simpl in H. rewrite orb_false_r in H. eapply starts_with_existsb; eassumption.
  - change (starts_with w (b :: t) || substring_in w t = true) in H.
    apply orb_true_iff in H as [H|H]; [eapply starts_with_existsb; eassumption|].
    simpl. rewrite (IH H Hx). apply orb_true_r.
Qed.

Lemma accented_word_never_matches (s : string) :
  substring_in [115; 237]%N (normalize_text s) = false.
Proof.
  destruct (substring_in [115; 237]%N (normalize_text s)) eqn:E; [|reflexivity].
  pose proof (substring_in_existsb _ _ 237%N E eq_refl) as H.
  rewrite normalize_text_no_i_acute in H. discriminate.
Qed.

Lemma affirmative_iff (text : value) :
  contains_affirmative_word text = true <->
  exists s, text = VStr s /\
    (substring_in (codepoints "yes") (normalize_text s) = true \/
     substring_in (codepoints "si") (normalize_text s) = true).
Proof.
  unfold contains_affirmative_word, affirmative_words. split.
  - destruct text as [| | | |s| |];
      try (unfold is_str; rewrite orb_true_r; discriminate).
    simpl. destruct (String.eqb s ""); simpl; [discriminate|].
    rewrite accented_word_never_matches. simpl. rewrite orb_false_r.
    intros H. apply orb_true_iff in H. eauto.
  - intros (s & -> & H). simpl.
    destruct (String.eqb_spec s "") as [->|_]; simpl.
    + destruct H as [H|H]; discriminate.
    + rewrite accented_word_never_matches. simpl. rewrite orb_false_r.
      apply orb_true_iff. exact H.
Qed.

(** X2.  For texts of the code points U+0000 to U+00FF, where lowering
    and decomposition work character by character, matching ignores case
    and accents: a text that embeds any spelling whose normalized form is
    "si" or "yes" is affirmative, whatever stands before and after it. *)
Theorem affirmative_ignores_case_and_accents (p w q : string) :
  normalize_text w = codepoints "si" \/ normalize_text w = codepoints "yes" ->
  contains_affirmative_word (VStr (p ++ w ++ q)) = true.
Proof.
  intros H. apply affirmative_iff. eexists; split; [reflexivity|].
  rewrite !normalize_text_app.
  destruct H as [-> | ->]; [right | left]; apply substring_in_app.
Qed.

(** ** Lookups: storing and finding *)

Lemma map_find_insert {V : Type} (k k' : value) (v : V) (m : list (value * V)) :
  hashable k = true -> hashable k' = true ->
  Forall (fun kv => hashable (fst kv) = true) m ->
  map_find k (map_insert k' v m) = if py_eq k' k then Some v else map_find k m.
Proof.
  intros Hk Hk' Hm. induction Hm as [|[k0 v0] m H0 Hm IH]; simpl in *.
  - reflexivity.
  - destruct (py_eq k0 k') eqn:E0; simpl.
    + destruct (py_eq k0 k) eqn:E1.
      * rewrite (py_eq_common k' k k0); auto; rewrite py_eq_sym; auto.
      * destruct (py_eq k' k) eqn:E2; [|reflexivity].
        rewrite (py_eq_trans k0 k' k) in E1; auto. discriminate.
    + rewrite IH. destruct (py_eq k0 k) eqn:E1; [|reflexivity].
      destruct (py_eq k' k) eqn:E2; [|reflexivity].
      rewrite (py_eq_common k0 k' k) in E0; auto. discriminate.
Qed.

Lemma map_insert_hashable {V : Type} (k : value) (v : V) (m : list (value * V)) :
  hashable k = true ->
  Forall (fun kv => hashable (fst kv) = true) m ->
  Forall (fun kv => hashable (fst kv) = true) (map_insert k v m).
Proof.
  intros Hk Hm. induction Hm as [|[k0 v0] m H0 Hm IH]; simpl.
  - repeat constructor. exact Hk.
  - destruct (py_eq k0 k); constructor; auto.
Qed.

Lemma find_last_true {A : Type} (p : A -> bool) (l : list A) (y : A) :
  find_last p l = Some y -> p y = true /\ In y l.
Proof.
  induction l as [|x l IH]; simpl; [discriminate|].
  destruct (find_last p l) as [z|].
  - intros [= <-]. destruct (IH eq_refl). auto.
  - destruct (p x) eqn:E; [|discriminate]. intros [= <-]. auto.
Qed.

Section StoreLoop.
Context {A V : Type} (pair : A -> result (value * V)).
Context (step : list (value * V) -> A -> result (list (value * V))).
Hypothesis step_pair :
  forall m x, step m x = bind (pair x) (fun kv => dict_store m (fst kv) (snd kv)).

Lemma store_loop_find (records : list A) (m0 m : list (value * V)) (k : value) :
  foldM step m0 records = Ok m ->
  hashable k = true ->
  Forall (fun kv => hashable (fst kv) = true) m0 ->
  Forall (fun kv => hashable (fst kv) = true) m /\
  map_find k m =
  match last_value pair k records with
  | Some v => Some v
  | None => map_find k m0
  end.
Proof using step_pair.
  intros H Hk. revert m0 H.
  induction records as [|x records IH]; simpl; intros m0 H Hm0.
  - injection H as <-. auto.
  - apply bind_Ok in H as (m1 & H1 & H). rewrite step_pair in H1.
    apply bind_Ok in H1 as ([k' v'] & Hp & H1). unfold dict_store in H1. simpl in H1.
    destruct (hashable k') eqn:Hk'; [|discriminate]. injection H1 as <-.
    destruct (IH _ H (map_insert_hashable k' v' m0 Hk' Hm0)) as [Hm Hf].
    split; [exact Hm|]. rewrite Hf. unfold last_value. simpl.
    destruct (find_last (keyed_by pair k) records) as [y|] eqn:Ey.
    { apply find_last_true in Ey as [Ey _]. unfold keyed_by in Ey.
      destruct (pair y); [reflexivity | discriminate]. }
    rewrite map_find_insert by assumption.
    unfold keyed_by at 1. rewrite Hp. simpl.
    destruct (py_eq k' k); [rewrite Hp|]; reflexivity.
Qed.

Lemma store_loop_total (records : list A) (m0 : list (value * V)) :
  (exists m, foldM step m0 records = Ok m) <->
  forallb (storable pair) records = true.
Proof using step_pair.
  revert m0; induction records as [|x records IH]; simpl; intros m0.
  - split; eauto.
  - rewrite step_pair. unfold storable at 1, dict_store.
    destruct (pair x) as [[k v]|e]; simpl.
    + destruct (hashable k); simpl; [apply IH|].
      split; [intros [m H]|]; discriminate.
    + split; [intros [m H]|]; discriminate.
Qed.
End StoreLoop.

Lemma overview_entry_pair (m : list (value * overview_fields)) (overview : value) :
  overview_entry m overview =
  bind (overview_pair overview) (fun kv => dict_store m (fst kv) (snd kv)).
Proof.
  unfold overview_entry, overview_pair.
  repeat match goal with
         | |- context [bind ?x _] =>
             match x with
             | bind _ _ => fail 1
             | _ => destruct x; simpl; try reflexivity
             end
         end.
Qed.

Lemma country_map_entry_pair (m : list (value * country_entry)) (country : value) :
  country_map_entry m country =
  bind (country_pair country) (fun kv => dict_store m (fst kv) (snd kv)).
Proof.
  unfold country_map_entry, country_pair.
  repeat match goal with
         | |- context [bind ?x _] =>
             match x with
             | bind _ _ => fail 1
             | _ => destruct x; simpl; try reflexivity
             end
         end.
Qed.

Lemma country_lookup_last (countries : list value) (m : list (value * country_entry))
  (k : value) :
  build_country_map countries = Ok m -> hashable k = true ->
  find_country m k = Ok (last_value country_pair k countries).
Proof.
  unfold build_country_map. intros H Hk. unfold find_country. rewrite Hk.
  destruct (store_loop_find country_pair _ country_map_entry_pair
              countries [] m k H Hk) as [_ ->]; [constructor|].
  destruct (last_value country_pair k countries); reflexivity.
Qed.

Lemma overview_lookup_last (overviews : list value) (m : list (value * overview_fields))
  (id : value) :
  build_overview_map overviews = Ok m -> hashable id = true ->
  dict_lookup m id default_overview =
  Ok (default default_overview (last_value overview_pair id overviews)).
Proof.
  unfold build_overview_map. intros H Hk. unfold dict_lookup. rewrite Hk.
  destruct (store_loop_find overview_pair _ overview_entry_pair
              overviews [] m id H Hk) as [_ ->]; [constructor|].
  destruct (last_value overview_pair id overviews); reflexivity.
Qed.

(** X3.  The country lookup is built exactly when every country record
    has an [iso3] that can be a key, and a missing or unhashable [iso3]
    raises; in the lookup, the entry found under a key is the one of the
    last country record with that [iso3] (later records overwrite). *)
Theorem country_map_last_wins (countries : list value) :
  ((exists m, build_country_map countries = Ok m) <->
   forallb (storable country_pair) countries = true) /\
  (forall m k,
     build_country_map countries = Ok m -> hashable k = true ->
     find_country m k = Ok (last_value country_pair k countries)).
Proof.
  unfold build_country_map. split.
  - apply (store_loop_total country_pair), country_map_entry_pair.
  - intros m k. apply country_lookup_last.
Qed.

(** X4.  The overview lookup is built exactly when every overview record
    has an [id] that can be a key; the fields found for a status id are
    those of the last overview record with that id, and the four nulls
    when there is none. *)
Theorem overview_map_last_wins (overviews : list value) :
  ((exists m, build_overview_map overviews = Ok m) <->
   forallb (storable overview_pair) overviews = true) /\
  (forall m id,
     build_overview_map overviews = Ok m -> hashable id = true ->
     dict_lookup m id default_overview =
     Ok (default default_overview (last_value overview_pair id overviews))).
Proof.
  unfold build_overview_map. split.
  - apply (store_loop_total overview_pair), overview_entry_pair.
  - intros m id. apply overview_lookup_last.
Qed.

(** ** Component descriptions and prioritization *)

Lemma describe_response_keys (m m' : list (value * component_description))
  (response : value) :
  describe_response m response = Ok m' ->
  Forall (fun kv => truthy (fst kv) = true) m ->
  Forall (fun kv => truthy (fst kv) = true) m'.
Proof.
  unfold describe_response. intros H Hm. bind_inv H.
  match type of H with
  | (if truthy ?c then _ else _) = _ => destruct (truthy c) eqn:T
  end.
  - bind_inv H. unfold dict_store in H.
    destruct (hashable _); [|discriminate]. injection H as <-.
    apply Forall_forall. intros [k v] Hin. apply list_elem_of_In in Hin.
    apply map_insert_keys in Hin as [[v0 Hin]| ->]; [|exact T].
    rewrite Forall_forall in Hm. apply (Hm (k, v0)), list_elem_of_In, Hin.
  - injection H as <-. exact Hm.
Qed.

Lemma foldM_invariant {A B : Type} (P : B -> Prop) (f : B -> A -> result B)
  (xs : list A) (b b' : B) :
  (forall b x b', f b x = Ok b' -> P b -> P b') ->
  foldM f b xs = Ok b' -> P b -> P b'.
Proof.
  intros Hf. revert b. induction xs as [|x xs IH]; simpl; intros b H Hb.
  - injection H as <-. exact Hb.
  - apply bind_Ok in H as (b1 & H1 & H). eapply IH; eauto.
Qed.

(** X5.  No description is ever stored under a falsy component id: a
    response whose component has no id, a null id or the id 0 is skipped,
    so every key of the component descriptions is truthy. *)
Theorem component_descriptions_keys_truthy (prioritizations : list value)
  (descriptions : list (value * component_description)) :
  build_component_descriptions prioritizations = Ok descriptions ->
  Forall (fun kv => truthy (fst kv) = true) descriptions.
Proof.
  unfold build_component_descriptions. intros H.
  refine (foldM_invariant (Forall (fun kv => truthy (fst kv) = true)) _ _ _ _ _ H _);
    [|constructor].
  intros m item m' Hi Hm. bind_inv Hi.
  refine (foldM_invariant _ _ _ _ _ _ Hi Hm).
  intros m1 response m2 Hr Hm1. eapply describe_response_keys; eassumption.
Qed.

Lemma prioritization_step_pair (m : list (value * list prioritized_component))
  (item : value) :
  (do overview_id <- py_get item "overview";
   do responses <- py_get_default item "prioritized_action_responses" (VList []);
   do rs <- py_iter responses;
   do components <- mapM prioritized_of_response rs;
   dict_store m overview_id components) =
  bind (prioritization_pair item) (fun kv => dict_store m (fst kv) (snd kv)).
Proof.
  unfold prioritization_pair.
  repeat match goal with
         | |- context [bind ?x _] =>
             match x with
             | bind _ _ => fail 1
             | _ => destruct x; simpl; try reflexivity
             end
         end.
Qed.

Lemma prioritized_of_response_component (response : value) (c : prioritized_component) :
  prioritized_of_response response = Ok c ->
  py_get response "component" = Ok (componentId c).
Proof.
  unfold prioritized_of_response. intros H. bind_inv H. injection H as <-.
  simpl. assumption.
Qed.

Lemma prioritization_lookup_last (items : list value)
  (m : list (value * list prioritized_component)) (id : value) :
  build_prioritization_map items = Ok m -> hashable id = true ->
  dict_lookup m id [] = Ok (default [] (last_value prioritization_pair id items)).
Proof.
  unfold build_prioritization_map. intros H Hk. unfold dict_lookup. rewrite Hk.
  destruct (store_loop_find prioritization_pair _ prioritization_step_pair
              items [] m id H Hk) as [_ ->]; [constructor|].
  destruct (last_value prioritization_pair id items); reflexivity.
Qed.

(** X6.  The prioritized components found for a status id are those of
    the last prioritization record whose [overview] is that id, and the
    empty list when there is none; the components of a record are its
    prioritized action responses, one for one and in order, each with the
    [component] of its response as [componentId]. *)
Theorem prioritization_map_last_wins (items : list value) :
  (forall m id,
     build_prioritization_map items = Ok m -> hashable id = true ->
     dict_lookup m id [] = Ok (default [] (last_value prioritization_pair id items))) /\
  (forall item k components,
     prioritization_pair item = Ok (k, components) ->
     py_get item "overview" = Ok k /\
     exists responses rs,
       py_get_default item "prioritized_action_responses" (VList []) = Ok responses /\
       py_iter responses = Ok rs /\
       length components = length rs /\
       Forall2 (fun r c => py_get r "component" = Ok (componentId c)) rs components).
Proof.
  split.
  - intros m id. apply prioritization_lookup_last.
  - unfold prioritization_pair. intros item k components H. bind_inv H.
    injection H as <- <-. split; [assumption|].
    do 2 eexists. split; [eassumption|]. split; [eassumption|].
    match goal with E : mapM _ _ = Ok _ |- _ => apply mapM_Forall2 in E; rename E into F end.
    split; [symmetry; eapply Forall2_length; exact F|].
    eapply Forall2_impl'; [|exact F]. apply prioritized_of_response_component.
Qed.

(** ** Dashboard flattener *)

Lemma Forall2_concat {A B : Type} (R : A -> B -> Prop) (ls : list (list A))
  (ms : list (list B)) :
  Forall2 (Forall2 R) ls ms -> Forall2 R (concat ls) (concat ms).
Proof.
  induction 1 as [|l m ls ms Hlm _ IH]; simpl; [constructor|].
  apply Forall2_app; assumption.
Qed.


Lemma flatten_component_fields (cr : value) (dc : dashboard_component) :
  flatten_component cr = Ok dc ->
  py_get cr "component" = Ok (dc_component_id dc) /\
  dict_lookup area_names (dc_area_id dc) (VStr "") = Ok (dc_area_name dc).
Proof.
  unfold flatten_component. intros H. bind_inv H. injection H as <-. simpl.
  split; [assumption|].
  match goal with
  | E1 : py_get ?d "area" = Ok ?a, E2 : py_get ?d "area" = Ok ?b |- _ =>
      assert (a = b) by congruence; subst
  end.
  assumption.
Qed.


Lemma area_name_lookup (area_id : value) (name : value) :
  dict_lookup area_names area_id (VStr "") = Ok name ->
  name = VStr "" \/ In name (map snd area_names).
Proof.
  unfold dict_lookup. destruct (hashable area_id); [|discriminate].
  destruct (map_find area_id area_names) as [v|] eqn:E; intros [= <-]; [|auto].
  right. apply map_find_In in E as (k & Hin & _).
  exact (in_map snd _ _ Hin).
Qed.

(** X8.  The area name of a flattened component is never null: it is one
    of the five area names, found under the component's area id, or the
    empty string when the area id is not one of 1 to 5. *)
Theorem flattened_area_name (cr : value) (dc : dashboard_component) :
  flatten_component cr = Ok dc ->
  dict_lookup area_names (dc_area_id dc) (VStr "") = Ok (dc_area_name dc) /\
  is_str (dc_area_name dc) = true /\
  (dc_area_name dc = VStr "" \/ In (dc_area_name dc) (map snd area_names)).
Proof.
  intros H. apply flatten_component_fields in H as [_ H].
  split; [exact H|]. apply area_name_lookup in H.
  split; [|exact H].
  destruct H as [-> | H]; [reflexivity|].
  simpl in H. repeat (destruct H as [<- | H]; [reflexivity|]). destruct H.
Qed.

(** ** Consideration flags *)

Lemma existsb_Forall2 {A B : Type} (f : A -> bool) (g : B -> bool)
  (l : list A) (l' : list B) :
  Forall2 (fun x y => f x = g y) l l' -> existsb f l = existsb g l'.
Proof. induction 1 as [|x y l l' Hxy _ IH]; simpl; congruence. Qed.

Lemma process_component_flags (cr : value) (pc : processed_component) :
  process_component cr = Ok pc ->
  pc_urban_considerations_simplified pc =
    contains_affirmative_word (field_of cr "urban_considerations") /\
  pc_epi_considerations_simplified pc =
    contains_affirmative_word (field_of cr "epi_considerations") /\
  pc_climate_environmental_considerations_simplified pc =
    contains_affirmative_word (field_of cr "climate_environmental_considerations") /\
  pc_migration_considerations_simplified pc =
    contains_affirmative_word (field_of cr "migration_considerations").
Proof.
  unfold process_component, field_of. intros H. bind_inv H. injection H as <-. simpl.
  repeat match goal with E : py_get cr _ = Ok _ |- _ => rewrite E; clear E end.
  repeat split.
Qed.

Lemma process_areas (ars : list value) (pas : list processed_area) :
  mapM process_area ars = Ok pas ->
  exists per_crs,
    mapM component_responses_of ars = Ok per_crs /\
    Forall2 (Forall2 (fun cr pc => process_component cr = Ok pc))
            per_crs (map pa_component_responses pas).
Proof.
  revert pas; induction ars as [|ar ars IH]; simpl; intros pas H.
  - injection H as <-. exists []. split; [reflexivity | constructor].
  - apply bind_Ok in H as (pa & H1 & H). apply bind_Ok in H as (rest & H2 & H).
    injection H as <-. destruct (IH _ H2) as (per_crs & Eper & F).
    unfold process_area in H1. bind_inv H1. injection H1 as <-.
    match goal with E1 : component_responses_of ar = Ok ?crs |- _ =>
      exists (crs :: per_crs); rewrite E1 end.
    rewrite Eper. simpl. split; [reflexivity|].
    constructor; [apply mapM_Forall2; assumption | exact F].
Qed.

(** X9.  The flags of a normalized assessment are "any" flags over the
    raw texts: a flag is true exactly when the classifier accepts the
    corresponding consideration text of at least one component response
    of the assessment, whatever its area. *)
Theorem assessment_flags_any (assessment : value) (p : processed_result) :
  process_result assessment = Ok p ->
  exists crs,
    raw_component_responses assessment = Ok crs /\
    length (all_components p) = length crs /\
    cs_urban_considerations (assessment_considerations p) =
      any_affirmative "urban_considerations" crs /\
    cs_epi_considerations (assessment_considerations p) =
      any_affirmative "epi_considerations" crs /\
    cs_climate_environmental_considerations (assessment_considerations p) =
      any_affirmative "climate_environmental_considerations" crs /\
    cs_migration_considerations (assessment_considerations p) =
      any_affirmative "migration_considerations" crs.
Proof.
  unfold process_result, raw_component_responses. intros H. bind_inv H.
  injection H as <-.
  match goal with E : mapM process_area _ = Ok _ |- _ =>
    apply process_areas in E as (per_crs & Ecrs & F) end.
  match goal with E : area_responses_of _ = Ok _ |- _ => rewrite E end.
  cbn [bind]. rewrite Ecrs. cbn [bind].
  eexists; split; [reflexivity|].
  apply Forall2_concat in F. unfold all_components. simpl pr_area_responses.
  split; [symmetry; eapply Forall2_length; exact F|].
  unfold assessment_considerations, all_components, any_affirmative.
  simpl pr_area_responses. cbn [cs_urban_considerations cs_epi_considerations
    cs_climate_environmental_considerations cs_migration_considerations].
  repeat split; symmetry; apply existsb_Forall2;
    (eapply Forall2_impl'; [|exact F]); intros cr pc Hc;
    apply process_component_flags in Hc as (H1 & H2 & H3 & H4); congruence.
Qed.

Lemma considerations_step_pair (m : list (value * considerations))
  (assessment : processed_result) :
  dict_store m (pr_id assessment) (assessment_considerations assessment) =
  bind (considerations_pair assessment) (fun kv => dict_store m (fst kv) (snd kv)).
Proof. reflexivity. Qed.

Lemma considerations_lookup_last (processed : list processed_result)
  (m : list (value * considerations)) (k : value) :
  build_considerations_map processed = Ok m -> hashable k = true ->
  dict_lookup m k default_considerations =
  Ok (default default_considerations (last_value considerations_pair k processed)).
Proof.
  unfold build_considerations_map. intros H Hk. unfold dict_lookup. rewrite Hk.
  destruct (store_loop_find considerations_pair _ considerations_step_pair
              processed [] m k H Hk) as [_ ->]; [constructor|].
  destruct (last_value considerations_pair k processed); reflexivity.
Qed.

Lemma find_dashboard_first (das : list dashboard_assessment) (k : value) :
  find_dashboard_assessment das k = first_components das k.
Proof.
  unfold first_components.
  induction das as [|da das IH]; simpl; [reflexivity|].
  destruct (py_eq (da_assessment_id da) k); [reflexivity | exact IH].
Qed.

Lemma find_last_no_match {A : Type} (q : A -> bool) (l : list A) :
  Forall (fun y => q y = false) l -> find_last q l = None.
Proof.
  intros H. induction H as [|y l Hy _ IH]; simpl; [reflexivity|].
  rewrite IH, Hy. reflexivity.
Qed.

Lemma find_last_last_match {A : Type} (q : A -> bool) (front back : list A) (x : A) :
  q x = true -> Forall (fun y => q y = false) back ->
  find_last q (front ++ x :: back) = Some x.
Proof.
  intros Hx Hb. induction front as [|z front IH]; simpl.
  - rewrite (find_last_no_match q back Hb), Hx. reflexivity.
  - rewrite IH. reflexivity.
Qed.

(** X10.  Assessments that share an id are resolved in opposite ways.
    The considerations lookup, a dict filled in list order, answers with
    the flags of the last normalized assessment whose id equals the key,
    whatever stands before it; the search for the dashboard assessment
    stops at the first one whose id equals the key, whatever stands
    after it.  Without any assessment of that id the flags are four times
    [False] and there are no components. *)
Theorem flags_last_components_first (processed : list processed_result)
  (das : list dashboard_assessment) (m : list (value * considerations)) (k : value) :
  build_considerations_map processed = Ok m -> hashable k = true ->
  (forall front p back,
     processed = front ++ p :: back ->
     py_eq (pr_id p) k = true ->
     Forall (fun p' => py_eq (pr_id p') k = false) back ->
     dict_lookup m k default_considerations = Ok (assessment_considerations p)) /\
  (Forall (fun p' => py_eq (pr_id p') k = false) processed ->
   dict_lookup m k default_considerations = Ok default_considerations) /\
  (forall front da back,
     das = front ++ da :: back ->
     Forall (fun d => py_eq (da_assessment_id d) k = false) front ->
     py_eq (da_assessment_id da) k = true ->
     find_dashboard_assessment das k = da_components da) /\
  (Forall (fun d => py_eq (da_assessment_id d) k = false) das ->
   find_dashboard_assessment das k = []).
Proof.
  intros Hm Hk.
  pose proof (considerations_lookup_last processed m k Hm Hk) as Hlookup.
  unfold last_value in Hlookup.
  split; [|split; [|split]].
  - intros front p back -> Hp Hback.
    rewrite (find_last_last_match (keyed_by considerations_pair k) front back p Hp Hback)
      in Hlookup.
    exact Hlookup.
  - intros Hnone.
    rewrite (find_last_no_match (keyed_by considerations_pair k) processed Hnone)
      in Hlookup.
    exact Hlookup.
  - intros front da back -> Hfront Hda.
    induction Hfront as [|d front Hd _ IH]; simpl.
    + rewrite Hda. reflexivity.
    + rewrite Hd. exact IH.
  - intros Hnone. induction Hnone as [|d das' Hd _ IH]; simpl; [reflexivity|].
    rewrite Hd. exact IH.
Qed.

(** ** A joined record in terms of the inputs *)

Lemma dict_lookup_hashable {V : Type} (m : list (value * V)) (k : value) (d v : V) :
  dict_lookup m k d = Ok v -> hashable k = true.
Proof. unfold dict_lookup. destruct (hashable k); [reflexivity | discriminate]. Qed.

Lemma join_status_lookups (env : lookups) (status : value) (r : joined_record) :
  join_status env status = Ok r ->
  exists id assessment considerations overview,
    py_getitem status "id" = Ok id /\
    py_get status "assessment" = Ok assessment /\
    dict_lookup (prioritization_map env) id [] = Ok (jr_prioritized_components r) /\
    dict_lookup (assessment_considerations_map env) assessment default_considerations =
      Ok considerations /\
    dict_lookup (overview_map env) id default_overview = Ok overview /\
    jr_components r = find_dashboard_assessment (dashboard_assessments env) assessment /\
    jr_epi_considerations r = cs_epi_considerations considerations /\
    jr_climate_environmental_considerations r =
      cs_climate_environmental_considerations considerations /\
    jr_urban_considerations r = cs_urban_considerations considerations /\
    jr_migration_considerations r = cs_migration_considerations considerations /\
    jr_assess_preparedness_of_country r = ov_assess_preparedness_of_country overview /\
    jr_assess_urban_aspect_of_country r = ov_assess_urban_aspect_of_country overview /\
    jr_assess_climate_environment_of_country r =
      ov_assess_climate_environment_of_country overview /\
    jr_assess_migration_aspect_of_country r =
      ov_assess_migration_aspect_of_country overview.
Proof.
  unfold join_status. intros H. bind_inv H. injection H as <-. simpl.
  do 4 eexists. repeat split; try eassumption; reflexivity.
Qed.

Lemma process_data_inv (inp : inputs) (out : outputs) :
  process_data inp = Ok out ->
  exists overviews countries items raw statuses om cm pm das acm,
    results_of (overview_document inp) = Ok overviews /\
    build_overview_map overviews = Ok om /\
    results_of (countries_data inp) = Ok countries /\
    build_country_map countries = Ok cm /\
    results_of (prioritization_data inp) = Ok items /\
    build_component_descriptions items = Ok (component_descriptions out) /\
    build_prioritization_map items = Ok pm /\
    results_of (assessments inp) = Ok raw /\
    process_assessments raw = Ok (processed_assessments out) /\
    build_dashboard_assessments raw = Ok das /\
    build_considerations_map (processed_assessments out) = Ok acm /\
    results_of (per_status_data inp) = Ok statuses /\
    join_statuses
      {| country_map := cm; prioritization_map := pm; dashboard_assessments := das;
         assessment_considerations_map := acm; overview_map := om |}
      statuses = Ok (joined_data out) /\
    grouped out = group_by_component (joined_data out) /\
    build_country_assessments (joined_data out) = Ok (country_assessments out).
Proof.
  unfold process_data. intros H. bind_inv H. injection H as <-. simpl.
  repeat match goal with
         | E1 : ?m = Ok ?a, E2 : ?m = Ok ?b |- _ =>
             assert_fails (constr_eq a b); assert (b = a) by congruence; subst b
         end.
  do 10 eexists. repeat split; eassumption.
Qed.

(** X11.  In a successful run every joined record is put together from
    the inputs by the ids of its status: its prioritized components are
    those of the last prioritization record whose [overview] is the status
    id, its [assess_*_of_country] fields those of the last overview record
    with the status id, its four flags those of the last normalized
    assessment whose id is the status's [assessment], and its dashboard
    components those of the first assessment with that id; a lookup that
    finds nothing gives the empty list, nulls, [False] and the empty list. *)
Theorem joined_record_sources (inp : inputs) (out : outputs) :
  process_data inp = Ok out ->
  exists statuses overviews items raw das,
    results_of (per_status_data inp) = Ok statuses /\
    results_of (overview_document inp) = Ok overviews /\
    results_of (prioritization_data inp) = Ok items /\
    results_of (assessments inp) = Ok raw /\
    build_dashboard_assessments raw = Ok das /\
    Forall2
      (fun status r =>
         exists id assessment,
           py_getitem status "id" = Ok id /\
           py_get status "assessment" = Ok assessment /\
           jr_prioritized_components r =
             default [] (last_value prioritization_pair id items) /\
           (let overview :=
              default default_overview (last_value overview_pair id overviews) in
            jr_assess_preparedness_of_country r =
              ov_assess_preparedness_of_country overview /\
            jr_assess_urban_aspect_of_country r =
              ov_assess_urban_aspect_of_country overview /\
            jr_assess_climate_environment_of_country r =
              ov_assess_climate_environment_of_country overview /\
            jr_assess_migration_aspect_of_country r =
              ov_assess_migration_aspect_of_country overview) /\
           (let flags :=
              default default_considerations
                (last_value considerations_pair assessment (processed_assessments out)) in
            jr_epi_considerations r = cs_epi_considerations flags /\
            jr_climate_environmental_considerations r =
              cs_climate_environmental_considerations flags /\
            jr_urban_considerations r = cs_urban_considerations flags /\
            jr_migration_considerations r = cs_migration_considerations flags) /\
           jr_components r = first_components das assessment)
      statuses (joined_data out).
Proof.
  intros H. apply process_data_inv in H.
  destruct H as (overviews & countries & items & raw & statuses & om & cm & pm & das
                 & acm & H).
  destruct H as (Ho & Hom & _ & _ & Hi & _ & Hpm & Hr & _ & Hdas & Hacm & Hs & Hj & _).
  exists statuses, overviews, items, raw, das. repeat (split; [assumption|]).
  apply mapM_Forall2 in Hj. eapply Forall2_impl'; [|exact Hj].
  intros status r Hjoin. apply join_status_lookups in Hjoin. simpl in Hjoin.
  destruct Hjoin as (id & fk & cons & ov & Hid & Hfk & Hp & Hc & Hov & Hcomp
                     & F1 & F2 & F3 & F4 & O1 & O2 & O3 & O4).
  exists id, fk. split; [exact Hid|]. split; [exact Hfk|].
  pose proof (dict_lookup_hashable _ _ _ _ Hp) as Hhid.
  pose proof (dict_lookup_hashable _ _ _ _ Hc) as Hhfk.
  rewrite (prioritization_lookup_last items pm id Hpm Hhid) in Hp.
  rewrite (overview_lookup_last overviews om id Hom Hhid) in Hov.
  rewrite (considerations_lookup_last (processed_assessments out) acm fk Hacm Hhfk) in Hc.
  injection Hp as <-. injection Hov as <-. injection Hc as <-.
  split; [reflexivity|]. split; [cbv zeta; auto|]. split; [cbv zeta; auto|].
  rewrite Hcomp. apply find_dashboard_first.
Qed.

(** ** Phase label and region name of a joined record *)

Lemma py_eq_str_r (v : value) (s : string) : py_eq v (VStr s) = true -> v = VStr s.
Proof.
  destruct v; simpl; try discriminate.
  intros H. apply String.eqb_eq in H. congruence.
Qed.

Lemma join_status_phase_region (env : lookups) (status : value) (r : joined_record) :
  join_status env status = Ok r ->
  exists phase_display country_details country_data,
    py_get_default status "phase_display" (VStr "") = Ok phase_display /\
    jr_phase_display r = remap_phase_display phase_display /\
    status_country env status = Ok (country_details, country_data) /\
    resolve_region_id country_data country_details = Ok (jr_region_id r) /\
    dict_lookup region_id_to_name_map (jr_region_id r) VNone = Ok (jr_region_name r).
Proof.
  unfold join_status, status_country. intros H. bind_inv H. injection H as <-. simpl.
  repeat match goal with
         | E1 : ?m = Ok ?a, E2 : ?m = Ok ?b |- _ =>
             assert_fails (constr_eq a b); assert (b = a) by congruence; subst b
         end.
  repeat match goal with
         | E : ?m = Ok _ |- context [bind ?m _] => rewrite E; cbn [bind]
         end.
  do 3 eexists.
  split; [eassumption|]. split; [reflexivity|]. split; [reflexivity|].
  split; assumption.
Qed.

(** X12.  The phase label of a joined record is the label of the status
    (the empty string when the status has none) with "Action And
    Accountability" and "WorkPlan" replaced: these two labels never reach
    a joined record, every other label is passed on unchanged, and
    remapping twice is remapping once. *)
Theorem phase_display_remapped (env : lookups) (status : value) (r : joined_record) :
  join_status env status = Ok r ->
  exists phase_display,
    py_get_default status "phase_display" (VStr "") = Ok phase_display /\
    jr_phase_display r = remap_phase_display phase_display /\
    jr_phase_display r <> VStr "Action And Accountability" /\
    jr_phase_display r <> VStr "WorkPlan" /\
    (phase_display = VStr "Action And Accountability" ->
     jr_phase_display r = VStr "Action & accountability") /\
    (phase_display = VStr "WorkPlan" -> jr_phase_display r = VStr "Workplan") /\
    (phase_display <> VStr "Action And Accountability" ->
     phase_display <> VStr "WorkPlan" -> jr_phase_display r = phase_display) /\
    remap_phase_display (jr_phase_display r) = jr_phase_display r.
Proof.
  intros H. apply join_status_phase_region in H.
  destruct H as (pd & _ & _ & Hpd & -> & _). exists pd.
  split; [exact Hpd|]. split; [reflexivity|].
  unfold remap_phase_display.
  destruct (py_eq pd (VStr "Action And Accountability")) eqn:E1.
  { apply py_eq_str_r in E1. subst pd.
    repeat split; try discriminate; intros; congruence. }
  destruct (py_eq pd (VStr "WorkPlan")) eqn:E2.
  { apply py_eq_str_r in E2. subst pd.
    repeat split; try discriminate; intros; congruence. }
  rewrite E1, E2.
  repeat split; try reflexivity.
  - intros ->. simpl in E1. discriminate.
  - intros ->. simpl in E2. discriminate.
  - intros ->. simpl in E1. discriminate.
  - intros ->. simpl in E2. discriminate.
Qed.

Lemma py_eq_zero_falsy (v : value) : py_eq (VInt 0) v = true -> truthy v = false.
Proof.
  destruct v as [|b|z|q| | |]; simpl; try discriminate.
  - destruct b; [discriminate | reflexivity].
  - intros H. apply Qeq_bool_iff in H. unfold Qeq in H. simpl in H.
    destruct (Z.eqb_spec z 0); [reflexivity | lia].
  - intros H. rewrite Qeq_bool_comm in H.
    change (negb (Qeq_bool q (inject_Z 0)) = false). rewrite H. reflexivity.
Qed.

(** X13.  The region name of a joined record is the name the region
    table holds for its region id, and null when the table has none.  The
    name "Africa" (region 0) is reached only through the inline region of
    the status: it requires that the region of the country lookup is
    missing or falsy. *)
Theorem region_name_from_table (env : lookups) (status : value) (r : joined_record)
  (country_details : value) (country_data : option country_entry) :
  join_status env status = Ok r ->
  status_country env status = Ok (country_details, country_data) ->
  jr_region_name r = default VNone (map_find (jr_region_id r) region_id_to_name_map) /\
  (jr_region_name r = VStr "Africa" ->
   truthy (country_data_get ce_region country_data) = false /\
   inline_get country_details "region" = Ok (jr_region_id r) /\
   truthy (jr_region_id r) = false).
Proof.
  intros H Hsc. apply join_status_phase_region in H.
  destruct H as (pd & cd & cdata & _ & _ & Hsc' & Hreg & Hname).
  rewrite Hsc in Hsc'. injection Hsc' as <- <-.
  unfold dict_lookup in Hname.
  destruct (hashable (jr_region_id r)); [|discriminate].
  assert (Hn : default VNone (map_find (jr_region_id r) region_id_to_name_map) =
               jr_region_name r) by congruence.
  clear Hname. split; [symmetry; exact Hn|].
  intros Ha. rewrite Ha in Hn.
  assert (Hz : py_eq (VInt 0) (jr_region_id r) = true).
  { destruct (map_find (jr_region_id r) region_id_to_name_map) as [v|] eqn:E;
      [|discriminate Hn].
    change (v = VStr "Africa") in Hn. subst v. apply map_find_In in E as (k & Hin & Hk).
    unfold region_id_to_name_map in Hin. simpl in Hin.
    repeat (destruct Hin as [Hin|Hin]; [injection Hin as <-; try discriminate|]);
      [exact Hk | destruct Hin]. }
  apply py_eq_zero_falsy in Hz. unfold resolve_region_id in Hreg.
  destruct (truthy (country_data_get ce_region country_data)) eqn:T.
  - injection Hreg as Hreg. rewrite Hreg in T. congruence.
  - auto.
Qed.

(** ** Component groups: what grouping keeps *)

Lemma group_extends_refl (h : component_group) : group_extends h h.
Proof. repeat split. exists []. now rewrite app_nil_r. Qed.

Lemma group_extends_trans (h1 h2 h3 : component_group) :
  group_extends h1 h2 -> group_extends h2 h3 -> group_extends h1 h3.
Proof.
  intros (A1 & A2 & A3 & A4 & A5 & m1 & A6) (B1 & B2 & B3 & B4 & B5 & m2 & B6).
  repeat split; try congruence.
  exists (m1 ++ m2). rewrite B6, A6, app_assoc. reflexivity.
Qed.

Lemma group_extends_append (s : assessment_summary) (h : component_group) :
  group_extends h (append_assessment s h).
Proof. repeat split. exists [s]. reflexivity. Qed.

Lemma Forall2_extends_refl (g : list component_group) : Forall2 group_extends g g.
Proof. induction g; constructor; auto using group_extends_refl. Qed.

Lemma groups_grow_refl (g : list component_group) : groups_grow g g.
Proof. exists g, []. rewrite app_nil_r. split; [reflexivity | apply Forall2_extends_refl]. Qed.

Lemma Forall2_extends_trans (g1 g2 g3 : list component_group) :
  Forall2 group_extends g1 g2 -> Forall2 group_extends g2 g3 ->
  Forall2 group_extends g1 g3.
Proof.
  intros H; revert g3; induction H as [|h1 h2 g1 g2 H12 _ IH]; intros g3 H23.
  - inversion H23; constructor.
  - inversion H23 as [|? h3 ? g3' H2 H3]; subst. constructor.
    + eapply group_extends_trans; eassumption.
    + apply IH; assumption.
Qed.

Lemma groups_grow_trans (g1 g2 g3 : list component_group) :
  groups_grow g1 g2 -> groups_grow g2 g3 -> groups_grow g1 g3.
Proof.
  intros (a & n & -> & Ha) (b & m & -> & Hb).
  apply Forall2_app_inv_l in Hb as (b1 & b2 & Hb1 & Hb2 & ->).
  exists b1, (b2 ++ m). rewrite app_assoc. split; [reflexivity|].
  eapply Forall2_extends_trans; eassumption.
Qed.

Lemma groups_grow_alter (s : assessment_summary) (i : nat) (g : list component_group) :
  groups_grow g (alter (append_assessment s) i g).
Proof.
  exists (alter (append_assessment s) i g), []. rewrite app_nil_r.
  split; [reflexivity|]. revert i; induction g as [|h g IH]; intros [|i]; simpl.
  - constructor.
  - constructor.
  - constructor; [apply group_extends_append | apply Forall2_extends_refl].
  - constructor; [apply group_extends_refl | apply IH].
Qed.

Lemma groups_grow_new (g new : list component_group) : groups_grow g (g ++ new).
Proof. exists g, new. split; [reflexivity | apply Forall2_extends_refl]. Qed.

Lemma groups_grow_add_component (a : joined_record) (g : list component_group)
  (c : dashboard_component) :
  groups_grow g (add_component a g c).
Proof.
  unfold add_component. destruct (find_group _ g);
    [apply groups_grow_alter | apply groups_grow_new].
Qed.

Lemma groups_grow_components (a : joined_record) (cs : list dashboard_component)
  (g : list component_group) :
  groups_grow g (fold_left (add_component a) cs g).
Proof.
  revert g; induction cs as [|c cs IH]; intros g; simpl; [apply groups_grow_refl|].
  eapply groups_grow_trans; [apply groups_grow_add_component | apply IH].
Qed.

Lemma groups_grow_add_empty (a : joined_record) (g : list component_group) :
  groups_grow g (add_empty_assessment a g).
Proof.
  destruct g as [|h g]; [apply (groups_grow_new [])|].
  unfold add_empty_assessment. apply groups_grow_alter.
Qed.

Lemma groups_grow_assessment (g : list component_group) (a : joined_record) :
  groups_grow g (group_assessment g a).
Proof.
  unfold group_assessment.
  eapply groups_grow_trans; [|apply groups_grow_components].
  destruct (jr_components a); [apply groups_grow_add_empty | apply groups_grow_refl].
Qed.

Lemma groups_grow_fold (joined : list joined_record) (g : list component_group) :
  groups_grow g (fold_left group_assessment joined g).
Proof.
  revert g; induction joined as [|a joined IH]; intros g; simpl;
    [apply groups_grow_refl|].
  eapply groups_grow_trans; [apply groups_grow_assessment | apply IH].
Qed.

Lemma Forall2_extends_In (g g1 : list component_group) (h : component_group) :
  Forall2 group_extends g g1 -> In h g -> exists h1, In h1 g1 /\ group_extends h h1.
Proof.
  induction 1 as [|x y g g1 Hxy _ IH]; intros Hin; [destruct Hin|].
  destruct Hin as [<-|Hin]; [exists y; split; [left; reflexivity | exact Hxy]|].
  destruct (IH Hin) as (h1 & H1 & H2). exists h1. split; [right; exact H1 | exact H2].
Qed.

Lemma summary_recorded_grow (a : joined_record) (c : dashboard_component)
  (g g' : list component_group) :
  groups_grow g g' -> summary_recorded a c g -> summary_recorded a c g'.
Proof.
  intros (g1 & new & -> & F) (item & Hin & Hid & Hs).
  destruct (Forall2_extends_In _ _ _ F Hin) as (h1 & H1 & Hid1 & _ & _ & _ & _ & m & Hm).
  exists h1. split; [apply in_or_app; left; exact H1|]. rewrite Hid1.
  split; [exact Hid|]. rewrite Hm. apply in_or_app. left. exact Hs.
Qed.

Lemma alter_In {A : Type} (f : A -> A) (i : nat) (l : list A) (x : A) :
  l !! i = Some x -> In (f x) (alter f i l).
Proof.
  revert i; induction l as [|y l IH]; intros [|i]; simpl; try discriminate.
  - intros [= <-]. left. reflexivity.
  - intros H. right. apply IH, H.
Qed.

Lemma summary_recorded_add (a : joined_record) (g : list component_group)
  (c : dashboard_component) :
  summary_recorded a c (add_component a g c).
Proof.
  unfold add_component, summary_recorded.
  destruct (find_group (dc_component_id c) g) as [i|] eqn:E.
  - apply find_group_Some in E as (item & Hi & Heq & _).
    eexists. split; [apply alter_In; exact Hi|]. simpl.
    split; [right; exact Heq|]. apply in_or_app. right. left. reflexivity.
  - eexists. split; [apply in_or_app; right; left; reflexivity|]. simpl.
    split; [left; reflexivity | left; reflexivity].
Qed.

Lemma summary_recorded_components (a : joined_record) (cs : list dashboard_component)
  (g : list component_group) (c : dashboard_component) :
  In c cs -> summary_recorded a c (fold_left (add_component a) cs g).
Proof.
  revert g; induction cs as [|c0 cs IH]; intros g Hin; [destruct Hin|].
  simpl. destruct Hin as [->|Hin]; [|apply IH, Hin].
  eapply summary_recorded_grow; [apply groups_grow_components|].
  apply summary_recorded_add.
Qed.

(** X14.  No component occurrence is lost: for every joined record and
    every one of its dashboard components, a group with the component's
    id (the id itself when the group was created for it, an equal id
    otherwise) holds the summary of that record with the rating of that
    component.  Moreover every group holds at least one summary. *)
Theorem every_component_recorded (joined : list joined_record) :
  (forall a c,
     In a joined -> In c (jr_components a) ->
     summary_recorded a c (group_by_component joined)) /\
  Forall (fun item => cg_assessments item <> []) (group_by_component joined).
Proof.
  unfold group_by_component. split.
  - generalize (@nil component_group).
    induction joined as [|a0 joined IH]; intros g a c Ha Hc; [destruct Ha|].
    simpl. destruct Ha as [->|Ha]; [|apply IH; assumption].
    eapply summary_recorded_grow; [apply groups_grow_fold|].
    unfold group_assessment. apply summary_recorded_components, Hc.
  - assert (H0 : Forall (fun item => cg_assessments item <> [])
                        (@nil component_group)) by constructor.
    revert H0. generalize (@nil component_group).
    assert (Halter : forall s i g,
               Forall (fun item => cg_assessments item <> []) g ->
               Forall (fun item => cg_assessments item <> [])
                      (alter (append_assessment s) i g)).
    { intros s i g Hg; revert i; induction Hg as [|h g Hh Hg IH]; intros [|i]; simpl.
      - constructor.
      - constructor.
      - constructor; [|exact Hg]. simpl. destruct (cg_assessments h); discriminate.
      - constructor; [exact Hh | apply IH]. }
    assert (Hc : forall a cs g,
               Forall (fun item => cg_assessments item <> []) g ->
               Forall (fun item => cg_assessments item <> [])
                      (fold_left (add_component a) cs g)).
    { intros a cs; induction cs as [|c cs IH]; intros g Hg; [exact Hg|].
      simpl. apply IH. unfold add_component.
      destruct (find_group _ g); [apply Halter, Hg|].
      apply Forall_app; split; [exact Hg|]. repeat constructor. discriminate. }
    induction joined as [|a joined IH]; intros g Hg; [exact Hg|].
    simpl. apply IH. unfold group_assessment. apply Hc.
    destruct (jr_components a); [|exact Hg].
    destruct g as [|h g]; simpl; [repeat constructor; discriminate|].
    inversion Hg; subst. constructor; [|assumption].
    simpl. destruct (cg_assessments h); discriminate.
Qed.

Lemma head_grows (h : component_group) (t g' : list component_group) :
  groups_grow (h :: t) g' -> exists h' t', g' = h' :: t' /\ group_extends h h'.
Proof.
  intros (g1 & new & -> & F). inversion F as [|? h' ? t1 Hh Ht]; subst.
  exists h', (t1 ++ new). split; [reflexivity | exact Hh].
Qed.

Lemma empty_goes_first (joined : list joined_record) (h : component_group)
  (t : list component_group) :
  exists h' t',
    fold_left group_assessment joined (h :: t) = h' :: t' /\
    group_extends h h' /\
    forall a, In a joined -> jr_components a = [] ->
      In (empty_assessment a) (cg_assessments h').
Proof.
  revert h t; induction joined as [|a joined IH]; intros h t.
  - exists h, t. split; [reflexivity|]. split; [apply group_extends_refl|].
    intros a [].
  - simpl.
    destruct (head_grows h t _ (groups_grow_assessment (h :: t) a))
      as (h1 & t1 & E1 & X1).
    rewrite E1. destruct (IH h1 t1) as (h' & t' & E & X & Hall).
    exists h', t'. split; [exact E|].
    split; [eapply group_extends_trans; eassumption|].
    intros a' [<-|Hin] Hnil; [|apply Hall; assumption].
    unfold group_assessment in E1. rewrite Hnil in E1. simpl in E1.
    injection E1 as <- _.
    destruct X as (_ & _ & _ & _ & _ & more & ->).
    apply in_or_app. left. simpl. apply in_or_app. right. left. reflexivity.
Qed.

(** X15.  The first group is fixed by the first joined record: it is the
    group of that record's first component, or the synthetic group with
    null id and empty names when the record has no component.  It stays
    first, and the empty summary of every joined record without
    components is appended to it, whatever component it stands for. *)
Theorem first_group_collects_empty (a : joined_record) (rest : list joined_record) :
  exists head tail,
    group_by_component (a :: rest) = head :: tail /\
    first_group_fields a head /\
    forall a', In a' (a :: rest) -> jr_components a' = [] ->
      In (empty_assessment a') (cg_assessments head).
Proof.
  unfold group_by_component. simpl.
  assert (H1 : exists h t,
             group_assessment [] a = h :: t /\ first_group_fields a h /\
             (jr_components a = [] -> In (empty_assessment a) (cg_assessments h))).
  { unfold group_assessment, first_group_fields.
    destruct (jr_components a) as [|c cs] eqn:Ec.
    - simpl. eexists _, _. split; [reflexivity|]. simpl.
      split; [repeat split | intros _; left; reflexivity].
    - simpl. unfold add_component at 2. simpl.
      match goal with |- context [fold_left _ cs (?h0 :: ?t0)] =>
        destruct (head_grows h0 t0 _ (groups_grow_components a cs (h0 :: t0)))
          as (h & t & E & X) end.
      rewrite E. exists h, t. split; [reflexivity|].
      destruct X as (X1 & X2 & X3 & X4 & X5 & _). simpl in *.
      split; [repeat split; assumption | discriminate]. }
  destruct H1 as (h & t & E1 & Hf & He). rewrite E1.
  destruct (empty_goes_first rest h t) as (h' & t' & E & X & Hall).
  exists h', t'. split; [exact E|]. split.
  - unfold first_group_fields in *.
    destruct X as (X1 & X2 & X3 & X4 & X5 & _).
    destruct (jr_components a); rewrite X1, X2, X3, X4, X5; exact Hf.
  - intros a' [<-|Hin] Hnil; [|apply Hall; assumption].
    destruct X as (_ & _ & _ & _ & _ & more & ->).
    apply in_or_app. left. apply He, Hnil.
Qed.

(** ** The overview only fills its four fields *)

Lemma join_status_other_overview (env : lookups) (om : list (value * overview_fields))
  (status : value) (r : joined_record) :
  join_status env status = Ok r ->
  exists ov,
    dict_lookup om (jr_id r) default_overview = Ok ov /\
    join_status (with_overview_map om env) status = Ok (with_overview ov r).
Proof.
  unfold join_status. intros H. bind_inv H. injection H as <-.
  repeat match goal with
         | E1 : ?m = Ok ?a, E2 : ?m = Ok ?b |- _ =>
             assert_fails (constr_eq a b); assert (b = a) by congruence; subst b
         end.
  match goal with
  | E : dict_lookup (prioritization_map env) ?id [] = Ok _ |- _ =>
      pose proof (dict_lookup_hashable _ _ _ _ E) as Hid
  end.
  cbn [jr_id]. unfold dict_lookup at 1. rewrite Hid.
  eexists. split; [reflexivity|].
  cbn [with_overview_map country_map prioritization_map dashboard_assessments
       assessment_considerations_map overview_map].
  repeat match goal with
         | E : ?m = Ok _ |- context [bind ?m _] => rewrite E; cbn [bind]
         end.
  unfold dict_lookup at 1. rewrite Hid. cbn [bind].
  repeat match goal with
         | E : ?m = Ok _ |- context [bind ?m _] => rewrite E; cbn [bind]
         end.
  reflexivity.
Qed.

Lemma group_assessment_with_overview (ov : overview_fields)
  (g : list component_group) (r : joined_record) :
  group_assessment g (with_overview ov r) = group_assessment g r.
Proof. reflexivity. Qed.

Lemma track_country_with_overview (ov : overview_fields)
  (m : list (value * list country_assessment)) (r : joined_record) :
  track_country m (with_overview ov r) = track_country m r.
Proof. reflexivity. Qed.

(** X16.  The overview lookup only fills the four [assess_*_of_country]
    fields.  With any other overview lookup, the statuses that could be
    joined can still be joined; the joined records differ at most in those
    four fields, and the component groups and the country history derived
    from them are the same. *)
Theorem overview_only_fills_its_fields (env : lookups)
  (om : list (value * overview_fields)) (statuses : list value)
  (joined : list joined_record) :
  join_statuses env statuses = Ok joined ->
  exists joined',
    join_statuses (with_overview_map om env) statuses = Ok joined' /\
    Forall2 (fun r r' => exists ov, r' = with_overview ov r) joined joined' /\
    group_by_component joined' = group_by_component joined /\
    build_country_assessments joined' = build_country_assessments joined.
Proof.
  unfold join_statuses. intros H.
  assert (Hj : exists joined',
             mapM (join_status (with_overview_map om env)) statuses = Ok joined' /\
             Forall2 (fun r r' => exists ov, r' = with_overview ov r) joined joined').
  { revert joined H. induction statuses as [|s statuses IH]; simpl; intros joined H.
    - injection H as <-. exists []. split; [reflexivity | constructor].
    - apply bind_Ok in H as (r & Hr & H). apply bind_Ok in H as (rest & Hrest & H).
      injection H as <-.
      destruct (join_status_other_overview env om s r Hr) as (ov & _ & Hr').
      destruct (IH rest Hrest) as (rest' & E & F).
      rewrite Hr'. cbn [bind]. rewrite E. cbn [bind].
      eexists. split; [reflexivity|]. constructor; [eauto | exact F]. }
  destruct Hj as (joined' & E & F). exists joined'. split; [exact E|].
  split; [exact F|]. clear H E. split.
  - unfold group_by_component. generalize (@nil component_group).
    induction F as [|r r' l l' Hr _ IH]; intros g; [reflexivity|].
    destruct Hr as [ov ->]. simpl.
    rewrite group_assessment_with_overview. apply IH.
  - unfold build_country_assessments. f_equal.
    generalize (@nil (value * list country_assessment)).
    induction F as [|r r' l l' Hr _ IH]; intros m; [reflexivity|].
    destruct Hr as [ov ->]. simpl.
    rewrite track_country_with_overview.
    destruct (track_country m r); simpl; [apply IH | reflexivity].
Qed.

(** ** Country history: nothing is lost *)

Lemma history_count_app (m m' : list (value * list country_assessment)) :
  history_count (m ++ m') = history_count m + history_count m'.
Proof. apply sum_list_with_app. Qed.

Lemma track_country_count (m m' : list (value * list country_assessment))
  (data : joined_record) :
  track_country m data = Ok m' -> history_count m' = S (history_count m).
Proof.
  unfold track_country. destruct (hashable _); [|discriminate]. intros [= <-].
  destruct (map_insert_spec (jr_country_name data)
              (default [] (map_find (jr_country_name data) m) ++
               [country_assessment_of data]) m)
    as [(Hf & _ & ->)|(m1 & k0 & v0 & m2 & -> & _ & _ & Hf & ->)]; rewrite Hf.
  - rewrite history_count_app. unfold history_count at 2. simpl. lia.
  - rewrite !history_count_app. unfold history_count at 2 4. simpl.
    rewrite length_app. simpl. lia.
Qed.

Lemma insert_sorted_length {A : Type} (key : A -> value) (x : A) (l l' : list A) :
  insert_sorted key x l = Ok l' -> length l' = S (length l).
Proof.
  revert l'; induction l as [|y l IH]; simpl; intros l' H.
  - injection H as <-. reflexivity.
  - apply bind_Ok in H as (lt & _ & H). destruct lt.
    + apply bind_Ok in H as (r & Hr & H). injection H as <-. simpl.
      rewrite (IH r Hr). reflexivity.
    + injection H as <-. reflexivity.
Qed.

Lemma list_sort_length {A : Type} (key : A -> value) (l l' : list A) :
  list_sort key l = Ok l' -> length l' = length l.
Proof.
  revert l'; induction l as [|x l IH]; simpl; intros l' H.
  - injection H as <-. reflexivity.
  - apply bind_Ok in H as (s & Hs & H). apply insert_sorted_length in H.
    rewrite H, (IH s Hs). reflexivity.
Qed.

(** X17.  Whenever the country history is produced, it holds exactly one
    summary per joined record: the summaries of all countries together are
    as many as the joined records, whatever their dates. *)
Theorem history_keeps_every_record (joined : list joined_record)
  (history : list (value * list country_assessment)) :
  build_country_assessments joined = Ok history ->
  sum_list_with (fun kv => length (snd kv)) history = length joined.
Proof.
  unfold build_country_assessments. intros H.
  apply bind_Ok in H as (tracked & Ht & H).
  assert (Hc : history_count tracked = length joined).
  { assert (G : forall m m', foldM track_country m joined = Ok m' ->
                 history_count m' = history_count m + length joined).
    { clear Ht H. induction joined as [|d joined IH]; simpl; intros m m' Hm.
      - injection Hm as <-. lia.
      - apply bind_Ok in Hm as (m1 & H1 & Hm).
        rewrite (IH _ _ Hm), (track_country_count _ _ _ H1). lia. }
    rewrite (G _ _ Ht). reflexivity. }
  rewrite <- Hc. clear Ht Hc. unfold history_count.
  revert history H. induction tracked as [|kv tracked IH]; simpl; intros history H.
  - injection H as <-. reflexivity.
  - apply bind_Ok in H as (e & He & H). apply bind_Ok in H as (rest & Hrest & H).
    injection H as <-. apply bind_Ok in He as (sorted & Hs & He).
    injection He as <-. simpl.
    rewrite (list_sort_length _ _ _ Hs), (IH _ Hrest). reflexivity.
Qed.

(** ** Country history: undated summaries come first *)

Lemma history_sorted_form (joined : list joined_record) :
  Forall (fun d => hashable (jr_country_name d) = true) joined ->
  Forall (fun d => date_is_string (jr_date_of_assessment d) = true) joined ->
  exists tracked,
    Forall (fun kv => Forall (str_keyed date_key date_string) (snd kv)) tracked /\
    build_country_assessments joined =
    Ok (map (fun kv => (fst kv, sort_str date_string (snd kv))) tracked).
Proof.
  intros Hn Hdates.
  destruct (track_countries_inv joined [] []) as (tracked & Ht & Hinv);
    [split; constructor | constructor | exact Hn |].
  simpl in Hinv. destruct Hinv as [_ _ Hc _].
  assert (Hkeyed : Forall (fun kv => Forall (str_keyed date_key date_string) (snd kv))
                          tracked).
  { eapply Forall_impl; [exact Hc|]. intros kv ->.
    apply encountered_str_keyed, Hdates. }
  exists tracked. split; [exact Hkeyed|].
  unfold build_country_assessments. rewrite Ht. cbn [bind].
  apply sort_entries, Hkeyed.
Qed.

Lemma StronglySorted_lookup {A : Type} (R : A -> A -> Prop) (l : list A)
  (i j : nat) (a b : A) :
  StronglySorted R l -> i < j -> l !! i = Some a -> l !! j = Some b -> R a b.
Proof.
  intros Hs. revert i j. induction Hs as [|x l Hs IH Hx]; intros i j Hij Hi Hj;
    [discriminate|].
  destruct j as [|j]; [lia|]. simpl in Hj. destruct i as [|i]; simpl in Hi.
  - injection Hi as <-. rewrite Forall_forall in Hx.
    apply Hx. eapply list_elem_of_lookup_2; eauto.
  - apply (IH i j); auto. lia.
Qed.

Lemma ltb_empty_l (s : string) : String.ltb "" s = false -> s = "".
Proof. destruct s; [reflexivity | discriminate]. Qed.

(** X18.  When country names are hashable and dates are strings or
    missing, no summary with a date stands before a summary without date
    in the history of a country: undated summaries come first. *)
Theorem undated_summaries_first (joined : list joined_record)
  (history : list (value * list country_assessment)) (c : value)
  (l : list country_assessment) (i j : nat) (a b : country_assessment) :
  forallb (fun d => hashable (jr_country_name d)) joined = true ->
  forallb (fun d => date_is_string (jr_date_of_assessment d)) joined = true ->
  build_country_assessments joined = Ok history ->
  In (c, l) history ->
  i < j -> l !! i = Some a -> l !! j = Some b ->
  truthy (ca_date b) = false -> truthy (ca_date a) = false.
Proof.
  intros Hn Hdates Hb Hin Hij Hi Hj Tb.
  rewrite forallb_forall in Hn. rewrite forallb_forall in Hdates.
  destruct (history_sorted_form joined) as (tracked & Hk & E).
  { apply Forall_forall; intros d Hd; apply Hn, list_elem_of_In, Hd. }
  { apply Forall_forall; intros d Hd; apply Hdates, list_elem_of_In, Hd. }
  rewrite E in Hb. injection Hb as <-.
  apply in_map_iff in Hin as ([c0 l0] & [= <- <-] & Hin0). simpl in *.
  rewrite Forall_forall in Hk. apply list_elem_of_In in Hin0.
  pose proof (Hk _ Hin0) as Hl0. simpl in Hl0.
  assert (Hl : Forall (str_keyed date_key date_string) (sort_str date_string l0))
    by (rewrite sort_str_perm; exact Hl0).
  pose proof (StronglySorted_lookup _ _ i j a b (sort_str_sorted date_string l0)
                Hij Hi Hj) as Hab.
  unfold key_le in Hab.
  assert (Eb : date_string b = "")
    by (unfold date_string, date_key; rewrite Tb; reflexivity).
  rewrite Eb in Hab. apply ltb_empty_l in Hab.
  rewrite Forall_forall in Hl.
  pose proof (Hl a (list_elem_of_lookup_2 _ _ _ Hi)) as Ha.
  unfold str_keyed in Ha. rewrite Hab in Ha. unfold date_key in Ha.
  destruct (truthy (ca_date a)) eqn:Ta; [|reflexivity].
  rewrite Ha in Ta. discriminate.
Qed.

(** ** What a successful run requires *)

Lemma storable_key {A V : Type} (pair : A -> result (value * V)) (x : A) :
  storable pair x = true -> exists k v, pair x = Ok (k, v) /\ hashable k = true.
Proof.
  unfold storable. destruct (pair x) as [[k v]|]; [|discriminate]. simpl. eauto.
Qed.

(** X19.  A run succeeds only if every record has the key it is filed
    under: every status, every overview record and every assessment has
    an [id], and every country an [iso3], that can be a dictionary key;
    a missing or unhashable key aborts the whole run. *)
Theorem successful_run_requires_keys (inp : inputs) (out : outputs) :
  process_data inp = Ok out ->
  exists statuses overviews countries raw,
    results_of (per_status_data inp) = Ok statuses /\
    results_of (overview_document inp) = Ok overviews /\
    results_of (countries_data inp) = Ok countries /\
    results_of (assessments inp) = Ok raw /\
    Forall (fun r => exists k, py_getitem r "id" = Ok k /\ hashable k = true) statuses /\
    Forall (fun r => exists k, py_getitem r "id" = Ok k /\ hashable k = true) overviews /\
    Forall (fun r => exists k, py_getitem r "iso3" = Ok k /\ hashable k = true) countries /\
    Forall (fun r => exists k, py_getitem r "id" = Ok k /\ hashable k = true) raw.
Proof.
  intros H. apply process_data_inv in H.
  destruct H as (overviews & countries & items & raw & statuses & om & cm & pm & das
                 & acm & H).
  destruct H as (Ho & Hom & Hc & Hcm & _ & _ & _ & Hr & Hp & _ & Hacm & Hs & Hj & _).
  exists statuses, overviews, countries, raw. repeat (split; [assumption|]).
  split; [|split; [|split]].
  - apply mapM_Forall2 in Hj. apply Forall_forall. intros s Hin.
    apply list_elem_of_In in Hin.
    assert (Hex : exists r, join_status
              {| country_map := cm; prioritization_map := pm;
                 dashboard_assessments := das; assessment_considerations_map := acm;
                 overview_map := om |} s = Ok r).
    { clear -Hj Hin. induction Hj as [|x y l l' Hxy _ IH]; [destruct Hin|].
      destruct Hin as [<-|Hin]; eauto. }
    destruct Hex as [r Hr']. apply join_status_lookups in Hr'.
    destruct Hr' as (id & fk & cons & ov & Hid & _ & Hl & _).
    exists id. split; [exact Hid | eapply dict_lookup_hashable; exact Hl].
  - assert (Hst : forallb (storable overview_pair) overviews = true).
    { apply (store_loop_total overview_pair _ overview_entry_pair overviews []).
      eexists. exact Hom. }
    rewrite forallb_forall in Hst. apply Forall_forall. intros o Hin.
    apply list_elem_of_In in Hin.
    destruct (storable_key _ _ (Hst o Hin)) as (k & v & Hp' & Hk).
    unfold overview_pair in Hp'. bind_inv Hp'. injection Hp' as <- _. eauto.
  - assert (Hst : forallb (storable country_pair) countries = true).
    { apply (store_loop_total country_pair _ country_map_entry_pair countries []).
      eexists. exact Hcm. }
    rewrite forallb_forall in Hst. apply Forall_forall. intros o Hin.
    apply list_elem_of_In in Hin.
    destruct (storable_key _ _ (Hst o Hin)) as (k & v & Hp' & Hk).
    unfold country_pair in Hp'. bind_inv Hp'. injection Hp' as <- _. eauto.
  - assert (Hst : forallb (storable considerations_pair) (processed_assessments out)
                  = true).
    { apply (store_loop_total considerations_pair _ considerations_step_pair
               (processed_assessments out) []).
      eexists. exact Hacm. }
    rewrite forallb_forall in Hst.
    unfold process_assessments in Hp. apply mapM_Forall2 in Hp.
    clear -Hp Hst. induction Hp as [|a p l l' Hap _ IH]; constructor.
    + apply process_result_mirrors in Hap as [Hid _].
      exists (pr_id p). split; [exact Hid|].
      exact (Hst p (or_introl eq_refl)).
    + apply IH. intros x Hx. apply Hst. right. exact Hx.
Qed.

(** ** Paginated fetch *)

Lemma page_results_dict (data : value) (rs : list value) :
  page_results data = Some rs ->
  truthy data = true /\
  exists results,
    py_get data "results" = Ok results /\ results <> VNone /\
    py_iter results = Ok rs /\
    py_get_default data "results" (VList []) = Ok results /\
    py_get data "next" = Ok (field_of data "next").
Proof.
  unfold page_results. destruct (truthy data) eqn:T; [|discriminate].
  destruct data as [| | | | | |d]; simpl; try discriminate.
  unfold field_of. simpl.
  destruct (dict_get "results" d) as [results|] eqn:E; simpl; [|discriminate].
  intros H. split; [reflexivity|]. exists results.
  destruct results; try discriminate; simpl in *;
    injection H as <-; repeat split; discriminate.
Qed.

Lemma fetch_pages_follow (srv : server) (url url' : value) (pages : list (list value)) :
  page_path srv url pages url' ->
  forall fuel acc,
    fetch_pages srv (length pages + fuel) url acc =
    fetch_pages srv fuel url' (acc ++ concat pages).
Proof.
  induction 1 as [url|url data rs rest url' T Hs Hp _ IH]; intros fuel acc.
  - simpl. rewrite app_nil_r. reflexivity.
  - apply page_results_dict in Hp as (Td & results & Hr & Hn & Hi & _ & Hnext).
    cbn [length Nat.add fetch_pages concat]. rewrite T, Hs, Td. cbn [negb].
    rewrite Hr, Hnext. destruct results; try (exfalso; apply Hn; reflexivity);
      rewrite Hi, IH, app_assoc; reflexivity.
Qed.

Lemma fetch_authenticated_follow (srv : server) (url url' : value)
  (pages : list (list value)) :
  page_path srv url pages url' ->
  forall fuel acc,
    fetch_authenticated_pages srv (length pages + fuel) url acc =
    fetch_authenticated_pages srv fuel url' (acc ++ concat pages).
Proof.
  induction 1 as [url|url data rs rest url' T Hs Hp _ IH]; intros fuel acc.
  - simpl. rewrite app_nil_r. reflexivity.
  - apply page_results_dict in Hp as (Td & results & _ & _ & Hi & Hr & Hnext).
    cbn [length Nat.add fetch_authenticated_pages concat]. rewrite T, Hs, Hr, Hi, Hnext.
    rewrite IH, app_assoc. reflexivity.
Qed.

(** X20.  When the [next] links lead from the base URL through regular
    pages to a null link, both fetchers return the results of all pages,
    in page order, after one request per page. *)
Theorem fetch_returns_all_pages (srv : server) (base_url : string)
  (pages : list (list value)) (last : value) :
  page_path srv (VStr base_url) pages last ->
  truthy last = false ->
  forall fuel,
    length pages <= fuel ->
    fetch_paginated_data srv fuel base_url = Some (Done (concat pages)) /\
    fetch_authenticated_paginated_data srv fuel base_url = Some (Done (concat pages)).
Proof.
  intros Hp Tl fuel Hf.
  unfold fetch_paginated_data, fetch_authenticated_paginated_data.
  replace fuel with (length pages + (fuel - length pages)) by lia.
  rewrite (fetch_pages_follow _ _ _ _ Hp), (fetch_authenticated_follow _ _ _ _ Hp).
  simpl. destruct (fuel - length pages); simpl; rewrite Tl; auto.
Qed.

(** X21.  A request that fails after any number of pages makes both
    fetchers fail: the results of the pages already fetched are not
    returned. *)
Theorem fetch_failure_discards_pages (srv : server) (base_url : string)
  (pages : list (list value)) (url : value) :
  page_path srv (VStr base_url) pages url ->
  truthy url = true ->
  srv url = RequestFailed ->
  forall fuel,
    length pages < fuel ->
    fetch_paginated_data srv fuel base_url = Some (Failed RequestException) /\
    fetch_authenticated_paginated_data srv fuel base_url =
      Some (Failed RequestException).
Proof.
  intros Hp T Hs fuel Hf.
  unfold fetch_paginated_data, fetch_authenticated_paginated_data.
  replace fuel with (length pages + S (fuel - S (length pages))) by lia.
  rewrite (fetch_pages_follow _ _ _ _ Hp), (fetch_authenticated_follow _ _ _ _ Hp).
  simpl. rewrite T, Hs. auto.
Qed.

(** X22.  The two fetchers differ on a page without results.  The public
    fetcher stops there and returns what it has, without following the
    [next] link of that page, whether [results] is missing or null.  The
    authenticated fetcher takes missing [results] for an empty page and
    goes on with the [next] link, and raises [TypeError] when [results]
    is null. *)
Theorem fetchers_differ_without_results (srv : server) (base_url : string)
  (pages : list (list value)) (url : value) (d : list (string * value)) :
  page_path srv (VStr base_url) pages url ->
  truthy url = true ->
  srv url = Body (VDict d) ->
  d <> [] ->
  forall fuel,
    length pages < fuel ->
    (dict_get "results" d = None \/ dict_get "results" d = Some VNone ->
     fetch_paginated_data srv fuel base_url = Some (Done (concat pages))) /\
    (dict_get "results" d = None ->
     fetch_authenticated_paginated_data srv fuel base_url =
     fetch_authenticated_pages srv (fuel - S (length pages))
       (default VNone (dict_get "next" d)) (concat pages)) /\
    (dict_get "results" d = Some VNone ->
     fetch_authenticated_paginated_data srv fuel base_url =
     Some (Failed (PyError TypeError))).
Proof.
  intros Hp T Hs Hd fuel Hf.
  unfold fetch_paginated_data, fetch_authenticated_paginated_data.
  remember (fuel - S (length pages)) as k eqn:Ek.
  assert (Ef : fuel = length pages + S k) by lia. clear Ek. subst fuel.
  rewrite (fetch_pages_follow _ _ _ _ Hp), (fetch_authenticated_follow _ _ _ _ Hp).
  cbn [fetch_pages fetch_authenticated_pages app]. rewrite T, Hs.
  assert (Td : truthy (VDict d) = true) by (destruct d; [contradiction | reflexivity]).
  rewrite Td. cbn [negb]. unfold py_get, py_get_default.
  split; [|split].
  - intros [-> | ->]; reflexivity.
  - intros ->. simpl. rewrite app_nil_r. reflexivity.
  - intros ->. reflexivity.
Qed.


(** ** From fetching to processing *)

Lemma results_of_document (data : list value) :
  results_of (results_document data) = Ok data /\
  results_len (results_document data) = Ok (length data).
Proof. split; reflexivity. Qed.

(** X24.  After a run of [fetch_data] that ends well, the four required
    files exist and each holds an object whose [results] is the list that
    was fetched from its endpoint, so that processing finds them and
    iterates exactly the fetched records.  The overview file holds the
    fetched overview records when that fetch succeeded; when it failed,
    for whatever reason, the run still ends well and the overview file is
    left as it was, absent or with the data of an earlier run. *)
Theorem fetch_then_process (public authenticated : server) (fuel : nat)
  (fs fs' : files) :
  fetch_data public authenticated fuel fs = Some (fs', Done tt) ->
  exists statuses countries items raw inp,
    fetch_paginated_data public fuel PER_STATUS_URL = Some (Done statuses) /\
    fetch_paginated_data public fuel COUNTRIES_URL = Some (Done countries) /\
    fetch_paginated_data public fuel PER_PRIORITIZATION_URL = Some (Done items) /\
    fetch_paginated_data public fuel PER_ASSESSMENTS_URL = Some (Done raw) /\
    load_inputs fs' = Some inp /\
    results_of (per_status_data inp) = Ok statuses /\
    results_of (countries_data inp) = Ok countries /\
    results_of (prioritization_data inp) = Ok items /\
    results_of (assessments inp) = Ok raw /\
    match fetch_authenticated_paginated_data authenticated fuel PER_OVERVIEW_URL with
    | Some (Done overviews) =>
        per_overview_data inp = Some (results_document overviews)
    | _ => per_overview_data inp = per_overview_json fs
    end.
Proof.
  unfold fetch_data. intros H.
  destruct (fetch_paginated_data public fuel PER_STATUS_URL) as [[l1|]|];
    try discriminate.
  destruct (fetch_paginated_data public fuel COUNTRIES_URL) as [[l2|]|];
    try discriminate.
  destruct (fetch_paginated_data public fuel PER_PRIORITIZATION_URL) as [[l3|]|];
    try discriminate.
  destruct (fetch_paginated_data public fuel PER_ASSESSMENTS_URL) as [[l4|]|];
    try discriminate.
  exists l1, l2, l3, l4.
  destruct (fetch_authenticated_paginated_data authenticated fuel PER_OVERVIEW_URL)
    as [[l5|]|]; try discriminate; injection H as <-;
    (eexists; repeat split; reflexivity).
Qed.

(** X25.  A run of [fetch_data] that fails is not undone: the files of
    the endpoints fetched before the failure are already replaced, the
    others are as they were.  In particular a failure of the first fetch
    changes nothing, and the overview file is never touched by a failed
    run. *)
Theorem failed_fetch_leaves_partial_update (public authenticated : server)
  (fuel : nat) (fs fs' : files) (e : fetch_error) :
  fetch_data public authenticated fuel fs = Some (fs', Failed e) ->
  per_overview_json fs' = per_overview_json fs /\
  per_assessments_json fs' = per_assessments_json fs /\
  (fetch_paginated_data public fuel PER_STATUS_URL = Some (Failed e) /\ fs' = fs \/
   exists statuses,
     fetch_paginated_data public fuel PER_STATUS_URL = Some (Done statuses) /\
     per_status_json fs' = Some (results_document statuses) /\
     (fetch_paginated_data public fuel COUNTRIES_URL = Some (Failed e) /\
      countries_json fs' = countries_json fs /\
      prioritization_json fs' = prioritization_json fs \/
      exists countries,
        fetch_paginated_data public fuel COUNTRIES_URL = Some (Done countries) /\
        countries_json fs' = Some (results_document countries) /\
        (fetch_paginated_data public fuel PER_PRIORITIZATION_URL = Some (Failed e) /\
         prioritization_json fs' = prioritization_json fs \/
         exists items,
           fetch_paginated_data public fuel PER_PRIORITIZATION_URL =
             Some (Done items) /\
           prioritization_json fs' = Some (results_document items) /\
           fetch_paginated_data public fuel PER_ASSESSMENTS_URL = Some (Failed e)))).
Proof.
  unfold fetch_data. intros H.
  destruct (fetch_paginated_data public fuel PER_STATUS_URL) as [[l1|e1]|];
    try discriminate.
  2: { injection H as <- <-. destruct fs. auto. }
  destruct (fetch_paginated_data public fuel COUNTRIES_URL) as [[l2|e2]|];
    try discriminate.
  2: { injection H as <- <-. simpl. repeat split. right. eexists. eauto 10. }
  destruct (fetch_paginated_data public fuel PER_PRIORITIZATION_URL) as [[l3|e3]|];
    try discriminate.
  2: { injection H as <- <-. simpl. repeat split. right. eexists.
       split; [reflexivity|]. split; [reflexivity|]. right. eexists. eauto 10. }
  destruct (fetch_paginated_data public fuel PER_ASSESSMENTS_URL) as [[l4|e4]|];
    try discriminate.
  2: { injection H as <- <-. simpl. repeat split. right. eexists.
       split; [reflexivity|]. split; [reflexivity|]. right. eexists.
       split; [reflexivity|]. split; [reflexivity|]. right. eexists. eauto. }
  destruct (fetch_authenticated_paginated_data authenticated fuel PER_OVERVIEW_URL)
    as [[l5|]|]; discriminate.
Qed.

(** * Further instances *)

(** The capitals S and I-acute inside a phrase. *)
Lemma affirmative_ignores_case_and_accents_witness :
  contains_affirmative_word
    (VStr ("Respuesta: " ++ String "S" (String (ascii_of_N 205) "") ++ ".")) = true.
Proof.
  apply (affirmative_ignores_case_and_accents "Respuesta: "
           (String "S" (String (ascii_of_N 205) "")) ".").
  left. reflexivity.
Defined.

(** Of the two Kenyan records the second is found. *)
Lemma country_map_last_wins_witness :
  exists m e,
    build_country_map example_countries = Ok m /\
    find_country m (VStr "KEN") = Ok (Some e) /\ ce_name e = VStr "Kenya".
Proof.
  destruct (proj2 (proj1 (country_map_last_wins example_countries)) eq_refl) as [m Hm].
  pose proof (proj2 (country_map_last_wins example_countries) m (VStr "KEN") Hm eq_refl)
    as Hf.
  exists m. eexists. split; [exact Hm|]. split; [exact Hf|]. reflexivity.
Defined.

(** Status 1 has no overview record, overview 5 has one. *)
Lemma overview_map_last_wins_witness :
  exists m ov,
    build_overview_map example_overviews = Ok m /\
    dict_lookup m (VInt 1) default_overview = Ok default_overview /\
    dict_lookup m (VInt 5) default_overview = Ok ov /\
    ov_assess_preparedness_of_country ov = VBool true.
Proof.
  destruct (proj2 (proj1 (overview_map_last_wins example_overviews)) eq_refl) as [m Hm].
  exists m. eexists. split; [exact Hm|].
  split; [exact (proj2 (overview_map_last_wins example_overviews) m (VInt 1) Hm eq_refl)|].
  split; [exact (proj2 (overview_map_last_wins example_overviews) m (VInt 5) Hm eq_refl)|].
  reflexivity.
Defined.

(** The component with id 0 of the example has no description. *)
Lemma component_descriptions_keys_truthy_witness :
  exists descriptions,
    build_component_descriptions example_prioritizations = Ok descriptions /\
    Forall (fun kv => truthy (fst kv) = true) descriptions.
Proof.
  eexists. split; [vm_compute; reflexivity|].
  apply (component_descriptions_keys_truthy example_prioritizations).
  vm_compute. reflexivity.
Defined.

(** Status 1 has two prioritized components, status 2 none. *)
Lemma prioritization_map_last_wins_witness :
  exists m,
    build_prioritization_map example_prioritizations = Ok m /\
    dict_lookup m (VInt 2) [] = Ok [] /\
    exists components,
      dict_lookup m (VInt 1) [] = Ok components /\ length components = 2%nat.
Proof.
  eexists. split; [vm_compute; reflexivity|].
  split.
  - apply (proj1 (prioritization_map_last_wins example_prioritizations) _ (VInt 2));
      vm_compute; reflexivity.
  - eexists. split.
    + apply (proj1 (prioritization_map_last_wins example_prioritizations) _ (VInt 1));
        vm_compute; reflexivity.
    + reflexivity.
Defined.


(** A component of area 3. *)
Lemma flattened_area_name_witness :
  exists dc,
    flatten_component
      (VDict [("id", VInt 1); ("component_details", VDict [("area", VInt 3)])]) = Ok dc /\
    dict_lookup area_names (dc_area_id dc) (VStr "") = Ok (dc_area_name dc) /\
    is_str (dc_area_name dc) = true.
Proof.
  assert (E : {dc | flatten_component
                      (VDict [("id", VInt 1);
                              ("component_details", VDict [("area", VInt 3)])]) = Ok dc})
    by (eexists; vm_compute; reflexivity).
  destruct E as [dc E].
  destruct (flattened_area_name _ dc E) as (H1 & H2 & _).
  exists dc. auto.
Defined.

(** The first example assessment has a component that answers "Yes" on
    urban considerations and none that answers on epidemics. *)
Lemma assessment_flags_any_witness :
  exists p,
    process_result (hd VNone example_assessments) = Ok p /\
    cs_urban_considerations (assessment_considerations p) = true /\
    cs_epi_considerations (assessment_considerations p) = false.
Proof.
  assert (E : {p | process_result (hd VNone example_assessments) = Ok p})
    by (eexists; vm_compute; reflexivity).
  destruct E as [p E].
  destruct (assessment_flags_any _ p E) as (crs & H1 & _ & H3 & H4 & _).
  exists p. split; [exact E|].
  vm_compute in H1. injection H1 as <-.
  rewrite H3, H4. split; vm_compute; reflexivity.
Defined.

(** Two assessments with the id 10: the first has a component that
    answers "Yes" on urban considerations, the second has no components.
    The flags found are those of the second, the components those of the
    first. *)
Lemma flags_last_components_first_witness :
  exists p1 p2 d1 d2 m,
    process_assessments duplicate_assessments = Ok [p1; p2] /\
    build_dashboard_assessments duplicate_assessments = Ok [d1; d2] /\
    build_considerations_map [p1; p2] = Ok m /\
    cs_urban_considerations (assessment_considerations p1) = true /\
    cs_urban_considerations (assessment_considerations p2) = false /\
    length (da_components d1) = 1%nat /\
    da_components d2 = [] /\
    dict_lookup m (VInt 10) default_considerations =
      Ok (assessment_considerations p2) /\
    find_dashboard_assessment [d1; d2] (VInt 10) = da_components d1.
Proof.
  do 5 eexists.
  split; [vm_compute; reflexivity|]. split; [vm_compute; reflexivity|].
  split; [vm_compute; reflexivity|].
  lazymatch goal with
  | |- cs_urban_considerations (assessment_considerations ?p1) = true /\
       cs_urban_considerations (assessment_considerations ?p2) = false /\
       length (da_components ?d1) = 1%nat /\ da_components ?d2 = [] /\
       dict_lookup ?m _ _ = _ /\ _ =>
      destruct (flags_last_components_first [p1; p2] [d1; d2] m (VInt 10))
        as (Hlast & _ & Hfirst & _);
        [ vm_compute; reflexivity | reflexivity | ];
      split; [reflexivity|]; split; [reflexivity|];
      split; [reflexivity|]; split; [reflexivity|];
      split;
        [ apply (Hlast [p1] p2 []); [reflexivity | reflexivity | constructor]
        | apply (Hfirst [] d1 [d2]); [reflexivity | constructor | reflexivity] ]
  end.
Defined.

(** The run on the example files: five statuses, five joined records. *)
Lemma joined_record_sources_witness :
  exists out statuses,
    process_data example_inputs = Ok out /\
    results_of (per_status_data example_inputs) = Ok statuses /\
    length statuses = length (joined_data out).
Proof.
  assert (E : {out | process_data example_inputs = Ok out})
    by (eexists; vm_compute; reflexivity).
  destruct E as [out E].
  destruct (joined_record_sources example_inputs out E)
    as (statuses & overviews & items & raw & das & H1 & _ & _ & _ & _ & H2).
  exists out, statuses. split; [exact E|]. split; [exact H1|].
  exact (Forall2_length _ _ _ H2).
Defined.

(** A status in the phase "WorkPlan". *)
Lemma phase_display_remapped_witness :
  exists r,
    join_status example_env workplan_status = Ok r /\
    jr_phase_display r = VStr "Workplan".
Proof.
  assert (E : {r | join_status example_env workplan_status = Ok r})
    by (eexists; vm_compute; reflexivity).
  destruct E as [r E].
  destruct (phase_display_remapped example_env workplan_status r E)
    as (phase_display & H1 & _ & _ & _ & _ & H2 & _).
  exists r. split; [exact E|].
  apply H2. vm_compute in H1. congruence.
Defined.

(** A Kenyan status: the region 0 of the lookup is dropped, the inline
    region 0 is kept and named. *)
Lemma region_name_from_table_witness :
  exists r,
    join_status example_env (kenya_status 1 10 VNone) = Ok r /\
    jr_region_name r = default VNone (map_find (jr_region_id r) region_id_to_name_map).
Proof.
  assert (E : {r | join_status example_env (kenya_status 1 10 VNone) = Ok r})
    by (eexists; vm_compute; reflexivity).
  destruct E as [r E].
  assert (C : {c | status_country example_env (kenya_status 1 10 VNone) = Ok c})
    by (eexists; vm_compute; reflexivity).
  destruct C as [[country_details country_data] C].
  exists r. split; [exact E|].
  exact (proj1 (region_name_from_table example_env _ r country_details country_data E C)).
Defined.

(** The groups of the example records. *)
Lemma every_component_recorded_witness :
  Forall (fun item => cg_assessments item <> []) (group_by_component example_joined).
Proof. exact (proj2 (every_component_recorded example_joined)). Defined.

(** The example records, the last three of which have no components. *)
Lemma first_group_collects_empty_witness :
  exists head tail,
    group_by_component example_joined = head :: tail /\
    forall a', In a' example_joined -> jr_components a' = [] ->
      In (empty_assessment a') (cg_assessments head).
Proof.
  assert (E : {ar | example_joined = fst ar :: snd ar})
    by (eexists (_, _); vm_compute; reflexivity).
  destruct E as [[a rest] E]. cbn [fst snd] in E. rewrite E.
  destruct (first_group_collects_empty a rest) as (head & tail & H1 & _ & H3).
  exists head, tail. auto.
Defined.

(** The example statuses joined with and without overview lookup. *)
Lemma overview_only_fills_its_fields_witness :
  exists joined joined',
    join_statuses example_env example_statuses = Ok joined /\
    join_statuses (with_overview_map [] example_env) example_statuses = Ok joined' /\
    group_by_component joined' = group_by_component joined /\
    build_country_assessments joined' = build_country_assessments joined.
Proof.
  assert (E : {joined | join_statuses example_env example_statuses = Ok joined})
    by (eexists; vm_compute; reflexivity).
  destruct E as [joined E].
  destruct (overview_only_fills_its_fields example_env [] example_statuses joined E)
    as (joined' & H1 & _ & H2 & H3).
  exists joined, joined'. auto.
Defined.

(** The five example records are spread over two countries. *)
Lemma history_keeps_every_record_witness :
  exists history,
    build_country_assessments example_joined = Ok history /\
    sum_list_with (fun kv => length (snd kv)) history = length example_joined.
Proof.
  assert (E : {history | build_country_assessments example_joined = Ok history})
    by (eexists; vm_compute; reflexivity).
  destruct E as [history E].
  exists history. split; [exact E|].
  exact (history_keeps_every_record example_joined history E).
Defined.

(** Kenya's history starts with the record without date and the one
    with the empty date. *)
Lemma undated_summaries_first_witness :
  exists history l a b,
    build_country_assessments undated_joined = Ok history /\
    In (VStr "Kenya", l) history /\
    l !! 0%nat = Some a /\ l !! 1%nat = Some b /\
    ca_date b = VStr "" /\
    truthy (ca_date a) = false.
Proof.
  eexists. eexists. eexists. eexists.
  split; [vm_compute; reflexivity|].
  split; [left; reflexivity|].
  split; [reflexivity|]. split; [reflexivity|]. split; [reflexivity|].
  eapply (undated_summaries_first undated_joined _ (VStr "Kenya") _ 0 1 _ _);
    [ vm_compute; reflexivity | vm_compute; reflexivity | vm_compute; reflexivity
    | left; reflexivity | lia | reflexivity | reflexivity | reflexivity ].
Defined.

(** The run on the example files. *)
Lemma successful_run_requires_keys_witness :
  exists out statuses,
    process_data example_inputs = Ok out /\
    results_of (per_status_data example_inputs) = Ok statuses /\
    Forall (fun r => exists k, py_getitem r "id" = Ok k /\ hashable k = true) statuses.
Proof.
  assert (E : {out | process_data example_inputs = Ok out})
    by (eexists; vm_compute; reflexivity).
  destruct E as [out E].
  destruct (successful_run_requires_keys example_inputs out E)
    as (statuses & overviews & countries & raw & H1 & _ & _ & _ & H2 & _).
  exists out, statuses. auto.
Defined.

(** Two pages of two and one records. *)
Lemma fetch_returns_all_pages_witness :
  fetch_paginated_data two_page_server 2 "page1" =
    Some (Done [VInt 1; VInt 2; VInt 3]) /\
  fetch_authenticated_paginated_data two_page_server 2 "page1" =
    Some (Done [VInt 1; VInt 2; VInt 3]).
Proof.
  refine (fetch_returns_all_pages two_page_server "page1"
            [[VInt 1; VInt 2]; [VInt 3]] VNone _ eq_refl 2 _); [|simpl; lia].
  eapply path_next; [reflexivity | vm_compute; reflexivity | vm_compute; reflexivity |].
  eapply path_next; [reflexivity | vm_compute; reflexivity | vm_compute; reflexivity |].
  exact (path_here two_page_server VNone).
Defined.

(** The second request fails after a first page of two records. *)
Lemma fetch_failure_discards_pages_witness :
  fetch_paginated_data failing_server 2 "page1" = Some (Failed RequestException) /\
  fetch_authenticated_paginated_data failing_server 2 "page1" =
    Some (Failed RequestException).
Proof.
  refine (fetch_failure_discards_pages failing_server "page1"
            [[VInt 1; VInt 2]] (VStr "page2") _ eq_refl eq_refl 2 _); [|simpl; lia].
  eapply path_next; [reflexivity | vm_compute; reflexivity | vm_compute; reflexivity |].
  exact (path_here failing_server (VStr "page2")).
Defined.

(** A second page that has a link but no results: the public fetcher
    stops after the first page, the authenticated one goes on to the
    third. *)
Lemma fetchers_differ_without_results_witness :
  fetch_paginated_data (gap_server [("next", VStr "page3")]) 3 "page1" =
    Some (Done [VInt 1; VInt 2]) /\
  fetch_authenticated_paginated_data (gap_server [("next", VStr "page3")]) 3 "page1" =
    Some (Done [VInt 1; VInt 2; VInt 3]).
Proof.
  assert (P : page_path (gap_server [("next", VStr "page3")]) (VStr "page1")
                [[VInt 1; VInt 2]] (VStr "page2")).
  { eapply path_next; [reflexivity | vm_compute; reflexivity | vm_compute; reflexivity |].
    exact (path_here _ (VStr "page2")). }
  assert (N : [("next", VStr "page3")] <> @nil (string * value)) by discriminate.
  destruct (fetchers_differ_without_results
              (gap_server [("next", VStr "page3")]) "page1" [[VInt 1; VInt 2]]
              (VStr "page2") [("next", VStr "page3")] P eq_refl eq_refl N 3)
    as (H1 & H2 & _); [simpl; lia|].
  split.
  - exact (H1 (or_introl eq_refl)).
  - rewrite (H2 eq_refl). vm_compute. reflexivity.
Defined.


(** Four public endpoints answer, the authenticated one is unreachable:
    the run succeeds and leaves no overview file. *)
Lemma fetch_then_process_witness :
  exists fs' inp,
    fetch_data one_page_server unreachable_server 1 no_files = Some (fs', Done tt) /\
    load_inputs fs' = Some inp /\
    per_overview_data inp = None.
Proof.
  assert (E : {fs' | fetch_data one_page_server unreachable_server 1 no_files =
                     Some (fs', Done tt)})
    by (eexists; vm_compute; reflexivity).
  destruct E as [fs' E].
  destruct (fetch_then_process one_page_server unreachable_server 1 no_files fs' E)
    as (statuses & countries & items & raw & inp & _ & _ & _ & _ & H1 & _ & _ & _ & _ & H2).
  exists fs', inp. split; [exact E|]. split; [exact H1|].
  exact H2.
Defined.

(** Only the status endpoint answers: the status file is written, the
    others stay absent. *)
Lemma failed_fetch_leaves_partial_update_witness :
  exists fs',
    fetch_data status_only_server unreachable_server 1 no_files =
      Some (fs', Failed RequestException) /\
    per_overview_json fs' = None /\
    per_assessments_json fs' = None.
Proof.
  assert (E : {fs' | fetch_data status_only_server unreachable_server 1 no_files =
                     Some (fs', Failed RequestException)})
    by (eexists; vm_compute; reflexivity).
  destruct E as [fs' E].
  destruct (failed_fetch_leaves_partial_update status_only_server unreachable_server 1
              no_files fs' RequestException E) as (H1 & H2 & _).
  exists fs'. auto.
Defined.
